(** * PearlCard fare system: fare-rule lookup, caching and batch calculation

    A shallow embedding of the backend of the PearlCard fare calculator
    (app/cache.py, app/database.py, app/config.py, app/models.py,
    app/services/fare_calculator.py, app/api/endpoints.py) and the
    properties of it that the specification states.

    Conventions of the embedding:
    - a Python [int] is a [Z]; a Python [float] is a binary64 [float]
      (Rocq's primitive floats), so sums and [round(x, 2)] are computed
      as CPython computes them;
    - a Python [dict] keyed by strings is a [gmap string _]; a [dict]
      whose iteration order the code relies on is an association list;
    - a method that mutates [self] or a module-level singleton is a
      computation in the state-and-exception monad [M];
    - [time.time()] reads the field [clock] of the world; the clock only
      moves between two top-level calls. *)

From Stdlib Require Import ZArith List Ascii Floats.PrimFloat Floats.SpecFloat
  Floats.FloatOps Floats.FloatAxioms.
From stdpp Require Import gmap strings pretty list sorting.

Open Scope Z_scope.
Set Warnings "-inexact-float".

(** ** Exceptions and the state-and-exception monad *)

Inductive exn : Type :=
  | RedisError              (* redis.exceptions.ConnectionError, TimeoutError *)
  | ValueError              (* pydantic.ValidationError is a ValueError *)
  | AttributeError          (* a method called on None *)
  | HTTPException (status_code : Z).

Inductive outcome (A : Type) : Type :=
  | Returned (a : A)
  | Raised (e : exn).
Arguments Returned {A} a.
Arguments Raised {A} e.

(** A computation reads and writes a state [S]; what it wrote before it
    raised stays written, as in Python. *)
Definition M (S A : Type) : Type := S -> outcome A * S.

Definition ret {S A} (a : A) : M S A := fun s => (Returned a, s).
Definition raise {S A} (e : exn) : M S A := fun s => (Raised e, s).
Definition bind {S A B} (m : M S A) (k : A -> M S B) : M S B :=
  fun s => match m s with
           | (Returned a, s') => k a s'
           | (Raised e, s') => (Raised e, s')
           end.
Definition get_state {S} : M S S := fun s => (Returned s, s).
Definition put_state {S} (s : S) : M S unit := fun _ => (Returned tt, s).
Definition modify {S} (f : S -> S) : M S unit := fun s => (Returned tt, f s).

(** [try: m except Exception as e: h e] *)
Definition try_except {S A} (m : M S A) (h : exn -> M S A) : M S A :=
  fun s => match m s with
           | (Returned a, s') => (Returned a, s')
           | (Raised e, s') => h e s'
           end.

Declare Scope monad_scope.
Delimit Scope monad_scope with monad.
Notation "x <- m ;; k" := (bind m (fun x => k))
  (at level 100, m at next level, right associativity) : monad_scope.
Notation "m ;;; k" := (bind m (fun _ => k))
  (at level 100, right associativity) : monad_scope.
Open Scope monad_scope.

(** The statement [for x in xs: body x]. *)
Fixpoint for_each {S A} (xs : list A) (body : A -> M S unit) : M S unit :=
  match xs with
  | [] => ret tt
  | x :: xs' => body x ;;; for_each xs' body
  end.

(** ** Python floats *)

Module Float.

(** [bool(x)]: zero of either sign is falsy, everything else (NaN
    included) is truthy. *)
Definition truthy (x : float) : bool := negb (PrimFloat.eqb x 0%float).

(** The integer nearest to [m * 2^e], ties to the even one. *)
Definition round_half_even (m e : Z) : Z :=
  match e with
  | Z.neg p =>
      let d := Z.pow 2 (Z.pos p) in
      let q := m / d in
      let r := m mod d in
      match Z.compare (2 * r) d with
      | Lt => q
      | Gt => q + 1
      | Eq => if Z.even q then q else q + 1
      end
  | _ => m * Z.pow 2 e
  end.

Definition hundred : spec_float := S754_finite false 100 0.

(** [round(x, 2)] of CPython's [float.__round__]: NaN, infinities and
    zeros round to themselves; a finite [x] is printed correctly rounded
    (half to even, on the exact binary value) with two digits after the
    point, and the decimal is read back as the nearest float. *)
Definition round2 (x : float) : float :=
  match Prim2SF x with
  | S754_finite s m e =>
      match round_half_even (Z.pos m * 100) e with
      | Z.pos n => SF2Prim (SFdiv prec emax (S754_finite s n 0) hundred)
      | _ => SF2Prim (S754_zero s)
      end
  | _ => x
  end.

(** [sum] as the accumulating loop computes it: from [0.0], left to
    right, each addition rounded to binary64. *)
Definition sum (xs : list float) : float :=
  fold_left PrimFloat.add xs 0%float.

End Float.

(** ** Cache keys *)

(** [sorted([from_zone, to_zone])] *)
Definition sorted2 (from_zone to_zone : Z) : Z * Z :=
  if Z.leb from_zone to_zone then (from_zone, to_zone) else (to_zone, from_zone).

(** [FareRulesCache._make_key]: [f"fare:{z1}:{z2}"] with the lower zone
    first. *)
Definition _make_key (from_zone to_zone : Z) : string :=
  let '(z1, z2) := sorted2 from_zone to_zone in
  "fare:" +:+ pretty z1 +:+ ":" +:+ pretty z2.

(** ** [functools.lru_cache] *)

Module Lru.
Section Lru.
Context {K V : Type} `{EqDecision K}.

(** The memo table, most recently used first. *)
Definition t : Type := list (K * V).

Fixpoint find (k : K) (l : t) : option V :=
  match l with
  | [] => None
  | (k', v) :: l' => if decide (k = k') then Some v else find k l'
  end.

Fixpoint remove (k : K) (l : t) : t :=
  match l with
  | [] => []
  | (k', v) :: l' => if decide (k = k') then l' else (k', v) :: remove k l'
  end.

(** A hit moves the entry to the front. *)
Definition touch (k : K) (v : V) (l : t) : t := (k, v) :: remove k l.

(** A miss stores the result; a full table drops its oldest entry. *)
Definition add (maxsize : nat) (k : K) (v : V) (l : t) : t :=
  take maxsize ((k, v) :: l).

(** [cache_clear()] *)
Definition cache_clear : t := [].

End Lru.
Arguments t : clear implicits.
End Lru.

(** ** Python dicts whose order matters *)

(** [d[k] = v]: an existing key keeps its position, a new key goes last. *)
Fixpoint dict_set {K V} `{EqDecision K} (k : K) (v : V) (d : list (K * V))
  : list (K * V) :=
  match d with
  | [] => [(k, v)]
  | (k', v') :: d' =>
      if decide (k = k') then (k, v) :: d' else (k', v') :: dict_set k v d'
  end.

(** [d.get(k)] *)
Fixpoint dict_get {K V} `{EqDecision K} (k : K) (d : list (K * V)) : option V :=
  match d with
  | [] => None
  | (k', v) :: d' => if decide (k = k') then Some v else dict_get k d'
  end.

(** ** The rule store (app/database.py) *)

Module Database.

(** A row of [fare_rules]. The surrogate key [id] is left out: no query
    of the program reads it. Rows are kept in insertion order, the order
    in which [.first()] and [.all()] see them. *)
Record FareRuleDB : Type := {
  from_zone : Z;
  to_zone : Z;
  fare : float;
  description : string
}.

(** A row of [system_config]. *)
Record SystemConfigDB : Type := {
  key : string;
  value : string
}.

Record Tables : Type := {
  fare_rules : list FareRuleDB;
  system_config : list SystemConfigDB
}.

Definition default_rules : list FareRuleDB :=
  [ {| from_zone := 1; to_zone := 1; fare := 40%float; description := "Zone 1 to Zone 1" |};
    {| from_zone := 1; to_zone := 2; fare := 55%float; description := "Zone 1 to Zone 2" |};
    {| from_zone := 1; to_zone := 3; fare := 65%float; description := "Zone 1 to Zone 3" |};
    {| from_zone := 2; to_zone := 2; fare := 35%float; description := "Zone 2 to Zone 2" |};
    {| from_zone := 2; to_zone := 3; fare := 45%float; description := "Zone 2 to Zone 3" |};
    {| from_zone := 3; to_zone := 3; fare := 30%float; description := "Zone 3 to Zone 3" |} ].

(** [query(FareRuleDB).filter_by(from_zone=a, to_zone=b).first()] *)
Definition first_rule (a b : Z) (rows : list FareRuleDB) : option FareRuleDB :=
  List.find (fun r => Z.eqb (from_zone r) a && Z.eqb (to_zone r) b) rows.

(** [query(SystemConfigDB).filter_by(key=k).first()] *)
Definition first_config (k : string) (rows : list SystemConfigDB)
  : option SystemConfigDB :=
  List.find (fun c => bool_decide (key c = k)) rows.

(** [DatabaseManager.init_default_fare_rules] *)
Definition init_default_fare_rules (t : Tables) : Tables :=
  let rules :=
    if Nat.eqb (length (fare_rules t)) 0 then default_rules else fare_rules t in
  let config :=
    match first_config "max_journeys_per_day" (system_config t) with
    | Some _ => system_config t
    | None => system_config t ++ [ {| key := "max_journeys_per_day"; value := "20" |} ]
    end in
  {| fare_rules := rules; system_config := config |}.

(** [DatabaseManager.get_all_fare_rules]: the dict
    [{(rule.from_zone, rule.to_zone): rule.fare for rule in rules}]. *)
Definition get_all_fare_rules (t : Tables) : list ((Z * Z) * float) :=
  fold_left (fun d r => dict_set (from_zone r, to_zone r) (fare r) d)
            (fare_rules t) [].

(** Adding to a set of zones kept in ascending order. *)
Fixpoint zone_add (z : Z) (zones : list Z) : list Z :=
  match zones with
  | [] => [z]
  | x :: zones' =>
      if Z.ltb z x then z :: zones
      else if Z.eqb z x then zones
      else x :: zone_add z zones'
  end.

(** [DatabaseManager.get_available_zones]: the zones of all rules, as a
    sorted list without repeats. *)
Definition get_available_zones (t : Tables) : list Z :=
  fold_left (fun zones r => zone_add (to_zone r) (zone_add (from_zone r) zones))
            (fare_rules t) [].

(** [DatabaseManager.is_valid_zone] *)
Definition is_valid_zone (t : Tables) (zone : Z) : bool :=
  existsb (Z.eqb zone) (get_available_zones t).

(** [DatabaseManager.get_fare]: the exact pair first, then the reversed
    one. *)
Definition get_fare (t : Tables) (a b : Z) : option float :=
  match first_rule a b (fare_rules t) with
  | Some rule => Some (fare rule)
  | None =>
      match first_rule b a (fare_rules t) with
      | Some rule => Some (fare rule)
      | None => None
      end
  end.

(** [rule.fare = new_fare] on the first row matching the exact pair. *)
Fixpoint set_first_fare (a b : Z) (new_fare : float) (rows : list FareRuleDB)
  : list FareRuleDB :=
  match rows with
  | [] => []
  | r :: rows' =>
      if Z.eqb (from_zone r) a && Z.eqb (to_zone r) b
      then {| from_zone := from_zone r; to_zone := to_zone r;
              fare := new_fare; description := description r |} :: rows'
      else r :: set_first_fare a b new_fare rows'
  end.

(** [DatabaseManager.update_fare_rule]: "Update or create a fare rule".
    The lookup is by the exact pair only. *)
Definition update_fare_rule (t : Tables) (a b : Z) (new_fare : float) : Tables :=
  match first_rule a b (fare_rules t) with
  | Some _ =>
      {| fare_rules := set_first_fare a b new_fare (fare_rules t);
         system_config := system_config t |}
  | None =>
      {| fare_rules := fare_rules t ++
           [ {| from_zone := a; to_zone := b; fare := new_fare;
                description := "Zone " +:+ pretty a +:+ " to Zone " +:+ pretty b |} ];
         system_config := system_config t |}
  end.

(** [DatabaseManager.get_config_value] *)
Definition get_config_value (t : Tables) (k : string) : option string :=
  match first_config k (system_config t) with
  | Some c => Some (value c)
  | None => None
  end.

(** The ordered pair of zones a row is for. *)
Definition zone_pair (r : FareRuleDB) : Z * Z := (from_zone r, to_zone r).

(** The table constraint [UniqueConstraint('from_zone', 'to_zone')]: no
    two rows share the ordered pair of their zones. *)
Definition zone_pair_uc (rows : list FareRuleDB) : Prop :=
  NoDup (map zone_pair rows).

(** [min(zones)] and [max(zones)] of a list that starts with [z]. *)
Definition min_of (z : Z) (zones : list Z) : Z := fold_left Z.min zones z.
Definition max_of (z : Z) (zones : list Z) : Z := fold_left Z.max zones z.

(** [DatabaseManager.get_min_max_zones] *)
Definition get_min_max_zones (t : Tables) : option Z * option Z :=
  match get_available_zones t with
  | [] => (None, None)
  | z :: zones => (Some (min_of z zones), Some (max_of z zones))
  end.

(** What [session.commit()] answers: the new tables, or the
    [IntegrityError] of a broken table constraint, after which the
    session is closed with nothing written. *)
Inductive commit : Type :=
  | Committed (t : Tables)
  | IntegrityError.

(** The rows [add_zone] adds to its session, one per entry of the dict,
    in the order of the dict. *)
Definition zone_rows (zone_number : Z) (fares_to_existing_zones : list (Z * float))
  : list FareRuleDB :=
  map (fun '(existing_zone, fare) =>
         {| from_zone := zone_number; to_zone := existing_zone; fare := fare;
            description := "Zone " +:+ pretty zone_number +:+ " to Zone "
                           +:+ pretty existing_zone |})
      fares_to_existing_zones.

(** [DatabaseManager.add_zone]: all the rows are inserted in one
    transaction, which the constraint [_zone_pair_uc] lets through or
    refuses as a whole. *)
Definition add_zone (t : Tables) (zone_number : Z)
  (fares_to_existing_zones : list (Z * float)) : commit :=
  let rows := fare_rules t ++ zone_rows zone_number fares_to_existing_zones in
  if bool_decide (NoDup (map zone_pair rows))
  then Committed {| fare_rules := rows; system_config := system_config t |}
  else IntegrityError.

End Database.

(** ** The shared cache server *)

Module Redis.

(** The server as one client sees it: whether it answers, and its keys,
    each with the value written and the time at which it expires. A
    stored value stands for the bytes [str(fare)]; [float(str(x))] is
    [x], and those bytes are never empty, so [if cached_value:] holds
    exactly when the key is present. *)
Record Server : Type := {
  reachable : bool;
  kv : gmap string (float * Z)
}.

Definition with_kv (srv : Server) (m : gmap string (float * Z)) : Server :=
  {| reachable := reachable srv; kv := m |}.

(** [client.ping()] *)
Definition ping (srv : Server) : outcome unit :=
  if reachable srv then Returned tt else Raised RedisError.

(** [client.get(key)]. The server drops a key once the time is past its
    expiry; at the instant of the expiry itself the key is still
    served. *)
Definition get (now : Z) (key : string) (srv : Server) : outcome (option float) :=
  if reachable srv then
    Returned match kv srv !! key with
             | Some (v, expires) => if Z.leb now expires then Some v else None
             | None => None
             end
  else Raised RedisError.

(** [client.setex(key, ttl, value)] *)
Definition setex (now : Z) (key : string) (ttl : Z) (v : float) (srv : Server)
  : outcome unit * Server :=
  if reachable srv then (Returned tt, with_kv srv (<[key := (v, now + ttl)]> (kv srv)))
  else (Raised RedisError, srv).

(** [client.delete(key)] *)
Definition delete (key : string) (srv : Server) : outcome unit * Server :=
  if reachable srv then (Returned tt, with_kv srv (base.delete key (kv srv)))
  else (Raised RedisError, srv).

(** [for key in client.scan_iter("fare:*"): client.delete(key)]. Keys
    past their expiry are dropped as well: the server no longer shows
    them to anyone. *)
Definition delete_matching (prefix : string) (srv : Server) : outcome unit * Server :=
  if reachable srv then
    (Returned tt,
     with_kv srv (filter (fun kx => negb (String.prefix prefix (fst kx)) = true) (kv srv)))
  else (Raised RedisError, srv).

(** [pipeline.execute()] of a pipeline of queued [setex] commands. *)
Definition execute (now : Z) (queued : list (string * Z * float)) (srv : Server)
  : outcome unit * Server :=
  if reachable srv then
    (Returned tt,
     with_kv srv (fold_left (fun m '(key, ttl, v) => <[key := (v, now + ttl)]> m)
                            queued (kv srv)))
  else (Raised RedisError, srv).

End Redis.

(** ** The multi-level fare cache (app/cache.py) *)

Module Cache.

(** A [FareRulesCache] object. [redis_client] is [true] for a connected
    client and [false] for [None]. [memo] is the table of the
    [lru_cache] wrapped around [get_fare_cached]; it is keyed by the
    arguments of the call, as they were passed. *)
Record FareRulesCache : Type := {
  ttl : Z;
  redis_client : bool;
  _memory_cache : gmap string float;
  _cache_timestamps : gmap string Z;
  memo : Lru.t (Z * Z) (option float)
}.

Definition with_memory (c : FareRulesCache)
  (mem : gmap string float) (ts : gmap string Z) : FareRulesCache :=
  {| ttl := ttl c; redis_client := redis_client c;
     _memory_cache := mem; _cache_timestamps := ts; memo := memo c |}.

Definition with_memo (c : FareRulesCache) (l : Lru.t (Z * Z) (option float))
  : FareRulesCache :=
  {| ttl := ttl c; redis_client := redis_client c;
     _memory_cache := _memory_cache c; _cache_timestamps := _cache_timestamps c;
     memo := l |}.

(** The state a method of the cache runs in: the object and the server
    its client talks to. *)
Definition Env : Type := FareRulesCache * Redis.Server.

Definition on_self (f : FareRulesCache -> FareRulesCache) : M Env unit :=
  modify (fun st => (f (fst st), snd st)).

Definition on_server {A} (f : Redis.Server -> outcome A * Redis.Server) : M Env A :=
  fun st => let '(r, srv) := f (snd st) in (r, (fst st, srv)).

Definition maxsize : nat := 1000.

(** [FareRulesCache.__init__(redis_url, ttl)], run against the server;
    [redis_installed] is the module's [REDIS_AVAILABLE]. *)
Definition __init__ (redis_installed : bool) (redis_url : string) (ttl : Z)
  (srv : Redis.Server) : FareRulesCache :=
  let connected :=
    if redis_installed && negb (bool_decide (redis_url = "")) then
      match Redis.ping srv with
      | Returned _ => true
      | Raised _ => false
      end
    else false in
  {| ttl := ttl; redis_client := connected;
     _memory_cache := ∅; _cache_timestamps := ∅; memo := Lru.cache_clear |}.

(** [FareRulesCache._is_memory_cache_valid] *)
Definition _is_memory_cache_valid (now : Z) (key : string) (c : FareRulesCache)
  : bool :=
  match _cache_timestamps c !! key with
  | None => false
  | Some stamp => Z.ltb (now - stamp) (ttl c)
  end.

(** [self._memory_cache[key] = fare; self._cache_timestamps[key] = time.time()] *)
Definition store_memory (now : Z) (key : string) (fare : float)
  (c : FareRulesCache) : FareRulesCache :=
  with_memory c (<[key := fare]> (_memory_cache c)) (<[key := now]> (_cache_timestamps c)).

(** Level 1 of the lookup:
    [key in self._memory_cache and self._is_memory_cache_valid(key)]. *)
Definition memory_hit (now : Z) (key : string) (c : FareRulesCache) : option float :=
  match _memory_cache c !! key with
  | Some fare => if _is_memory_cache_valid now key c then Some fare else None
  | None => None
  end.

(** The body of [FareRulesCache.get_fare_cached], under the decorator. *)
Definition get_fare_cached_body (now : Z) (from_zone to_zone : Z)
  : M Env (option float) :=
  let key := _make_key from_zone to_zone in
  st <- get_state ;;
  let self := fst st in
  match memory_hit now key self with
  | Some fare => ret (Some fare)
  | None =>
      if redis_client self then
        try_except
          (cached_value <- on_server (fun srv => (Redis.get now key srv, srv)) ;;
           match cached_value with
           | Some fare => on_self (store_memory now key fare) ;;; ret (Some fare)
           | None => ret None
           end)
          (fun _ => ret None)
      else ret None
  end.

(** [FareRulesCache.get_fare_cached]: the body behind
    [@lru_cache(maxsize=1000)]. A call whose arguments are in the table
    returns the stored result (a stored [None] included) without running
    the body; otherwise the body runs and its result is stored. *)
Definition get_fare_cached (now : Z) (from_zone to_zone : Z)
  : M Env (option float) :=
  st <- get_state ;;
  match Lru.find (from_zone, to_zone) (memo (fst st)) with
  | Some result =>
      on_self (fun c => with_memo c (Lru.touch (from_zone, to_zone) result (memo c))) ;;;
      ret result
  | None =>
      result <- get_fare_cached_body now from_zone to_zone ;;
      on_self (fun c => with_memo c (Lru.add maxsize (from_zone, to_zone) result (memo c))) ;;;
      ret result
  end.

(** [FareRulesCache.set_fare_cache] *)
Definition set_fare_cache (now : Z) (from_zone to_zone : Z) (fare : float)
  : M Env unit :=
  let key := _make_key from_zone to_zone in
  on_self (store_memory now key fare) ;;;
  st <- get_state ;;
  if redis_client (fst st) then
    try_except (on_server (Redis.setex now key (ttl (fst st)) fare))
               (fun _ => ret tt)
  else ret tt.

(** Truth value of an [Optional[int]] argument: [None] and [0] are
    falsy. *)
Definition truthy_zone (zone : option Z) : bool :=
  match zone with
  | Some z => negb (Z.eqb z 0)
  | None => false
  end.

(** The branch "Invalidate specific entry" of [invalidate_cache]. *)
Definition invalidate_entry (key : string) : M Env unit :=
  on_self (fun c => with_memory c (delete key (_memory_cache c))
                                  (delete key (_cache_timestamps c))) ;;;
  on_self (fun c => with_memo c Lru.cache_clear) ;;;
  st <- get_state ;;
  if redis_client (fst st) then
    try_except (on_server (Redis.delete key)) (fun _ => ret tt)
  else ret tt.

(** The branch "Clear all caches" of [invalidate_cache]. *)
Definition invalidate_all : M Env unit :=
  on_self (fun c => with_memory c ∅ ∅) ;;;
  on_self (fun c => with_memo c Lru.cache_clear) ;;;
  st <- get_state ;;
  if redis_client (fst st) then
    try_except (on_server (Redis.delete_matching "fare:")) (fun _ => ret tt)
  else ret tt.

(** [FareRulesCache.invalidate_cache]: [if from_zone and to_zone:]
    chooses the branch. *)
Definition invalidate_cache (from_zone to_zone : option Z) : M Env unit :=
  if truthy_zone from_zone && truthy_zone to_zone then
    match from_zone, to_zone with
    | Some a, Some b => invalidate_entry (_make_key a b)
    | _, _ => invalidate_all
    end
  else invalidate_all.

(** [FareRulesCache.bulk_load_fares]: every rule goes to the memory
    cache; with a client, the [setex] commands are queued on a pipeline
    and executed at the end. *)
Definition bulk_load_fares (now : Z) (fare_rules : list ((Z * Z) * float))
  : M Env unit :=
  st <- get_state ;;
  let pipeline := redis_client (fst st) in
  for_each fare_rules (fun '((from_zone, to_zone), fare) =>
    on_self (store_memory now (_make_key from_zone to_zone) fare)) ;;;
  if pipeline then
    let queued :=
      map (fun '((from_zone, to_zone), fare) =>
             (_make_key from_zone to_zone, ttl (fst st), fare)) fare_rules in
    try_except (on_server (Redis.execute now queued)) (fun _ => ret tt)
  else ret tt.

End Cache.

(** ** The process: singletons, settings and the facade *)

(** Everything the running process can see or change. *)
Record World : Type := {
  clock : Z;                                  (* time.time() *)
  REDIS_AVAILABLE : bool;                     (* [import redis] succeeded *)
  REDIS_URL : option string;                  (* the environment variable *)
  redis : Redis.Server;
  database : Database.Tables;
  _db_manager : bool;                         (* the singleton exists *)
  _fare_cache : option Cache.FareRulesCache;  (* the singleton of cache.py *)
  _fare_rules_cache : option (list ((Z * Z) * float)); (* Settings *)
  _zones_cache : option (list Z)              (* Settings *)
}.

Definition with_redis (w : World) (srv : Redis.Server) : World :=
  {| clock := clock w; REDIS_AVAILABLE := REDIS_AVAILABLE w; REDIS_URL := REDIS_URL w;
     redis := srv; database := database w; _db_manager := _db_manager w;
     _fare_cache := _fare_cache w; _fare_rules_cache := _fare_rules_cache w;
     _zones_cache := _zones_cache w |}.

Definition with_database (w : World) (t : Database.Tables) (created : bool) : World :=
  {| clock := clock w; REDIS_AVAILABLE := REDIS_AVAILABLE w; REDIS_URL := REDIS_URL w;
     redis := redis w; database := t; _db_manager := created;
     _fare_cache := _fare_cache w; _fare_rules_cache := _fare_rules_cache w;
     _zones_cache := _zones_cache w |}.

Definition with_fare_cache (w : World) (c : option Cache.FareRulesCache) : World :=
  {| clock := clock w; REDIS_AVAILABLE := REDIS_AVAILABLE w; REDIS_URL := REDIS_URL w;
     redis := redis w; database := database w; _db_manager := _db_manager w;
     _fare_cache := c; _fare_rules_cache := _fare_rules_cache w;
     _zones_cache := _zones_cache w |}.

Definition with_settings (w : World)
  (rules : option (list ((Z * Z) * float))) (zones : option (list Z)) : World :=
  {| clock := clock w; REDIS_AVAILABLE := REDIS_AVAILABLE w; REDIS_URL := REDIS_URL w;
     redis := redis w; database := database w; _db_manager := _db_manager w;
     _fare_cache := _fare_cache w; _fare_rules_cache := rules;
     _zones_cache := zones |}.

Definition with_clock (w : World) (t : Z) : World :=
  {| clock := t; REDIS_AVAILABLE := REDIS_AVAILABLE w; REDIS_URL := REDIS_URL w;
     redis := redis w; database := database w; _db_manager := _db_manager w;
     _fare_cache := _fare_cache w; _fare_rules_cache := _fare_rules_cache w;
     _zones_cache := _zones_cache w |}.

(** A process that has just started: no singleton exists yet. *)
Definition boot (now : Z) (redis_installed : bool) (srv : Redis.Server)
  (t : Database.Tables) : World :=
  {| clock := now; REDIS_AVAILABLE := redis_installed; REDIS_URL := None;
     redis := srv; database := t; _db_manager := false;
     _fare_cache := None; _fare_rules_cache := None; _zones_cache := None |}.

(** [database.get_db_manager]: the first call creates the manager and
    runs [init_default_fare_rules]. *)
Definition get_db_manager : M World Database.Tables :=
  w <- get_state ;;
  (if _db_manager w then ret tt
   else put_state (with_database w (Database.init_default_fare_rules (database w)) true)) ;;;
  w' <- get_state ;;
  ret (database w').

(** A method call on the cache singleton: it runs on the shared object
    and on the server, at the current time. *)
Definition on_fare_cache {A} (method : Z -> M Cache.Env A) : M World A :=
  fun w =>
    match _fare_cache w with
    | Some self =>
        let '(r, (self', srv')) := method (clock w) (self, redis w) in
        (r, with_fare_cache (with_redis w srv') (Some self'))
    | None => (Raised AttributeError, w)
    end.

(** [cache.get_fare_cache]: the first call builds the cache and warms it
    up with all the rules of the store. *)
Definition get_fare_cache : M World unit :=
  w <- get_state ;;
  match _fare_cache w with
  | Some _ => ret tt
  | None =>
      let redis_url := default "redis://localhost:6379" (REDIS_URL w) in
      put_state (with_fare_cache w
        (Some (Cache.__init__ (REDIS_AVAILABLE w) redis_url 3600 (redis w)))) ;;;
      try_except
        (db_manager <- get_db_manager ;;
         let fare_rules := Database.get_all_fare_rules db_manager in
         on_fare_cache (fun now => Cache.bulk_load_fares now fare_rules))
        (fun _ => ret tt)
  end.

(** [cache.get_fare_with_cache] *)
Definition get_fare_with_cache (from_zone to_zone : Z) : M World float :=
  get_fare_cache ;;;
  fare <- on_fare_cache (fun now => Cache.get_fare_cached now from_zone to_zone) ;;
  match fare with
  | Some fare => ret fare
  | None =>
      db_manager <- get_db_manager ;;
      match Database.get_fare db_manager from_zone to_zone with
      | Some fare =>
          on_fare_cache (fun now => Cache.set_fare_cache now from_zone to_zone fare) ;;;
          ret (if Float.truthy fare then fare else 0%float)
      | None => ret 0%float
      end
  end.

Module Settings.

Definition MAX_JOURNEYS_PER_DAY : Z := 20.

Definition fallback_rules : list ((Z * Z) * float) :=
  [ ((1, 1), 40%float); ((1, 2), 55%float); ((1, 3), 65%float);
    ((2, 2), 35%float); ((2, 3), 45%float); ((3, 3), 30%float) ].

(** [Settings.get_fare_rules] *)
Definition get_fare_rules : M World (list ((Z * Z) * float)) :=
  w <- get_state ;;
  match _fare_rules_cache w with
  | Some rules => ret rules
  | None =>
      rules <- try_except
                 (db_manager <- get_db_manager ;;
                  ret (Database.get_all_fare_rules db_manager))
                 (fun _ => ret fallback_rules) ;;
      modify (fun w => with_settings w (Some rules) (_zones_cache w)) ;;;
      ret rules
  end.

(** [Settings.get_available_zones] *)
Definition get_available_zones : M World (list Z) :=
  w <- get_state ;;
  match _zones_cache w with
  | Some zones => ret zones
  | None =>
      zones <- try_except
                 (db_manager <- get_db_manager ;;
                  ret (Database.get_available_zones db_manager))
                 (fun _ => ret []) ;;
      modify (fun w => with_settings w (_fare_rules_cache w) (Some zones)) ;;;
      ret zones
  end.

(** [Settings.get_fare]. The module [app.cache] is part of the program,
    so its import succeeds and the call to [get_fare_with_cache] is the
    whole method; the lines after it only run on an [ImportError]. *)
Definition get_fare (from_zone to_zone : Z) : M World float :=
  get_fare_with_cache from_zone to_zone.

(** [Settings.reload_fare_rules] *)
Definition reload_fare_rules : M World unit :=
  modify (fun w => with_settings w None None) ;;;
  get_fare_rules ;;;
  get_available_zones ;;;
  ret tt.

(** [Settings.is_valid_zone] *)
Definition is_valid_zone (zone : Z) : M World bool :=
  try_except
    (db_manager <- get_db_manager ;;
     ret (Database.is_valid_zone db_manager zone))
    (fun _ => ret false).

(** [Settings.get_min_zone] *)
Definition get_min_zone : M World Z :=
  zones <- get_available_zones ;;
  ret match zones with
      | [] => 1
      | z :: zones' => Database.min_of z zones'
      end.

(** [Settings.get_max_zone] *)
Definition get_max_zone : M World Z :=
  zones <- get_available_zones ;;
  ret match zones with
      | [] => 3
      | z :: zones' => Database.max_of z zones'
      end.

End Settings.

(** ** Request and response models (app/models.py) *)

Module Models.

Record Journey : Type := {
  from_zone : Z;
  to_zone : Z
}.

(** [JourneyWithFare(Journey)]: the inherited fields, then its own. *)
Record JourneyWithFare : Type := {
  journey : Journey;
  fare : float;
  journey_id : option Z
}.

Record JourneyRequest : Type := {
  request_journeys : list Journey
}.

Record FareResponse : Type := {
  journeys : list JourneyWithFare;
  total_daily_fare : float;
  journey_count : Z
}.

(** A zone field of [Journey]: the bound [ge=1], then the validator
    [validate_zone]. The result says whether the field is accepted. *)
Definition validate_zone (v : Z) : M World bool :=
  if Z.ltb v 1 then ret false else Settings.is_valid_zone v.

(** [Journey(from_zone=a, to_zone=b)]: both fields are validated, and a
    rejected field raises the [ValidationError]. *)
Definition Journey__init__ (a b : Z) : M World Journey :=
  from_ok <- validate_zone a ;;
  to_ok <- validate_zone b ;;
  if from_ok && to_ok then ret {| from_zone := a; to_zone := b |}
  else raise ValueError.

(** [JourneyWithFare(from_zone=.., to_zone=.., fare=.., journey_id=..)]:
    the validators of [Journey] are inherited. *)
Definition JourneyWithFare__init__ (a b : Z) (f : float) (id : Z)
  : M World JourneyWithFare :=
  j <- Journey__init__ a b ;;
  ret {| journey := j; fare := f; journey_id := Some id |}.

Fixpoint validate_items (payload : list (Z * Z)) : M World (list Journey) :=
  match payload with
  | [] => ret []
  | (a, b) :: rest =>
      from_ok <- validate_zone a ;;
      to_ok <- validate_zone b ;;
      items <- validate_items rest ;;
      if from_ok && to_ok then ret ({| from_zone := a; to_zone := b |} :: items)
      else raise ValueError
  end.

(** [JourneyRequest(journeys=payload)]: the items of the list are
    validated first, each with both its fields; the list is held
    against the bounds [min_items=1] and [max_items=20] after that, and
    the validator [validate_journey_count] runs on a list that passed.
    Every failure is the same [ValidationError]; the validation of the
    items may already have created the database manager when the list
    is refused for its length. *)
Definition JourneyRequest__init__ (payload : list (Z * Z)) : M World JourneyRequest :=
  items <- validate_items payload ;;
  let n := Z.of_nat (length items) in
  if Z.ltb n 1 || Z.ltb 20 n then raise ValueError
  else if Z.ltb 20 (Z.of_nat (length items)) then raise ValueError
  else ret {| request_journeys := items |}.

End Models.

(** ** The fare calculator (app/services/fare_calculator.py) *)

(** [FareCalculatorInterface] / the abstract method of
    [BaseFareCalculator]. *)
Class FareCalculator : Type := {
  calculate_single_fare : Models.Journey -> M World float
}.

(** The loop of [BaseFareCalculator.calculate_all_fares], from the
    journey numbered [idx] on, with the values of its two accumulators. *)
Fixpoint fare_loop `{FareCalculator} (idx : Z) (journeys : list Models.Journey)
  (journeys_with_fare : list Models.JourneyWithFare) (total_fare : float)
  : M World (list Models.JourneyWithFare * float) :=
  match journeys with
  | [] => ret (journeys_with_fare, total_fare)
  | journey :: rest =>
      fare <- calculate_single_fare journey ;;
      journey_with_fare <-
        Models.JourneyWithFare__init__
          (Models.from_zone journey) (Models.to_zone journey) fare idx ;;
      fare_loop (idx + 1) rest (journeys_with_fare ++ [journey_with_fare])
                (total_fare + fare)%float
  end.

(** [BaseFareCalculator.calculate_all_fares] *)
Definition calculate_all_fares `{FareCalculator} (journeys : list Models.Journey)
  : M World Models.FareResponse :=
  acc <- fare_loop 1 journeys [] 0%float ;;
  ret {| Models.journeys := fst acc;
         Models.total_daily_fare := Float.round2 (snd acc);
         Models.journey_count := Z.of_nat (length journeys) |}.

(** [ZoneBasedFareCalculator] *)
#[export] Instance ZoneBasedFareCalculator : FareCalculator := {
  calculate_single_fare journey :=
    Settings.get_fare (Models.from_zone journey) (Models.to_zone journey)
}.

(** ** The API (app/api/endpoints.py) *)

Module Endpoints.

(** The body of [calculate_fares], given the parsed request. *)
Definition calculate_fares `{FareCalculator} (request : Models.JourneyRequest)
  : M World Models.FareResponse :=
  try_except
    ((if Z.ltb Settings.MAX_JOURNEYS_PER_DAY
               (Z.of_nat (length (Models.request_journeys request)))
      then raise (HTTPException 400) else ret tt) ;;;
     calculate_all_fares (Models.request_journeys request))
    (fun e => match e with
              | ValueError => raise (HTTPException 400)
              | _ => raise (HTTPException 500)
              end).

(** [POST /api/calculate-fares]: the framework parses the body into a
    [JourneyRequest] and answers 422 when that fails; only then does the
    body of the endpoint run. *)
Definition post_calculate_fares `{FareCalculator} (payload : list (Z * Z))
  : M World Models.FareResponse :=
  request <- try_except (Models.JourneyRequest__init__ payload)
                        (fun _ => raise (HTTPException 422)) ;;
  calculate_fares request.

(** [db_manager.update_fare_rule(a, b, fare)] on the manager singleton. *)
Definition db_update_fare_rule (a b : Z) (new_fare : float) : M World unit :=
  db_manager <- get_db_manager ;;
  modify (fun w => with_database w (Database.update_fare_rule db_manager a b new_fare) true).

(** [PUT /api/fare-rules]. The bounds [ge=1] and [gt=0] of the
    parameters are checked by the framework, which answers 422. The
    answer of the endpoint is built from [rule.from_zone], [rule.to_zone]
    and [rule.fare], where [rule] is the row that
    [db_manager.update_fare_rule] returned: its [session.commit()] has
    expired the attributes of the row and its [session.close()] has
    detached the row, so the first of these reads raises
    [DetachedInstanceError]. Nothing catches it, and the call is
    answered with status 500, after the rule was written and the
    settings were reloaded. *)
Definition update_fare_rule (from_zone to_zone : Z) (fare : float) : M World unit :=
  if Z.ltb from_zone 1 || Z.ltb to_zone 1 || negb (PrimFloat.ltb 0%float fare)
  then raise (HTTPException 422)
  else
    from_ok <- Settings.is_valid_zone from_zone ;;
    to_ok <- (if from_ok then Settings.is_valid_zone to_zone else ret false) ;;
    if from_ok && to_ok then
      db_update_fare_rule from_zone to_zone fare ;;;
      (* Clear cache to ensure new rules are loaded *)
      Settings.reload_fare_rules ;;;
      (* rule.from_zone *)
      raise (HTTPException 500)
    else
      Settings.get_available_zones ;;;
      raise (HTTPException 400).

End Endpoints.

(** ** Running the process *)

(** What the outside can do to a running process. *)
Inductive event : Type :=
  | Resolve (from_zone to_zone : Z)                     (* settings.get_fare *)
  | UpdateRule (from_zone to_zone : Z) (fare : float)   (* PUT /api/fare-rules *)
  | Sleep (seconds : Z)                                 (* time passes *)
  | Network (up : bool).                                (* the server comes or goes *)

Definition handle (ev : event) (w : World) : World :=
  match ev with
  | Resolve a b => snd (Settings.get_fare a b w)
  | UpdateRule a b f => snd (Endpoints.update_fare_rule a b f w)
  | Sleep d => with_clock w (clock w + Z.max 0 d)
  | Network up =>
      with_redis w {| Redis.reachable := up; Redis.kv := Redis.kv (redis w) |}
  end.

Definition run (evs : list event) (w : World) : World :=
  fold_left (fun w ev => handle ev w) evs w.

(** The worlds a process started on the default rules can get to. *)
Definition reachable (w : World) : Prop :=
  exists now installed srv evs,
    w = run evs (boot now installed srv
                   {| Database.fare_rules := Database.default_rules;
                      Database.system_config := [] |}).

(** The result of a computation, without the state it leaves. *)
Definition result_of {A} (m : M World A) (w : World) : outcome A := fst (m w).

(** ** Predicates of the statements *)

(** No character of the string is the separator [":"]. *)
Fixpoint no_colon (s : string) : Prop :=
  match s with
  | EmptyString => True
  | String c s' => c <> ":"%char /\ no_colon s'
  end.

(** The tables as the process sees them: the first use of the manager
    fills an empty store with the default rules. *)
Definition db_view (w : World) : Database.Tables :=
  if _db_manager w then database w
  else Database.init_default_fare_rules (database w).

(** The world once the database manager exists. *)
Definition db_ready (w : World) : World :=
  if _db_manager w then w
  else with_database w (Database.init_default_fare_rules (database w)) true.

(** A journey the models accept: both zones are at least 1 and occur in
    a rule of the store. *)
Definition valid_zone (t : Database.Tables) (zone : Z) : bool :=
  negb (Z.ltb zone 1) && Database.is_valid_zone t zone.

Definition valid_journey (t : Database.Tables) (j : Models.Journey) : bool :=
  valid_zone t (Models.from_zone j) && valid_zone t (Models.to_zone j).

(** No two rules of the table are for the same unordered pair of
    zones. *)
Definition unordered_pair_unique (rows : list Database.FareRuleDB) : Prop :=
  NoDup (map (fun r => sorted2 (Database.from_zone r) (Database.to_zone r)) rows).

(** The cache object after the loop of [bulk_load_fares] over [rules]. *)
Definition loaded (now : Z) (rules : list ((Z * Z) * float))
  (c : Cache.FareRulesCache) : Cache.FareRulesCache :=
  fold_left (fun c '((from_zone, to_zone), fare) =>
               Cache.store_memory now (_make_key from_zone to_zone) fare c)
            rules c.

(** The fare the rule store gives for a pair, as the facade hands it
    on: [fare or 0.0], the "no fare" value for a pair without a rule. *)
Definition store_fare (t : Database.Tables) (a b : Z) : float :=
  match Database.get_fare t a b with
  | Some fare => if Float.truthy fare then fare else 0%float
  | None => 0%float
  end.

(** ** Worlds of the examples *)

Definition rule (a b : Z) (f : float) : Database.FareRuleDB :=
  {| Database.from_zone := a; Database.to_zone := b; Database.fare := f;
     Database.description := "Zone " +:+ pretty a +:+ " to Zone " +:+ pretty b |}.

Definition tables (rows : list Database.FareRuleDB) : Database.Tables :=
  {| Database.fare_rules := rows; Database.system_config := [] |}.

(** No shared cache server within reach, nothing stored on it. *)
Definition no_server : Redis.Server := {| Redis.reachable := false; Redis.kv := ∅ |}.

(** A server that answers, with nothing stored on it. *)
Definition empty_server : Redis.Server := {| Redis.reachable := true; Redis.kv := ∅ |}.

(** A fresh process on the default rules, at time 0. *)
Definition default_world : World :=
  boot 0 false no_server (tables Database.default_rules).

(** The rules [{(1,1):40, (1,2):55, (2,3):45, (3,3):30}]. *)
Definition four_rules_world : World :=
  boot 0 false no_server
       (tables [rule 1 1 40%float; rule 1 2 55%float; rule 2 3 45%float; rule 3 3 30%float]).

(** A store whose only fare is an exact binary tie of [round(x, 2)]. *)
Definition eighth_world : World :=
  boot 0 false no_server (tables [rule 1 1 0.125%float]).

Definition journey (a b : Z) : Models.Journey :=
  {| Models.from_zone := a; Models.to_zone := b |}.

Definition item (a b : Z) (f : float) (id : Z) : Models.JourneyWithFare :=
  {| Models.journey := journey a b; Models.fare := f; Models.journey_id := Some id |}.

(** A process that resolved (1, 2), after which the rule of (1, 2) was
    set to 60 through the API (which reloads the settings). *)
Definition updated_world : World :=
  run [Resolve 1 2; UpdateRule 1 2 60%float] default_world.

(** A process that resolved (2, 1), after which the rule of (1, 2) was
    set to 60 through the API and more than a TTL went by. *)
Definition later_world : World :=
  run [Resolve 2 1; UpdateRule 1 2 60%float; Sleep 4000] default_world.

(** A cache object of its own, without a client, with the default TTL. *)
Definition local_cache : Cache.Env :=
  (Cache.__init__ false "redis://localhost:6379" 3600 no_server, no_server).

(** [set(1, 2, 55.0)] at time 0, then [get(1, 2)] at time 10. *)
Definition read_once : Cache.Env :=
  snd (Cache.get_fare_cached 10 1 2
         (snd (Cache.set_fare_cache 0 1 2 55%float local_cache))).

(** A process that resolved (1, 2) and then sat idle for more than a
    TTL: its memory cache is expired, its memo table holds (1, 2). *)
Definition idle_world : World :=
  run [Resolve 1 2; Sleep 4000] default_world.

(** A cache object with a connected client, after [set(1, 2, 55.0)] and
    [set(2, 3, 45.0)] at time 0. *)
Definition shared_cache : Cache.Env :=
  snd (Cache.set_fare_cache 0 2 3 45%float
         (snd (Cache.set_fare_cache 0 1 2 55%float
                 (Cache.__init__ true "redis://localhost:6379" 3600 empty_server,
                  empty_server)))).

(** ** More predicates of the statements *)

(** The request bodies [POST /api/calculate-fares] accepts: between 1
    and 20 journeys, all between zones the store knows. *)
Definition acceptable (t : Database.Tables) (payload : list (Z * Z)) : bool :=
  Z.leb 1 (Z.of_nat (length payload))
  && Z.leb (Z.of_nat (length payload)) 20
  && forallb (fun p => valid_zone t p.1 && valid_zone t p.2) payload.

(** Events that leave the rules alone. *)
Definition read_only (ev : event) : bool :=
  match ev with
  | UpdateRule _ _ _ => false
  | _ => true
  end.

(** Every fare of the table is non-zero, as the API asks of a fare. *)
Definition fares_truthy (t : Database.Tables) : Prop :=
  Forall (fun r => Float.truthy (Database.fare r) = true) (Database.fare_rules t).

(** The shared cache holds nothing but fares of the table: whatever is
    stored under the key of a zone pair is the fare the table gives for
    that pair. *)
Definition server_fares_of (t : Database.Tables) (srv : Redis.Server) : Prop :=
  forall a b v expires,
    Redis.kv srv !! _make_key a b = Some (v, expires) ->
    Database.get_fare t a b = Some v.

(** The same for the two process-local levels of a cache object: its
    memory cache (expired entries included) and the fares of its memo
    table. *)
Definition cache_fares_of (t : Database.Tables) (c : Cache.FareRulesCache) : Prop :=
  (forall a b v,
     Cache._memory_cache c !! _make_key a b = Some v ->
     Database.get_fare t a b = Some v)
  /\ (forall a b v,
        Lru.find (a, b) (Cache.memo c) = Some (Some v) ->
        Database.get_fare t a b = Some v).

(** A world whose caches agree with its rule store. The server only
    counts for a process that reads it: one without a cache object yet,
    or one whose cache object has a client. *)
Definition coherent (w : World) : Prop :=
  match _fare_cache w with
  | Some c =>
      cache_fares_of (db_view w) c
      /\ (Cache.redis_client c = true -> server_fares_of (db_view w) (redis w))
  | None => server_fares_of (db_view w) (redis w)
  end.

(** ** More worlds of the examples *)

(** A fresh process on the default rules, with the redis package and a
    server that answers and holds no key. *)
Definition networked_world : World :=
  boot 0 true empty_server (tables Database.default_rules).

(** A store whose zones do not start at 1. *)
Definition far_zones_world : World :=
  boot 0 false no_server (tables [rule 2 5 70%float; rule 4 4 20%float]).


(** The fares of a new zone 4 to the zones 1 to 3 and to itself. *)
(** The default rules after [update_fare_rule(2, 1, 70.0)]. *)
Definition reversed_update : Database.Tables :=
  Database.update_fare_rule (tables Database.default_rules) 2 1 70%float.

Definition zone_four_fares : list (Z * float) :=
  [(1, 75%float); (2, 60%float); (3, 50%float); (4, 25%float)].

(** * Properties *)

(** ** Cache keys *)

Section Keys.

Lemma no_colon_pretty_N_go (x : N) (s : string) :
  no_colon s -> no_colon (pretty_N_go x s).
Proof.
  revert s. induction (N.lt_wf_0 x) as [x _ IH]. intros s Hs.
  destruct (decide (x = 0%N)) as [->|Hx].
  - by rewrite pretty_N_go_0.
  - rewrite pretty_N_go_step by lia.
    apply IH.
    + apply N.div_lt; lia.
    + split; [|done]. unfold pretty_N_char. by repeat case_match.
Qed.

Lemma no_colon_pretty_Z (z : Z) : no_colon (pretty z).
Proof.
  destruct z as [|p|p]; cbn.
  - by split.
  - unfold pretty, pretty_positive, pretty, pretty_N.
    case_decide; [done|]. by apply no_colon_pretty_N_go.
  - split; [done|].
    unfold pretty, pretty_positive, pretty, pretty_N.
    case_decide; [done|]. by apply no_colon_pretty_N_go.
Qed.

Lemma split_at_colon (s1 t1 s2 t2 : string) :
  no_colon s1 -> no_colon t1 ->
  s1 +:+ ":" +:+ s2 = t1 +:+ ":" +:+ t2 -> s1 = t1 /\ s2 = t2.
Proof.
  revert t1. induction s1 as [|c s1 IH]; intros [|d t1] Hs Ht Heq; cbn in *.
  - by simplify_eq.
  - simplify_eq. by destruct Ht.
  - simplify_eq. by destruct Hs.
  - injection Heq as -> Heq. destruct Hs, Ht.
    destruct (IH t1) as [-> ->]; done.
Qed.

Lemma sorted2_sym (a b : Z) : sorted2 a b = sorted2 b a.
Proof. unfold sorted2. repeat case_match; f_equal; lia. Qed.

Lemma _make_key_sym (a b : Z) : _make_key a b = _make_key b a.
Proof. unfold _make_key. by rewrite (sorted2_sym a b). Qed.

(** Two zone pairs share a key only if they are the same unordered pair. *)
Lemma _make_key_inj (a b c d : Z) :
  _make_key a b = _make_key c d -> sorted2 a b = sorted2 c d.
Proof.
  unfold _make_key.
  destruct (sorted2 a b) as [x1 x2], (sorted2 c d) as [y1 y2].
  intros Heq. cbn in Heq. simplify_eq.
  apply split_at_colon in Heq as [H1 H2]; auto using no_colon_pretty_Z.
  apply pretty_Z_inj in H1, H2. by subst.
Qed.

Lemma _make_key_prefix (a b : Z) : String.prefix "fare:" (_make_key a b) = true.
Proof.
  unfold _make_key. destruct (sorted2 a b). simpl.
  match goal with |- String.prefix _ ?s = true => by destruct s end.
Qed.

End Keys.

(** ** The monad *)

Ltac unfold_monad :=
  unfold bind, ret, raise, get_state, put_state, modify, try_except,
         Cache.on_self, Cache.on_server in *.

Lemma bind_returned {S A B} (m : M S A) (k : A -> M S B) s a s' :
  m s = (Returned a, s') -> bind m k s = k a s'.
Proof. intros H. unfold bind. by rewrite H. Qed.

Lemma bind_raised {S A B} (m : M S A) (k : A -> M S B) s e s' :
  m s = (Raised e, s') -> bind m k s = (Raised e, s').
Proof. intros H. unfold bind. by rewrite H. Qed.

Lemma try_except_returned {S A} (m : M S A) h s a s' :
  m s = (Returned a, s') -> try_except m h s = (Returned a, s').
Proof. intros H. unfold try_except. by rewrite H. Qed.

(** ** The cache object *)

Arguments Cache.get_fare_cached_body : simpl never.
Arguments Cache.get_fare_cached : simpl never.
Arguments Cache.set_fare_cache : simpl never.
Arguments Cache.invalidate_cache : simpl never.
Arguments Cache.bulk_load_fares : simpl never.

Section CacheMethods.

Implicit Types (c : Cache.FareRulesCache) (srv : Redis.Server).

(** With the server out of reach, level 2 answers nothing: the body of
    [get_fare_cached] returns what the memory level holds. *)
Lemma get_fare_cached_body_down now a b c srv :
  Redis.reachable srv = false ->
  Cache.get_fare_cached_body now a b (c, srv)
  = (Returned (Cache.memory_hit now (_make_key a b) c), (c, srv)).
Proof.
  intros Hdown. unfold Cache.get_fare_cached_body, Redis.get. unfold_monad. cbn.
  destruct (Cache.memory_hit _ _ _); [done|].
  destruct (Cache.redis_client c); [|done]. simpl. by rewrite Hdown.
Qed.

(** Without a client the body never looks at the server. *)
Lemma get_fare_cached_body_no_client now a b c srv :
  Cache.redis_client c = false ->
  Cache.get_fare_cached_body now a b (c, srv)
  = (Returned (Cache.memory_hit now (_make_key a b) c), (c, srv)).
Proof.
  intros Hnone. unfold Cache.get_fare_cached_body. unfold_monad. cbn.
  destruct (Cache.memory_hit _ _ _); [done|]. by rewrite Hnone.
Qed.

(** The body never raises, and leaves the server as it was. *)
Lemma get_fare_cached_body_returns now a b c srv :
  exists r c', Cache.get_fare_cached_body now a b (c, srv) = (Returned r, (c', srv))
               /\ Cache.memo c' = Cache.memo c.
Proof.
  unfold Cache.get_fare_cached_body, Redis.get. unfold_monad. cbn.
  destruct (Cache.memory_hit _ _ _); [by eauto|].
  destruct (Cache.redis_client c); [|by eauto]. simpl.
  destruct (Redis.reachable srv); [|by eauto]. simpl.
  destruct (Redis.kv srv !! _) as [[v e]|]; [|by eauto].
  destruct (now <=? e); simpl; eauto.
Qed.

(** A miss on every level: the body returns [None] and changes nothing. *)
Lemma get_fare_cached_body_miss now a b c srv :
  Cache.memory_hit now (_make_key a b) c = None ->
  Redis.kv srv !! _make_key a b = None ->
  Cache.get_fare_cached_body now a b (c, srv) = (Returned None, (c, srv)).
Proof.
  intros Hmem Hkv. unfold Cache.get_fare_cached_body, Redis.get. unfold_monad. cbn.
  rewrite Hmem. destruct (Cache.redis_client c); [|done]. simpl.
  destruct (Redis.reachable srv); [|done]. simpl. by rewrite Hkv.
Qed.

(** A hit on the memory level: the body returns it and changes nothing. *)
Lemma get_fare_cached_body_hit now a b c srv fare :
  Cache.memory_hit now (_make_key a b) c = Some fare ->
  Cache.get_fare_cached_body now a b (c, srv) = (Returned (Some fare), (c, srv)).
Proof.
  intros Hmem. unfold Cache.get_fare_cached_body. unfold_monad. simpl.
  by rewrite Hmem.
Qed.

Lemma get_fare_cached_returns now a b c srv :
  exists r c', Cache.get_fare_cached now a b (c, srv) = (Returned r, (c', srv)).
Proof.
  destruct (get_fare_cached_body_returns now a b c srv) as (r & c' & Hbody & _).
  unfold Cache.get_fare_cached. unfold_monad. simpl.
  destruct (Lru.find _ _); [by eauto|].
  rewrite Hbody. simpl. eauto.
Qed.

Lemma set_fare_cache_returns now a b f c srv :
  exists srv', Cache.set_fare_cache now a b f (c, srv)
               = (Returned tt, (Cache.store_memory now (_make_key a b) f c, srv'))
               /\ (Redis.reachable srv = false -> srv' = srv)
               /\ (Cache.redis_client c = false -> srv' = srv).
Proof.
  unfold Cache.set_fare_cache, Redis.setex. unfold_monad. cbn.
  destruct (Cache.redis_client c); simpl; [|by eauto].
  destruct (Redis.reachable srv); simpl; eexists; (split; [reflexivity|]); by split.
Qed.

(** What the two branches of [invalidate_cache] leave behind. *)
Lemma invalidate_entry_eq key c srv :
  Cache.invalidate_entry key (c, srv)
  = (Returned tt,
     (Cache.with_memo
        (Cache.with_memory c (delete key (Cache._memory_cache c))
                             (delete key (Cache._cache_timestamps c)))
        Lru.cache_clear,
      if Cache.redis_client c && Redis.reachable srv
      then Redis.with_kv srv (delete key (Redis.kv srv)) else srv)).
Proof.
  unfold Cache.invalidate_entry, Redis.delete. unfold_monad. simpl.
  destruct (Cache.redis_client c); simpl; [|done].
  by destruct (Redis.reachable srv).
Qed.

Lemma invalidate_all_eq c srv :
  Cache.invalidate_all (c, srv)
  = (Returned tt,
     (Cache.with_memo (Cache.with_memory c ∅ ∅) Lru.cache_clear,
      if Cache.redis_client c && Redis.reachable srv
      then Redis.with_kv srv
             (filter (fun kx => negb (String.prefix "fare:" kx.1) = true) (Redis.kv srv))
      else srv)).
Proof.
  unfold Cache.invalidate_all, Redis.delete_matching. unfold_monad. simpl.
  destruct (Cache.redis_client c); simpl; [|done].
  by destruct (Redis.reachable srv).
Qed.

(** The loop of [bulk_load_fares] over the rules. *)
Lemma for_each_store_memory now (rules : list ((Z * Z) * float)) c srv :
  for_each rules (fun '((from_zone, to_zone), fare) =>
    Cache.on_self (Cache.store_memory now (_make_key from_zone to_zone) fare)) (c, srv)
  = (Returned tt,
     (fold_left (fun c '((from_zone, to_zone), fare) =>
                   Cache.store_memory now (_make_key from_zone to_zone) fare c)
                rules c, srv)).
Proof.
  revert c. induction rules as [|[[a b] f] rules IH]; intros c; [done|].
  simpl. unfold bind at 1. unfold Cache.on_self at 1, modify. simpl.
  apply IH.
Qed.

Lemma loaded_fields now rules c :
  Cache.ttl (loaded now rules c) = Cache.ttl c
  /\ Cache.redis_client (loaded now rules c) = Cache.redis_client c
  /\ Cache.memo (loaded now rules c) = Cache.memo c.
Proof.
  revert c. induction rules as [|[[a b] f] rules IH]; intros c; [done|].
  simpl. destruct (IH (Cache.store_memory now (_make_key a b) f c)) as (-> & -> & ->).
  done.
Qed.

(** A key that belongs to none of the rules is not touched by the load. *)
Lemma loaded_other_key now rules c key :
  Forall (fun r => _make_key r.1.1 r.1.2 <> key) rules ->
  Cache._memory_cache (loaded now rules c) !! key = Cache._memory_cache c !! key
  /\ Cache._cache_timestamps (loaded now rules c) !! key
     = Cache._cache_timestamps c !! key.
Proof.
  revert c. induction rules as [|[[a b] f] rules IH]; intros c Hall; [done|].
  inversion Hall as [|? ? Hne Hrest]; subst. simpl in *.
  destruct (IH (Cache.store_memory now (_make_key a b) f c) Hrest) as [-> ->].
  simpl. by rewrite !lookup_insert_ne.
Qed.

(** Where no two rules share a key, the load leaves each rule's fare
    under its key, stamped with the time of the load. *)
Lemma loaded_lookup now (rules : list ((Z * Z) * float)) c f t v :
  NoDup (map (fun r => sorted2 r.1.1 r.1.2) rules) ->
  ((f, t), v) ∈ rules ->
  Cache._memory_cache (loaded now rules c) !! _make_key f t = Some v
  /\ Cache._cache_timestamps (loaded now rules c) !! _make_key f t = Some now.
Proof.
  revert c. induction rules as [|[[a b] x] rules IH]; intros c Hnodup Hin.
  { by apply elem_of_nil in Hin. }
  simpl in Hnodup. apply NoDup_cons in Hnodup as [Hfresh Hnodup].
  apply elem_of_cons in Hin as [[= -> -> ->]|Hin]; simpl.
  - assert (Forall (fun r => _make_key r.1.1 r.1.2 <> _make_key a b) rules) as Hother.
    { apply Forall_forall. intros [[a' b'] x'] Hin' Hkey. simpl in Hkey.
      apply _make_key_inj in Hkey. apply Hfresh.
      apply list_elem_of_fmap. exists (a', b', x'). by split. }
    destruct (loaded_other_key now rules
                (Cache.store_memory now (_make_key a b) x c) _ Hother) as [-> ->].
    simpl. by rewrite !lookup_insert_eq.
  - by apply IH.
Qed.

Lemma bulk_load_fares_eq now rules c srv :
  exists srv',
    Cache.bulk_load_fares now rules (c, srv) = (Returned tt, (loaded now rules c, srv'))
    /\ Redis.reachable srv' = Redis.reachable srv
    /\ (Redis.reachable srv = false -> srv' = srv)
    /\ forall key, Forall (fun r => _make_key r.1.1 r.1.2 <> key) rules ->
                   Redis.kv srv' !! key = Redis.kv srv !! key.
Proof.
  unfold Cache.bulk_load_fares. unfold bind at 1. unfold get_state at 1.
  unfold bind at 1. rewrite for_each_store_memory. fold (loaded now rules c).
  simpl. destruct (Cache.redis_client c); [|by eexists]. 
  unfold try_except, Cache.on_server, Redis.execute. simpl.
  destruct (Redis.reachable srv) eqn:Hup; simpl; [|by eexists].
  eexists. split; [reflexivity|]. split; [done|]. split; [done|].
  intros key Hall. simpl.
  generalize (Redis.kv srv). induction Hall as [|[[a b] f] rest Hne _ IH]; intros m; [done|].
  simpl in *. rewrite IH. by rewrite lookup_insert_ne.
Qed.

End CacheMethods.

(** ** The singletons *)

Arguments get_db_manager : simpl never.
Arguments get_fare_cache : simpl never.
Arguments get_fare_with_cache : simpl never.

Section Singletons.

Implicit Types (w : World).

Lemma get_db_manager_eq w : get_db_manager w = (Returned (db_view w), db_ready w).
Proof.
  unfold get_db_manager, db_view, db_ready. unfold_monad.
  destruct (_db_manager w) eqn:E; simpl; by rewrite ?E.
Qed.

Lemma db_ready_fields w :
  db_view (db_ready w) = db_view w
  /\ _db_manager (db_ready w) = true
  /\ database (db_ready w) = db_view w
  /\ _fare_cache (db_ready w) = _fare_cache w
  /\ redis (db_ready w) = redis w
  /\ clock (db_ready w) = clock w
  /\ REDIS_AVAILABLE (db_ready w) = REDIS_AVAILABLE w.
Proof.
  unfold db_ready, db_view. destruct (_db_manager w) eqn:E; simpl; by rewrite ?E.
Qed.

Lemma db_ready_idem w : _db_manager w = true -> db_ready w = w.
Proof. unfold db_ready. by intros ->. Qed.

Lemma on_fare_cache_eq {A} (method : Z -> M Cache.Env A) w c r c' srv' :
  _fare_cache w = Some c ->
  method (clock w) (c, redis w) = (r, (c', srv')) ->
  on_fare_cache method w = (r, with_fare_cache (with_redis w srv') (Some c')).
Proof. intros Hc Hm. unfold on_fare_cache. by rewrite Hc, Hm. Qed.

(** [get_fare_cache] never raises. It leaves a world that has its cache
    alone; a world without one gets a cache with an empty memo table,
    loaded with the rules of the store. *)
Lemma get_fare_cache_spec w :
  exists c w',
    get_fare_cache w = (Returned tt, w')
    /\ _fare_cache w' = Some c
    /\ db_view w' = db_view w
    /\ clock w' = clock w
    /\ (Redis.reachable (redis w) = false -> redis w' = redis w)
    /\ match _fare_cache w with
       | Some _ => w' = w
       | None =>
           Cache.memo c = []
           /\ forall key,
                Forall (fun r => _make_key r.1.1 r.1.2 <> key)
                       (Database.get_all_fare_rules (db_view w)) ->
                Cache._memory_cache c !! key = None
                /\ Redis.kv (redis w') !! key = Redis.kv (redis w) !! key
       end.
Proof.
  unfold get_fare_cache. unfold bind at 1. unfold get_state at 1.
  destruct (_fare_cache w) as [c0|] eqn:Hc.
  { exists c0, w. unfold ret. by rewrite Hc. }
  unfold bind at 1, put_state at 1, try_except.
  set (c0 := Cache.__init__ _ _ _ _).
  set (w1 := with_fare_cache w (Some c0)).
  unfold bind at 1. rewrite get_db_manager_eq.
  destruct (db_ready_fields w1) as (Hv & Hm & Hd & Hfc & Hr & Hck & _).
  destruct (bulk_load_fares_eq (clock w) (Database.get_all_fare_rules (db_view w1))
              c0 (redis w)) as (srv' & Hbulk & Hup & Hdown & Hkeys).
  rewrite (on_fare_cache_eq _ _ c0 (Returned tt)
             (loaded (clock w) (Database.get_all_fare_rules (db_view w1)) c0) srv').
  2: { by rewrite Hfc. }
  2: { by rewrite Hck, Hr. }
  assert (db_view w1 = db_view w) as Hv1 by done.
  eexists _, _. split; [reflexivity|]. simpl.
  split; [reflexivity|].
  split. { unfold db_view in *. simpl. by rewrite Hm, Hd. }
  split; [by rewrite Hck|].
  split; [done|].
  destruct (loaded_fields (clock w) (Database.get_all_fare_rules (db_view w1)) c0)
    as (_ & _ & Hmemo).
  split; [by rewrite Hmemo|].
  intros key Hall. rewrite <- Hv1 in Hall. split; [|by apply Hkeys].
  destruct (loaded_other_key (clock w) _ c0 key Hall) as [-> _].
  apply lookup_empty.
Qed.

(** The cache a fresh process builds: the new object, loaded with the
    rules of the store at the time of the call. *)
Lemma get_fare_cache_fresh w :
  _fare_cache w = None ->
  exists w1,
    get_fare_cache w = (Returned tt, w1)
    /\ _fare_cache w1
       = Some (loaded (clock w) (Database.get_all_fare_rules (db_view w))
                 (Cache.__init__ (REDIS_AVAILABLE w)
                    (default "redis://localhost:6379" (REDIS_URL w)) 3600 (redis w)))
    /\ db_view w1 = db_view w
    /\ clock w1 = clock w.
Proof.
  intros Hc.
  unfold get_fare_cache. unfold bind at 1. unfold get_state at 1. rewrite Hc.
  unfold bind at 1, put_state at 1, try_except.
  set (c0 := Cache.__init__ _ _ _ _).
  set (w1 := with_fare_cache w (Some c0)).
  unfold bind at 1. rewrite get_db_manager_eq.
  destruct (db_ready_fields w1) as (Hv & Hm & Hd & Hfc & Hr & Hck & _).
  destruct (bulk_load_fares_eq (clock w) (Database.get_all_fare_rules (db_view w1))
              c0 (redis w)) as (srv' & Hbulk & _).
  rewrite (on_fare_cache_eq _ _ c0 (Returned tt)
             (loaded (clock w) (Database.get_all_fare_rules (db_view w1)) c0) srv').
  2: { by rewrite Hfc. }
  2: { by rewrite Hck, Hr. }
  eexists. split; [reflexivity|]. simpl.
  split; [done|]. split; [|by rewrite Hck].
  unfold db_view in *. simpl. by rewrite Hm, Hd.
Qed.

Lemma db_view_with_cache w srv oc :
  db_view (with_fare_cache (with_redis w srv) oc) = db_view w.
Proof. done. Qed.

(** The facade after a miss of the cache: the value comes from the rule
    store. *)
Lemma get_fare_with_cache_on_miss w a b c w1 st' :
  get_fare_cache w = (Returned tt, w1) ->
  _fare_cache w1 = Some c ->
  db_view w1 = db_view w ->
  Cache.get_fare_cached (clock w1) a b (c, redis w1) = (Returned None, st') ->
  exists w', get_fare_with_cache a b w = (Returned (store_fare (db_view w) a b), w').
Proof.
  intros Hgfc Hc Hv Hget. destruct st' as [c' srv'].
  unfold get_fare_with_cache.
  rewrite (bind_returned _ _ _ _ _ Hgfc).
  rewrite (bind_returned _ _ _ _ _ (on_fare_cache_eq _ _ _ _ _ _ Hc Hget)).
  set (w2 := with_fare_cache _ _).
  rewrite (bind_returned _ _ _ _ _ (get_db_manager_eq w2)).
  assert (db_view w2 = db_view w) as Hv2 by (by rewrite <- Hv).
  rewrite Hv2. unfold store_fare.
  destruct (Database.get_fare (db_view w) a b) as [fare|]; [|by eexists].
  destruct (db_ready_fields w2) as (_ & _ & _ & Hfc & _).
  destruct (set_fare_cache_returns (clock (db_ready w2)) a b fare c' (redis (db_ready w2)))
    as (srv2 & Hset & _).
  assert (_fare_cache (db_ready w2) = Some c') as Hc2 by (by rewrite Hfc).
  rewrite (bind_returned _ _ _ _ _ (on_fare_cache_eq _ _ _ _ _ _ Hc2 Hset)).
  by eexists.
Qed.

(** The facade never raises; it changes neither the rules the process
    sees nor the clock, and with the server out of reach it leaves the
    server as it was. *)
Lemma get_fare_with_cache_returns w a b :
  exists v w',
    get_fare_with_cache a b w = (Returned v, w')
    /\ db_view w' = db_view w
    /\ clock w' = clock w
    /\ is_Some (_fare_cache w')
    /\ (Redis.reachable (redis w) = false -> redis w' = redis w).
Proof.
  destruct (get_fare_cache_spec w) as (c & w1 & Hgfc & Hc & Hv & Hck & Hdown & _).
  destruct (get_fare_cached_returns (clock w1) a b c (redis w1)) as (r & c' & Hget).
  unfold get_fare_with_cache.
  rewrite (bind_returned _ _ _ _ _ Hgfc).
  rewrite (bind_returned _ _ _ _ _ (on_fare_cache_eq _ _ _ _ _ _ Hc Hget)).
  set (w2 := with_fare_cache _ _).
  assert (db_view w2 = db_view w) as Hv2 by (by rewrite <- Hv).
  destruct r as [fare|].
  { eexists _, _. split; [reflexivity|]. simpl. by repeat split. }
  rewrite (bind_returned _ _ _ _ _ (get_db_manager_eq w2)).
  destruct (db_ready_fields w2) as (Hrv & _ & _ & Hfc & Hr & Hck2 & _).
  destruct (Database.get_fare (db_view w2) a b) as [fare|].
  2: { eexists _, _. split; [reflexivity|].
       rewrite Hrv, Hfc, Hr, Hck2. simpl. by repeat split. }
  destruct (set_fare_cache_returns (clock (db_ready w2)) a b fare c' (redis (db_ready w2)))
    as (srv2 & Hset & Hsame & _).
  assert (_fare_cache (db_ready w2) = Some c') as Hc2 by (by rewrite Hfc).
  rewrite (bind_returned _ _ _ _ _ (on_fare_cache_eq _ _ _ _ _ _ Hc2 Hset)).
  eexists _, _. split; [reflexivity|]. simpl.
  split. { by rewrite db_view_with_cache, Hrv. }
  split. { by rewrite Hck2. }
  split; [done|].
  intros Hoff. rewrite Hsame; rewrite Hr; simpl; [by apply Hdown|].
  by rewrite (Hdown Hoff).
Qed.

End Singletons.

(** ** Models *)

Arguments Settings.is_valid_zone : simpl never.
Arguments Models.validate_zone : simpl never.
Arguments Models.Journey__init__ : simpl never.
Arguments Models.JourneyWithFare__init__ : simpl never.

Section ModelValidation.

Implicit Types (w : World).

Lemma is_valid_zone_eq w zone :
  Settings.is_valid_zone zone w
  = (Returned (Database.is_valid_zone (db_view w) zone), db_ready w).
Proof.
  unfold Settings.is_valid_zone, try_except.
  by rewrite (bind_returned _ _ _ _ _ (get_db_manager_eq w)).
Qed.

(** Validation only ever creates the database manager. *)
Lemma validate_zone_eq w v :
  exists w', Models.validate_zone v w = (Returned (valid_zone (db_view w) v), w')
             /\ (w' = w \/ w' = db_ready w).
Proof.
  unfold Models.validate_zone, valid_zone. destruct (v <? 1).
  - exists w. split; [done|by left].
  - rewrite is_valid_zone_eq. eexists. split; [done|by right].
Qed.

Lemma db_ready_twice w : db_ready (db_ready w) = db_ready w.
Proof. apply db_ready_idem. by destruct (db_ready_fields w) as (_ & -> & _). Qed.

Lemma Journey__init___eq w a b :
  exists w',
    Models.Journey__init__ a b w
    = (if valid_zone (db_view w) a && valid_zone (db_view w) b
       then Returned {| Models.from_zone := a; Models.to_zone := b |}
       else Raised ValueError, w')
    /\ (w' = w \/ w' = db_ready w).
Proof.
  unfold Models.Journey__init__.
  destruct (validate_zone_eq w a) as (w1 & H1 & Hw1).
  destruct (validate_zone_eq w1 b) as (w2 & H2 & Hw2).
  rewrite (bind_returned _ _ _ _ _ H1), (bind_returned _ _ _ _ _ H2).
  assert (db_view w1 = db_view w) as Hv.
  { destruct Hw1 as [->| ->]; [done|]. by destruct (db_ready_fields w) as (-> & _). }
  rewrite Hv. exists w2. split.
  - by destruct (_ && _).
  - destruct Hw1 as [->| ->], Hw2 as [->| ->]; rewrite ?db_ready_twice; auto.
Qed.

Lemma JourneyWithFare__init___eq w a b f id :
  exists w',
    Models.JourneyWithFare__init__ a b f id w
    = (if valid_zone (db_view w) a && valid_zone (db_view w) b
       then Returned {| Models.journey := {| Models.from_zone := a; Models.to_zone := b |};
                        Models.fare := f; Models.journey_id := Some id |}
       else Raised ValueError, w')
    /\ (w' = w \/ w' = db_ready w).
Proof.
  unfold Models.JourneyWithFare__init__.
  destruct (Journey__init___eq w a b) as (w' & Hj & Hw').
  exists w'. split; [|done]. unfold bind. rewrite Hj.
  by destruct (_ && _).
Qed.

Lemma db_view_after_init w w' : w' = w \/ w' = db_ready w -> db_view w' = db_view w.
Proof. intros [->| ->]; [done|]. by destruct (db_ready_fields w) as (-> & _). Qed.

End ModelValidation.

(** ** The batch loop *)

Section Batch.

Implicit Types (w : World) (journeys : list Models.Journey).

(** What the loop returns, for any calculator: one item per journey, in
    the order of the input, numbered from [idx], and the running total
    of their fares. *)
Lemma fare_loop_returned `{FareCalculator} journeys :
  forall idx acc total w out total' w',
    fare_loop idx journeys acc total w = (Returned (out, total'), w') ->
    exists items,
      out = acc ++ items
      /\ map Models.journey items = journeys
      /\ map Models.journey_id items
         = map Some (seqZ idx (Z.of_nat (length journeys)))
      /\ total' = fold_left PrimFloat.add (map Models.fare items) total.
Proof.
  induction journeys as [|j rest IH]; intros idx acc total w out total' w' Hrun.
  { simpl in Hrun. unfold ret in Hrun. simplify_eq.
    exists []. by rewrite app_nil_r. }
  simpl in Hrun. unfold bind at 1 in Hrun.
  destruct (calculate_single_fare j w) as [[f|e] w1]; [|done].
  unfold bind at 1 in Hrun.
  destruct (JourneyWithFare__init___eq w1 (Models.from_zone j) (Models.to_zone j) f idx)
    as (w2 & Hinit & _).
  rewrite Hinit in Hrun.
  destruct (_ && _); [|done].
  apply IH in Hrun as (items & -> & Hj & Hid & ->).
  eexists (_ :: items). split; [by rewrite <- app_assoc|].
  split. { simpl. rewrite Hj. by destruct j. }
  split; [|done].
  simpl. rewrite Hid.
  rewrite (seqZ_cons idx) by lia.
  simpl. do 3 f_equal. lia.
Qed.

(** Zone-based fares: on journeys the store accepts, the loop runs to
    its end. *)
Lemma fare_loop_returns journeys :
  forall idx acc total w,
    Forall (fun j => valid_journey (db_view w) j = true) journeys ->
    exists res w',
      fare_loop (H := ZoneBasedFareCalculator) idx journeys acc total w
      = (Returned res, w')
      /\ db_view w' = db_view w.
Proof.
  induction journeys as [|j rest IH]; intros idx acc total w Hvalid.
  { by eexists _, _. }
  inversion Hvalid as [|? ? Hj Hrest]; subst.
  simpl. unfold Settings.get_fare.
  destruct (get_fare_with_cache_returns w (Models.from_zone j) (Models.to_zone j))
    as (f & w1 & Hfare & Hv1 & _).
  rewrite (bind_returned _ _ _ _ _ Hfare).
  destruct (JourneyWithFare__init___eq w1 (Models.from_zone j) (Models.to_zone j) f idx)
    as (w2 & Hinit & Hw2).
  unfold bind at 1. rewrite Hinit.
  unfold valid_journey in Hj. rewrite Hv1, Hj.
  assert (db_view w2 = db_view w) as Hv2.
  { by rewrite (db_view_after_init _ _ Hw2). }
  destruct (IH (idx + 1) (acc ++ [ {| Models.journey := {| Models.from_zone := Models.from_zone j;
                                                           Models.to_zone := Models.to_zone j |};
                                      Models.fare := f; Models.journey_id := Some idx |} ])
               (total + f)%float w2) as (res & w' & Hloop & Hv').
  { by rewrite Hv2. }
  exists res, w'. split; [done|]. by rewrite Hv'.
Qed.

Lemma calculate_all_fares_returns journeys w :
  Forall (fun j => valid_journey (db_view w) j = true) journeys ->
  exists r w',
    calculate_all_fares (H := ZoneBasedFareCalculator) journeys w = (Returned r, w')
    /\ db_view w' = db_view w.
Proof.
  intros Hvalid. unfold calculate_all_fares.
  destruct (fare_loop_returns journeys 1 [] 0%float w Hvalid) as (res & w' & Hloop & Hv).
  rewrite (bind_returned _ _ _ _ _ Hloop). by eexists _, _.
Qed.

(** What [calculate_all_fares] returns, for any calculator. *)
Lemma calculate_all_fares_returned `{FareCalculator} journeys w r w' :
  calculate_all_fares journeys w = (Returned r, w') ->
  map Models.journey (Models.journeys r) = journeys
  /\ map Models.journey_id (Models.journeys r)
     = map Some (seqZ 1 (Z.of_nat (length journeys)))
  /\ Models.journey_count r = Z.of_nat (length journeys)
  /\ Models.total_daily_fare r
     = Float.round2 (Float.sum (map Models.fare (Models.journeys r))).
Proof.
  unfold calculate_all_fares, bind, ret. intros Hrun.
  destruct (fare_loop 1 journeys [] 0%float w) as [[[out total]|e] w1] eqn:Hloop; [|done].
  simplify_eq. simpl.
  apply fare_loop_returned in Hloop as (items & -> & Hj & Hid & ->).
  by repeat split.
Qed.

End Batch.

(** ** Batches: order, total and size limit *)

Section BatchClaims.

(** C7. For every input sequence of journeys, [calculate_all_fares]
    returns the items in the order of the input, numbers them 1..n by
    position, and reports [journey_count = n]: this holds of whatever any
    calculator returns, and the zone-based calculator does return on
    journeys whose zones the store knows. *)
Theorem calculate_all_fares_keeps_order :
  (forall (C : FareCalculator) journeys w r w',
     calculate_all_fares (H := C) journeys w = (Returned r, w') ->
     map Models.journey (Models.journeys r) = journeys
     /\ map Models.journey_id (Models.journeys r)
        = map Some (seqZ 1 (Z.of_nat (length journeys)))
     /\ Models.journey_count r = Z.of_nat (length journeys))
  /\ (forall journeys w,
        Forall (fun j => valid_journey (db_view w) j = true) journeys ->
        exists r w',
          calculate_all_fares (H := ZoneBasedFareCalculator) journeys w
          = (Returned r, w')).
Proof.
  split.
  - intros C journeys w r w' Hrun.
    apply calculate_all_fares_returned in Hrun as (? & ? & ? & _). done.
  - intros journeys w Hvalid.
    destruct (calculate_all_fares_returns journeys w Hvalid) as (r & w' & ? & _).
    by exists r, w'.
Qed.

(** C6. The total of the response is the sum of the fares of its items,
    rounded to two decimals once, at the end: this holds of whatever any
    calculator returns. On the rules (1,1):40, (1,2):55, (2,3):45,
    (3,3):30 the journeys (1,2), (2,3), (3,3), (1,1) give the fares 55,
    45, 30, 40, the total 170.00 and the count 4. With the fare 0.125
    two journeys total 0.25, where rounding each item would give 0.24. *)
Theorem total_daily_fare_is_rounded_sum :
  (forall (C : FareCalculator) journeys w r w',
     calculate_all_fares (H := C) journeys w = (Returned r, w') ->
     Models.total_daily_fare r
     = Float.round2 (Float.sum (map Models.fare (Models.journeys r))))
  /\ result_of (calculate_all_fares (H := ZoneBasedFareCalculator)
                  [journey 1 2; journey 2 3; journey 3 3; journey 1 1])
               four_rules_world
     = Returned {| Models.journeys :=
                     [item 1 2 55%float 1; item 2 3 45%float 2;
                      item 3 3 30%float 3; item 1 1 40%float 4];
                   Models.total_daily_fare := 170%float;
                   Models.journey_count := 4 |}
  /\ (result_of (calculate_all_fares (H := ZoneBasedFareCalculator)
                   [journey 1 1; journey 1 1])
                eighth_world
      = Returned {| Models.journeys := [item 1 1 0.125%float 1; item 1 1 0.125%float 2];
                    Models.total_daily_fare := 0.25%float;
                    Models.journey_count := 2 |}
      /\ Float.sum (map Float.round2 [0.125%float; 0.125%float]) = 0.24%float).
Proof.
  split; [|split; [|split]].
  - intros C journeys w r w' Hrun.
    by apply calculate_all_fares_returned in Hrun as (_ & _ & _ & ?).
  - vm_compute. reflexivity.
  - vm_compute. reflexivity.
  - vm_compute. reflexivity.
Qed.

End BatchClaims.

(** ** Resolution without a rule, and with the shared cache down *)

Section Resolve.

Implicit Types (w : World) (c : Cache.FareRulesCache).

Lemma sorted2_eq_cases (f t a b : Z) :
  sorted2 f t = sorted2 a b -> (f = a /\ t = b) \/ (f = b /\ t = a).
Proof. unfold sorted2. repeat case_match; intros [= ? ?]; lia. Qed.

Lemma dict_set_keys {V} (k k' : Z * Z) (v : V) d :
  k' ∈ map fst (dict_set k v d) -> k' = k \/ k' ∈ map fst d.
Proof.
  induction d as [|[k0 v0] d IH]; simpl.
  - rewrite list_elem_of_singleton. auto.
  - case_decide; simpl; rewrite !elem_of_cons.
    + intros [->|Hin]; auto.
    + intros [->|Hin]; [auto|]. apply IH in Hin as [->|Hin]; auto.
Qed.

(** Every key of the dict of all rules is the zone pair of a row. *)
Lemma get_all_fare_rules_keys (t : Database.Tables) (k : Z * Z) :
  k ∈ map fst (Database.get_all_fare_rules t) ->
  exists r, r ∈ Database.fare_rules t
            /\ k = (Database.from_zone r, Database.to_zone r).
Proof.
  unfold Database.get_all_fare_rules.
  assert (forall rows d,
            k ∈ map fst (fold_left (fun d r => dict_set (Database.from_zone r, Database.to_zone r)
                                                        (Database.fare r) d) rows d) ->
            k ∈ map fst d
            \/ exists r, r ∈ rows /\ k = (Database.from_zone r, Database.to_zone r)) as Hgen.
  { induction rows as [|r rows IH]; intros d Hin; [by left|].
    simpl in Hin. apply IH in Hin as [Hin|(r' & ? & ?)].
    - apply dict_set_keys in Hin as [->|?]; [|by left].
      right. exists r. split; [left|done].
    - right. exists r'. split; [by right|done]. }
  intros Hin. apply Hgen in Hin as [Hin|?]; [|done]. by apply elem_of_nil in Hin.
Qed.

Lemma first_rule_None (a b : Z) rows r :
  Database.first_rule a b rows = None -> r ∈ rows ->
  ~ (Database.from_zone r = a /\ Database.to_zone r = b).
Proof.
  unfold Database.first_rule. intros Hnone Hin [<- <-].
  apply list_elem_of_In in Hin.
  pose proof (find_none _ _ Hnone r Hin) as Hf. simpl in Hf.
  rewrite !Z.eqb_refl in Hf. done.
Qed.

(** A pair without a rule in either direction shares its key with no
    rule of the store. *)
Lemma no_rule_no_key (t : Database.Tables) (a b : Z) :
  Database.get_fare t a b = None ->
  Forall (fun r => _make_key r.1.1 r.1.2 <> _make_key a b)
         (Database.get_all_fare_rules t).
Proof.
  unfold Database.get_fare. intros Hnone.
  destruct (Database.first_rule a b _) eqn:Hab; [done|].
  destruct (Database.first_rule b a _) eqn:Hba; [done|].
  apply Forall_forall. intros [[f t'] v] Hin Hkey. simpl in Hkey.
  assert ((f, t') ∈ map fst (Database.get_all_fare_rules t)) as Hk.
  { apply list_elem_of_fmap. by exists (f, t', v). }
  apply get_all_fare_rules_keys in Hk as (r & Hr & [= -> ->]).
  apply _make_key_inj, sorted2_eq_cases in Hkey as [Heq|Heq].
  - by apply (first_rule_None _ _ _ _ Hab Hr).
  - by apply (first_rule_None _ _ _ _ Hba Hr).
Qed.

(** The memoised lookup misses when no level holds a fare for the pair.
    A memoised miss counts as holding none. *)
Lemma get_fare_cached_miss now a b c srv :
  (forall fare, Lru.find (a, b) (Cache.memo c) <> Some (Some fare)) ->
  Cache.memory_hit now (_make_key a b) c = None ->
  (Redis.kv srv !! _make_key a b = None
   \/ Redis.reachable srv = false \/ Cache.redis_client c = false) ->
  exists st', Cache.get_fare_cached now a b (c, srv) = (Returned None, st').
Proof.
  intros Hmemo Hmem Hsrv.
  unfold Cache.get_fare_cached. unfold bind at 1. unfold get_state at 1. simpl.
  destruct (Lru.find (a, b) (Cache.memo c)) as [[fare|]|] eqn:Hfind.
  - by destruct (Hmemo fare).
  - by eexists.
  - assert (Cache.get_fare_cached_body now a b (c, srv) = (Returned None, (c, srv)))
      as Hbody.
    { destruct Hsrv as [Hkv|[Hdown|Hnone]].
      - by apply get_fare_cached_body_miss.
      - by rewrite get_fare_cached_body_down, Hmem.
      - by rewrite get_fare_cached_body_no_client, Hmem. }
    rewrite (bind_returned _ _ _ _ _ Hbody). by eexists.
Qed.

Lemma memory_hit_None now key c :
  Cache._memory_cache c !! key = None -> Cache.memory_hit now key c = None.
Proof. unfold Cache.memory_hit. by intros ->. Qed.

(** Without a rule and without a cached fare, the facade returns 0.0. *)
Lemma resolve_without_rule w a b :
  Database.get_fare (db_view w) a b = None ->
  (forall c, _fare_cache w = Some c ->
     Cache._memory_cache c !! _make_key a b = None
     /\ forall fare, Lru.find (a, b) (Cache.memo c) <> Some (Some fare)) ->
  (Redis.kv (redis w) !! _make_key a b = None \/ Redis.reachable (redis w) = false) ->
  result_of (get_fare_with_cache a b) w = Returned 0%float.
Proof.
  intros Hstore Hlocal Hshared.
  destruct (get_fare_cache_spec w) as (c1 & w1 & Hgfc & Hc1 & Hv1 & Hck & Hdown & Hcase).
  assert (exists st', Cache.get_fare_cached (clock w1) a b (c1, redis w1)
                      = (Returned None, st')) as [st' Hget].
  { destruct (_fare_cache w) as [c0|] eqn:Hc0.
    - subst w1. rewrite Hc0 in Hc1. simplify_eq.
      destruct (Hlocal c1 eq_refl) as [Hmem Hmemo].
      apply get_fare_cached_miss; auto using memory_hit_None.
      destruct Hshared; auto.
    - destruct Hcase as [Hmemo Hkeys].
      destruct (Hkeys (_make_key a b) (no_rule_no_key _ _ _ Hstore)) as [Hmem Hkv].
      apply get_fare_cached_miss.
      + by rewrite Hmemo.
      + by apply memory_hit_None.
      + destruct Hshared as [Hnone|Hoff].
        * left. by rewrite Hkv.
        * right; left. by rewrite (Hdown Hoff). }
  destruct (get_fare_with_cache_on_miss w a b c1 w1 st' Hgfc Hc1 Hv1 Hget) as [w' Hres].
  unfold result_of. rewrite Hres. unfold store_fare. by rewrite Hstore.
Qed.

(** C8. For a pair that has no rule in the store (in either order) and
    no entry on any cache level (memory cache, memo table of the
    [lru_cache], shared cache), [resolveFare] returns the "no fare"
    value 0.0 and raises nothing. *)
Theorem no_rule_resolves_to_zero (w : World) (a b : Z) :
  Database.get_fare (db_view w) a b = None ->
  (forall c, _fare_cache w = Some c ->
     Cache._memory_cache c !! _make_key a b = None
     /\ forall fare, Lru.find (a, b) (Cache.memo c) <> Some (Some fare)) ->
  Redis.kv (redis w) !! _make_key a b = None ->
  result_of (Settings.get_fare a b) w = Returned 0%float
  /\ result_of (get_fare_with_cache a b) w = Returned 0%float.
Proof.
  intros Hstore Hlocal Hshared.
  cut (result_of (get_fare_with_cache a b) w = Returned 0%float); [done|].
  apply resolve_without_rule; auto.
Qed.

(** ** A fresh process *)

Lemma dict_set_fresh {V} (k : Z * Z) (v : V) d :
  k ∉ map fst d -> dict_set k v d = d ++ [(k, v)].
Proof.
  induction d as [|[k0 v0] d IH]; simpl; [done|].
  rewrite not_elem_of_cons. intros [Hne Hnotin].
  case_decide; [done|]. by rewrite IH.
Qed.

(** With one rule per ordered pair, the dict of all rules lists the rows
    in their order. *)
Lemma get_all_fare_rules_unique (t : Database.Tables) :
  Database.zone_pair_uc (Database.fare_rules t) ->
  Database.get_all_fare_rules t
  = map (fun r => (Database.zone_pair r, Database.fare r)) (Database.fare_rules t).
Proof.
  unfold Database.get_all_fare_rules, Database.zone_pair_uc.
  cut (forall rows d,
         NoDup (map fst d ++ map Database.zone_pair rows) ->
         fold_left (fun d r => dict_set (Database.from_zone r, Database.to_zone r)
                                        (Database.fare r) d) rows d
         = d ++ map (fun r => (Database.zone_pair r, Database.fare r)) rows).
  { intros Hgen Huc. by apply (Hgen _ []). }
  induction rows as [|r rows IH]; intros d Hnodup; simpl.
  { by rewrite app_nil_r. }
  simpl in Hnodup. apply NoDup_app in Hnodup as (Hd & Hdisj & Hrows).
  apply NoDup_cons in Hrows as [Hr Hrows].
  rewrite dict_set_fresh.
  2: { intros Hin. apply (Hdisj _ Hin). left. }
  rewrite IH.
  { by rewrite <- app_assoc. }
  rewrite map_app. simpl. rewrite <- app_assoc. simpl.
  apply NoDup_app. split; [done|]. split.
  - intros k Hk. apply Hdisj in Hk. done.
  - by apply NoDup_cons.
Qed.

Lemma unordered_unique_ordered rows :
  unordered_pair_unique rows -> Database.zone_pair_uc rows.
Proof.
  unfold unordered_pair_unique, Database.zone_pair_uc. intros Hnodup.
  apply (NoDup_fmap_1 (fun p : Z * Z => sorted2 p.1 p.2)).
  by rewrite <- list_fmap_compose.
Qed.

(** The fare the store gives for a pair is that of a row with the key of
    the pair. *)
Lemma get_fare_Some (t : Database.Tables) a b f :
  Database.get_fare t a b = Some f ->
  exists r, r ∈ Database.fare_rules t
            /\ Database.fare r = f
            /\ _make_key (Database.from_zone r) (Database.to_zone r) = _make_key a b.
Proof.
  unfold Database.get_fare. intros Hget.
  destruct (Database.first_rule a b _) as [r|] eqn:Hab.
  - apply find_some in Hab as [Hin Hmatch]. simplify_eq.
    apply andb_prop in Hmatch as [Ha%Z.eqb_eq Hb%Z.eqb_eq]. subst a b.
    exists r. rewrite list_elem_of_In. auto.
  - destruct (Database.first_rule b a _) as [r|] eqn:Hba; [|done].
    apply find_some in Hba as [Hin Hmatch]. simplify_eq.
    apply andb_prop in Hmatch as [Ha%Z.eqb_eq Hb%Z.eqb_eq]. subst a b.
    exists r. rewrite list_elem_of_In. split; [exact Hin|]. split; [reflexivity|].
    apply _make_key_sym.
Qed.

(** The first call of a process without a server in reach, on a store
    with one rule per unordered pair: the fare is the one of the store,
    and 0.0 where the store has no rule. *)
Lemma fresh_process_resolves_from_store w a b :
  _fare_cache w = None ->
  Redis.reachable (redis w) = false ->
  unordered_pair_unique (Database.fare_rules (db_view w)) ->
  result_of (get_fare_with_cache a b) w
  = Returned (default 0%float (Database.get_fare (db_view w) a b)).
Proof.
  intros Hfresh Hoff Hunique.
  destruct (Database.get_fare (db_view w) a b) as [f|] eqn:Hstore; simpl.
  2: { apply resolve_without_rule; auto. intros c Hc. by rewrite Hfresh in Hc. }
  destruct (get_fare_cache_fresh w Hfresh) as (w1 & Hgfc & Hc1 & Hv1 & Hck1).
  set (c0 := Cache.__init__ _ _ _ _) in Hc1.
  set (c1 := loaded _ _ c0) in Hc1.
  destruct (get_fare_Some _ _ _ _ Hstore) as (r & Hr & <- & Hkey).
  assert (Cache.memory_hit (clock w1) (_make_key a b) c1 = Some (Database.fare r)) as Hhit.
  { destruct (loaded_lookup (clock w) (Database.get_all_fare_rules (db_view w)) c0
                (Database.from_zone r) (Database.to_zone r) (Database.fare r))
      as [Hmem Hstamp].
    - rewrite get_all_fare_rules_unique by by apply unordered_unique_ordered.
      rewrite map_map. exact Hunique.
    - rewrite get_all_fare_rules_unique by by apply unordered_unique_ordered.
      apply list_elem_of_fmap. by exists r.
    - unfold Cache.memory_hit, Cache._is_memory_cache_valid.
      rewrite <- Hkey. fold c1 in Hmem, Hstamp. rewrite Hmem, Hstamp.
      destruct (loaded_fields (clock w) (Database.get_all_fare_rules (db_view w)) c0)
        as (Httl & _). fold c1 in Httl. rewrite Httl, Hck1, Z.sub_diag. done. }
  assert (Cache.memo c1 = []) as Hmemo.
  { destruct (loaded_fields (clock w) (Database.get_all_fare_rules (db_view w)) c0)
      as (_ & _ & Hm). exact Hm. }
  assert (exists st', Cache.get_fare_cached (clock w1) a b (c1, redis w1)
                      = (Returned (Some (Database.fare r)), st')) as [[c2 srv2] Hget].
  { unfold Cache.get_fare_cached. unfold bind at 1. unfold get_state at 1. simpl.
    rewrite Hmemo. simpl.
    rewrite (bind_returned _ _ _ _ _ (get_fare_cached_body_hit _ _ _ _ _ _ Hhit)).
    by eexists. }
  unfold result_of, get_fare_with_cache.
  rewrite (bind_returned _ _ _ _ _ Hgfc).
  by rewrite (bind_returned _ _ _ _ _ (on_fare_cache_eq _ _ _ _ _ _ Hc1 Hget)).
Qed.

Lemma invalidate_cache_returns from_zone to_zone c srv :
  exists c' srv',
    Cache.invalidate_cache from_zone to_zone (c, srv) = (Returned tt, (c', srv'))
    /\ (Redis.reachable srv = false \/ Cache.redis_client c = false -> srv' = srv).
Proof.
  unfold Cache.invalidate_cache.
  destruct (_ && _), from_zone, to_zone;
    rewrite ?invalidate_entry_eq, ?invalidate_all_eq;
    (eexists _, _; split; [reflexivity|]);
    intros [-> | ->]; by rewrite ?andb_false_r.
Qed.

(** C5. With the shared cache out of reach, at construction (the cache
    object is built without a client) or at call time, its operations
    fail soft: the lookup of [get_fare_cached] answers what the memory
    level holds and nothing from level 2, [set_fare_cache] and
    [invalidate_cache] leave the server as it was, and none of them
    raises. [resolveFare] then raises nothing either, leaves the server
    alone, and returns the fare of the rule store: for a pair that the
    process-local levels do not hold, and on the first call of a process
    on a store with one rule per unordered pair. *)
Theorem shared_cache_failure_is_soft :
  (forall installed url ttl srv,
     Redis.reachable srv = false ->
     Cache.redis_client (Cache.__init__ installed url ttl srv) = false)
  /\ (forall c srv now a b f from_zone to_zone,
        Redis.reachable srv = false \/ Cache.redis_client c = false ->
        Cache.get_fare_cached_body now a b (c, srv)
        = (Returned (Cache.memory_hit now (_make_key a b) c), (c, srv))
        /\ (exists c', Cache.set_fare_cache now a b f (c, srv) = (Returned tt, (c', srv)))
        /\ (exists c', Cache.invalidate_cache from_zone to_zone (c, srv)
                       = (Returned tt, (c', srv))))
  /\ (forall w a b,
        Redis.reachable (redis w) = false ->
        exists v w',
          Settings.get_fare a b w = (Returned v, w')
          /\ redis w' = redis w
          /\ (forall c,
                _fare_cache w = Some c ->
                Cache.memory_hit (clock w) (_make_key a b) c = None ->
                (forall fare, Lru.find (a, b) (Cache.memo c) <> Some (Some fare)) ->
                v = store_fare (db_view w) a b))
  /\ (forall w a b,
        Redis.reachable (redis w) = false ->
        _fare_cache w = None ->
        unordered_pair_unique (Database.fare_rules (db_view w)) ->
        result_of (Settings.get_fare a b) w
        = Returned (default 0%float (Database.get_fare (db_view w) a b))).
Proof.
  split; [|split; [|split]].
  - intros installed url ttl srv Hdown. unfold Cache.__init__, Redis.ping. simpl.
    rewrite Hdown. by destruct (_ && _).
  - intros c srv now a b f from_zone to_zone Hdegraded. split; [|split].
    + destruct Hdegraded.
      * by apply get_fare_cached_body_down.
      * by apply get_fare_cached_body_no_client.
    + destruct (set_fare_cache_returns now a b f c srv) as (srv' & Hset & Hdown & Hnone).
      assert (srv' = srv) as -> by (destruct Hdegraded; auto).
      by eexists.
    + destruct (invalidate_cache_returns from_zone to_zone c srv) as (c' & srv' & Hinv & Hsame).
      exists c'. by rewrite Hinv, Hsame.
  - intros w a b Hdown. unfold Settings.get_fare.
    destruct (get_fare_with_cache_returns w a b) as (v & w' & Hrun & _ & _ & _ & Hsrv).
    exists v, w'. split; [done|]. split; [by apply Hsrv|].
    intros c Hc Hmem Hmemo.
    destruct (get_fare_cache_spec w) as (c1 & w1 & Hgfc & Hc1 & Hv1 & Hck & _ & Hcase).
    rewrite Hc in Hcase. subst w1. rewrite Hc in Hc1. simplify_eq.
    destruct (get_fare_cached_miss (clock w) a b c1 (redis w) Hmemo Hmem) as [st' Hget].
    { by right; left. }
    destruct (get_fare_with_cache_on_miss w a b c1 w st' Hgfc Hc eq_refl Hget)
      as [w2 Hres].
    rewrite Hrun in Hres. by simplify_eq.
  - intros w a b Hdown Hfresh Hunique.
    by apply fresh_process_resolves_from_store.
Qed.

End Resolve.

(** ** Invalidation of the cache object *)

Section Invalidate.

Implicit Types (c : Cache.FareRulesCache) (srv : Redis.Server).

(** C10. [invalidate_cache] removes a single entry only when both zones
    are given and non-zero: the entry of the normalised key leaves the
    memory cache, its timestamps and (through a connected client) the
    shared cache, the entries of other zone pairs stay, and the memo
    table of the [lru_cache] is emptied. With a zone missing or equal to
    0 the call clears everything: memory cache, timestamps, memo table,
    and every key [fare:*] of the shared cache. *)
Theorem invalidate_cache_entry_or_all c srv :
  (forall a b,
     a <> 0 -> b <> 0 ->
     exists c' srv',
       Cache.invalidate_cache (Some a) (Some b) (c, srv) = (Returned tt, (c', srv'))
       /\ Cache._memory_cache c' = delete (_make_key a b) (Cache._memory_cache c)
       /\ Cache._cache_timestamps c' = delete (_make_key a b) (Cache._cache_timestamps c)
       /\ Cache.memo c' = []
       /\ (forall x y, sorted2 x y <> sorted2 a b ->
             Cache._memory_cache c' !! _make_key x y
             = Cache._memory_cache c !! _make_key x y)
       /\ Redis.kv srv'
          = if Cache.redis_client c && Redis.reachable srv
            then delete (_make_key a b) (Redis.kv srv) else Redis.kv srv)
  /\ (forall from_zone to_zone,
        from_zone = None \/ to_zone = None \/ from_zone = Some 0 \/ to_zone = Some 0 ->
        exists c' srv',
          Cache.invalidate_cache from_zone to_zone (c, srv) = (Returned tt, (c', srv'))
          /\ Cache._memory_cache c' = ∅
          /\ Cache._cache_timestamps c' = ∅
          /\ Cache.memo c' = []
          /\ (Cache.redis_client c = true -> Redis.reachable srv = true ->
              forall key, String.prefix "fare:" key = true ->
                          Redis.kv srv' !! key = None)).
Proof.
  split.
  - intros a b Ha Hb. unfold Cache.invalidate_cache, Cache.truthy_zone.
    apply Z.eqb_neq in Ha as ->. apply Z.eqb_neq in Hb as ->. simpl.
    rewrite invalidate_entry_eq. eexists _, _. split; [reflexivity|]. simpl.
    repeat split.
    + intros x y Hne. apply lookup_delete_ne. intros Heq.
      apply _make_key_inj in Heq. by destruct Hne.
    + by destruct (_ && _).
  - intros from_zone to_zone Hfalsy.
    assert (Cache.invalidate_cache from_zone to_zone (c, srv) = Cache.invalidate_all (c, srv))
      as ->.
    { unfold Cache.invalidate_cache, Cache.truthy_zone.
      destruct Hfalsy as [->|[->|[->| ->]]]; simpl; rewrite ?andb_false_r; try done;
        by destruct from_zone. }
    rewrite invalidate_all_eq. eexists _, _. split; [reflexivity|]. simpl.
    repeat split. intros -> -> key Hprefix. simpl.
    apply map_lookup_filter_None. right. intros x _. simpl. by rewrite Hprefix.
Qed.

End Invalidate.

(** ** Upserts of the rule store *)

Section Upsert.

Implicit Types (rows : list Database.FareRuleDB) (t : Database.Tables).

Lemma set_first_fare_pairs a b f rows :
  map Database.zone_pair (Database.set_first_fare a b f rows)
  = map Database.zone_pair rows.
Proof.
  induction rows as [|r rows IH]; [done|]. simpl.
  destruct (_ && _); simpl; [done|]. by rewrite IH.
Qed.

Lemma first_rule_None_pairs a b rows :
  Database.first_rule a b rows = None -> (a, b) ∉ map Database.zone_pair rows.
Proof.
  intros Hnone Hin. apply list_elem_of_fmap in Hin as (r & [= -> ->] & Hr).
  by apply (first_rule_None _ _ _ _ Hnone Hr).
Qed.

Lemma first_rule_set_first_fare a b f rows :
  is_Some (Database.first_rule a b rows) ->
  Database.fare <$> Database.first_rule a b (Database.set_first_fare a b f rows) = Some f.
Proof.
  unfold Database.first_rule.
  induction rows as [|r rows IH]; simpl; intros Hsome; [by destruct Hsome|].
  destruct (_ && _) eqn:Hmatch; simpl.
  - by rewrite Hmatch.
  - rewrite Hmatch. by apply IH.
Qed.

Lemma first_rule_set_first_fare_other a b f x y rows :
  (x, y) <> (a, b) ->
  Database.first_rule x y (Database.set_first_fare a b f rows)
  = Database.first_rule x y rows.
Proof.
  intros Hne. unfold Database.first_rule.
  induction rows as [|r rows IH]; [done|]. simpl.
  destruct ((Database.from_zone r =? a) && (Database.to_zone r =? b)) eqn:Hab; simpl.
  - apply andb_prop in Hab as [Ha%Z.eqb_eq Hb%Z.eqb_eq].
    assert ((Database.from_zone r =? x) && (Database.to_zone r =? y) = false) as ->; [|done].
    apply andb_false_iff. rewrite !Z.eqb_neq.
    destruct (decide (Database.from_zone r = x)); [right|by left].
    intros ?. destruct Hne. congruence.
  - destruct ((Database.from_zone r =? x) && (Database.to_zone r =? y)); [done|]. apply IH.
Qed.

Lemma first_rule_app_other a b x y rows r :
  (x, y) <> (a, b) -> Database.zone_pair r = (a, b) ->
  Database.first_rule x y (rows ++ [r]) = Database.first_rule x y rows.
Proof.
  intros Hne [= Ha Hb]. unfold Database.first_rule.
  induction rows as [|r0 rows IH]; simpl.
  - assert ((Database.from_zone r =? x) && (Database.to_zone r =? y) = false) as ->; [|done].
    apply andb_false_iff. rewrite !Z.eqb_neq.
    destruct (decide (Database.from_zone r = x)); [right|by left].
    intros ?. destruct Hne. congruence.
  - destruct (_ && _); [done|]. apply IH.
Qed.

Lemma first_rule_app_new a b rows r :
  Database.first_rule a b rows = None -> Database.zone_pair r = (a, b) ->
  Database.first_rule a b (rows ++ [r]) = Some r.
Proof.
  intros Hnone [= Ha Hb]. unfold Database.first_rule in *.
  induction rows as [|r0 rows IH]; simpl in *.
  - by rewrite Ha, Hb, !Z.eqb_refl.
  - destruct (_ && _); [done|]. by apply IH.
Qed.

(** C2. The claim fails on the code where the rule is stored the other
    way round. The default rules hold one rule per unordered pair, and
    [get_fare(2, 1)] reads the rule of (1, 2), since the fare is the
    same both ways. [update_fare_rule(2, 1, 70)] looks for a rule of
    the ordered pair (2, 1) only: it does not overwrite the rule of
    (1, 2) but adds a seventh row, which the table constraint, on the
    ordered pair, admits. The table then holds two rules with different
    fares for the one unordered pair, [get_fare(1, 2)] is 55 and
    [get_fare(2, 1)] is 70. [PUT /api/fare-rules] with the zones 2 and 1
    leaves the store of a process in this state. *)
Theorem update_fare_rule_reversed_adds_row :
  unordered_pair_unique Database.default_rules
  /\ Database.get_fare (tables Database.default_rules) 2 1 = Some 55%float
  /\ length (Database.fare_rules reversed_update) = 7%nat
  /\ Database.fare <$> Database.first_rule 1 2 (Database.fare_rules reversed_update)
     = Some 55%float
  /\ Database.fare <$> Database.first_rule 2 1 (Database.fare_rules reversed_update)
     = Some 70%float
  /\ Database.get_fare reversed_update 1 2 = Some 55%float
  /\ Database.get_fare reversed_update 2 1 = Some 70%float
  /\ ~ unordered_pair_unique (Database.fare_rules reversed_update)
  /\ Database.zone_pair_uc (Database.fare_rules reversed_update)
  /\ Database.fare_rules (db_view (run [UpdateRule 2 1 70%float] default_world))
     = Database.fare_rules reversed_update.
Proof.
  unfold unordered_pair_unique, Database.zone_pair_uc.
  split; [|split; [|split; [|split; [|split; [|split; [|split; [|split; [|split]]]]]]]].
  - apply (bool_decide_unpack _). by vm_compute.
  - by vm_compute.
  - by vm_compute.
  - by vm_compute.
  - by vm_compute.
  - by vm_compute.
  - by vm_compute.
  - apply (bool_decide_unpack _). by vm_compute.
  - apply (bool_decide_unpack _). by vm_compute.
  - by vm_compute.
Qed.

(** What [update_fare_rule(a, b, f)] does is an upsert on the ordered
    pair: afterwards the rule of (from_zone = a, to_zone = b) has the
    fare [f]; a rule already stored for that ordered pair is overwritten
    and no row is added; the rules of all other unordered pairs are as
    before; and a table with at most one rule per ordered pair stays
    one. A rule stored for (b, a) is not looked at. *)
Lemma update_fare_rule_upserts_ordered_pair t a b f :
  Database.zone_pair_uc (Database.fare_rules t) ->
  Database.zone_pair_uc (Database.fare_rules (Database.update_fare_rule t a b f))
  /\ Database.fare <$>
       Database.first_rule a b (Database.fare_rules (Database.update_fare_rule t a b f))
     = Some f
  /\ (is_Some (Database.first_rule a b (Database.fare_rules t)) ->
      map Database.zone_pair (Database.fare_rules (Database.update_fare_rule t a b f))
      = map Database.zone_pair (Database.fare_rules t))
  /\ (forall x y, sorted2 x y <> sorted2 a b ->
        Database.first_rule x y (Database.fare_rules (Database.update_fare_rule t a b f))
        = Database.first_rule x y (Database.fare_rules t)).
Proof.
  unfold Database.zone_pair_uc, Database.update_fare_rule. intros Huc.
  assert (forall x y, sorted2 x y <> sorted2 a b -> (x, y) <> (a, b)) as Hpair.
  { intros x y Hne [= -> ->]. by destruct Hne. }
  destruct (Database.first_rule a b (Database.fare_rules t)) as [r|] eqn:Hfirst; simpl.
  - split; [by rewrite set_first_fare_pairs|].
    split. { apply first_rule_set_first_fare. by rewrite Hfirst. }
    split; [intros _; apply set_first_fare_pairs|].
    intros x y Hne%Hpair. by apply first_rule_set_first_fare_other.
  - split.
    { rewrite map_app. simpl. apply NoDup_app. split; [done|].
      split; [|apply NoDup_singleton].
      intros p Hp ->%list_elem_of_singleton.
      by apply (first_rule_None_pairs _ _ _ Hfirst). }
    split. { by erewrite first_rule_app_new. }
    split; [by intros []|].
    intros x y Hne%Hpair. by apply (first_rule_app_other a b).
Qed.

End Upsert.

(** ** What the memo table and the missing invalidation do *)

Section Stale.

(** C1. The claim fails on the code: after [update_fare_rule(1, 2, 60)]
    and [reload_fare_rules()], in a process that had resolved (1, 2)
    before, the store and the reloaded settings hold 60, but the memory
    cache and the memo table of the [lru_cache] still hold 55, and the
    next [get_fare(1, 2)] returns 55. [reload_fare_rules] resets the two
    attributes of [Settings] and no level of the fare cache. *)
Theorem reload_keeps_cached_fare :
  Database.get_fare (database updated_world) 1 2 = Some 60%float
  /\ (_fare_rules_cache updated_world ≫= dict_get (1, 2)) = Some 60%float
  /\ (_fare_cache updated_world ≫= fun c => Cache._memory_cache c !! _make_key 1 2)
     = Some 55%float
  /\ (_fare_cache updated_world ≫= fun c => Lru.find (1, 2) (Cache.memo c))
     = Some (Some 55%float)
  /\ result_of (Settings.get_fare 1 2) updated_world = Returned 55%float.
Proof. repeat split; by vm_compute. Qed.

(** C3. The claim fails on the code: a fare set at time 0 and read once
    at time 10 is returned again at time 3600, when [now - insertedAt]
    has reached the TTL of 3600. The entry of the memory cache is
    expired then, and the body of [get_fare_cached] reports it absent;
    the value comes from the memo table of the [lru_cache]. *)
Theorem get_fare_cached_returns_expired_fare :
  Cache.ttl (fst read_once) = 3600
  /\ Cache._cache_timestamps (fst read_once) !! _make_key 1 2 = Some 0
  /\ Cache._is_memory_cache_valid 3600 (_make_key 1 2) (fst read_once) = false
  /\ fst (Cache.get_fare_cached_body 3600 1 2 read_once) = Returned None
  /\ fst (Cache.get_fare_cached 3600 1 2 read_once) = Returned (Some 55%float).
Proof. repeat split; by vm_compute. Qed.

(** C4. The claim fails on the code: in a process that resolved (2, 1),
    saw the rule of (1, 2) set to 60, and ran on for more than a TTL,
    [get_fare(1, 2)] is 60, read from the store, and [get_fare(2, 1)] is
    55, read from the memo table, which is keyed by the arguments as
    passed; it is 55 also when asked right after [get_fare(1, 2)]. *)
Theorem resolve_fare_asymmetric :
  reachable later_world
  /\ result_of (Settings.get_fare 1 2) later_world = Returned 60%float
  /\ result_of (Settings.get_fare 2 1) later_world = Returned 55%float
  /\ result_of (Settings.get_fare 2 1) (run [Resolve 1 2] later_world)
     = Returned 55%float.
Proof.
  split.
  - by exists 0, false, no_server, [Resolve 2 1; UpdateRule 1 2 60%float; Sleep 4000].
  - repeat split; by vm_compute.
Qed.

End Stale.

(** ** The theorems at work *)

Section Instances.

(** Four journeys on the default rules come back in order, numbered 1
    to 4. *)
Lemma calculate_all_fares_keeps_order_witness :
  exists r w',
    calculate_all_fares (H := ZoneBasedFareCalculator)
      [journey 1 2; journey 2 3; journey 3 3; journey 1 1] default_world
    = (Returned r, w')
    /\ map Models.journey (Models.journeys r)
       = [journey 1 2; journey 2 3; journey 3 3; journey 1 1]
    /\ map Models.journey_id (Models.journeys r) = [Some 1; Some 2; Some 3; Some 4]
    /\ Models.journey_count r = 4.
Proof.
  destruct calculate_all_fares_keeps_order as [Hshape Hreturns].
  destruct (Hreturns [journey 1 2; journey 2 3; journey 3 3; journey 1 1] default_world)
    as (r & w' & Hrun).
  { repeat constructor. }
  exists r, w'. split; [exact Hrun|].
  exact (Hshape _ _ _ _ _ Hrun).
Defined.

(** The total of the four journeys is the rounded sum of their fares. *)
Lemma total_daily_fare_is_rounded_sum_witness :
  match result_of (calculate_all_fares (H := ZoneBasedFareCalculator)
                     [journey 1 2; journey 2 3; journey 3 3; journey 1 1])
                  four_rules_world with
  | Returned r =>
      Models.total_daily_fare r
      = Float.round2 (Float.sum (map Models.fare (Models.journeys r)))
  | Raised _ => False
  end.
Proof.
  unfold result_of.
  destruct (calculate_all_fares _ four_rules_world) as [[r|e] w'] eqn:Hrun; simpl.
  - exact (proj1 total_daily_fare_is_rounded_sum _ _ _ _ _ Hrun).
  - vm_compute in Hrun. discriminate Hrun.
Defined.

(** The default rules have no rule for (1, 5): it resolves to 0.0, also
    in a process whose cache is filled. *)
Lemma no_rule_resolves_to_zero_witness :
  Database.get_fare (db_view idle_world) 1 5 = None
  /\ result_of (Settings.get_fare 1 5) idle_world = Returned 0%float.
Proof.
  split; [reflexivity|].
  apply (no_rule_resolves_to_zero idle_world 1 5).
  - reflexivity.
  - intros c Hc. vm_compute in Hc. injection Hc as <-.
    split; [reflexivity|]. intros fare. vm_compute. discriminate.
  - reflexivity.
Defined.

(** With no server within reach, the idle process resolves (1, 3) from
    the rule store, and so does a fresh process (2, 1). *)
Lemma shared_cache_failure_is_soft_witness :
  (exists v w',
     Settings.get_fare 1 3 idle_world = (Returned v, w')
     /\ redis w' = redis idle_world
     /\ v = 65%float)
  /\ result_of (Settings.get_fare 2 1) default_world = Returned 55%float.
Proof.
  destruct shared_cache_failure_is_soft as (_ & _ & Hidle & Hfresh).
  split.
  - destruct (Hidle idle_world 1 3 eq_refl) as (v & w' & Hrun & Hsrv & Hval).
    exists v, w'. split; [exact Hrun|]. split; [exact Hsrv|].
    destruct (_fare_cache idle_world) as [c|] eqn:Hc; [|vm_compute in Hc; discriminate Hc].
    rewrite (Hval c eq_refl).
    + reflexivity.
    + vm_compute in Hc. injection Hc as <-. reflexivity.
    + vm_compute in Hc. injection Hc as <-. intros fare. vm_compute. discriminate.
  - rewrite (Hfresh default_world 2 1); [reflexivity|reflexivity|reflexivity|].
    apply (bool_decide_unpack _). reflexivity.
Defined.

(** On a cache holding (1, 2) and (2, 3): invalidating (2, 1) removes
    the entry of (1, 2) alone, invalidating with one zone clears all. *)
Lemma invalidate_cache_entry_or_all_witness :
  (exists c' srv',
     Cache.invalidate_cache (Some 2) (Some 1) (fst shared_cache, snd shared_cache)
     = (Returned tt, (c', srv'))
     /\ Cache._memory_cache c' !! _make_key 1 2 = None
     /\ Cache._memory_cache c' !! _make_key 2 3 = Some 45%float)
  /\ (exists c' srv',
        Cache.invalidate_cache (Some 1) None (fst shared_cache, snd shared_cache)
        = (Returned tt, (c', srv'))
        /\ Cache._memory_cache c' = ∅
        /\ Redis.kv srv' !! _make_key 2 3 = None).
Proof.
  destruct (invalidate_cache_entry_or_all (fst shared_cache) (snd shared_cache))
    as [Hentry Hall].
  split.
  - destruct (Hentry 2 1) as (c' & srv' & Hrun & Hmem & _ & _ & Hother & _);
      [discriminate|discriminate|].
    exists c', srv'. split; [exact Hrun|]. split.
    + rewrite Hmem. apply lookup_delete_eq.
    + rewrite Hother; [reflexivity|discriminate].
  - destruct (Hall (Some 1) None) as (c' & srv' & Hrun & Hmem & _ & _ & Hkeys);
      [right; left; reflexivity|].
    exists c', srv'. split; [exact Hrun|]. split; [exact Hmem|].
    apply Hkeys; reflexivity.
Defined.

(** Setting the rule of (1, 2) on the default rules overwrites it. *)
Lemma update_fare_rule_upserts_ordered_pair_witness :
  Database.zone_pair_uc Database.default_rules
  /\ Database.get_fare
       (Database.update_fare_rule (tables Database.default_rules) 1 2 60%float) 1 2
     = Some 60%float
  /\ length (Database.fare_rules
               (Database.update_fare_rule (tables Database.default_rules) 1 2 60%float))
     = 6%nat.
Proof.
  assert (Database.zone_pair_uc Database.default_rules) as Huc.
  { apply (bool_decide_unpack _). reflexivity. }
  split; [exact Huc|].
  destruct (update_fare_rule_upserts_ordered_pair
              (tables Database.default_rules) 1 2 60%float Huc)
    as (_ & Hfare & Hpairs & _).
  split.
  - unfold Database.get_fare.
    destruct (Database.first_rule 1 2 _) as [r|]; [|discriminate Hfare].
    simpl in Hfare. exact Hfare.
  - rewrite <- (length_map Database.zone_pair), Hpairs; [reflexivity|].
    eexists. reflexivity.
Defined.

End Instances.

(** ** Further properties of the code *)

Section Further.

(** Normalisation: the key of a zone pair is built from its lower and
    its higher zone, so two pairs have the same key exactly when they
    are the same unordered pair. *)
Theorem make_key_normalises (a b c d : Z) :
  sorted2 a b = (Z.min a b, Z.max a b)
  /\ (_make_key a b = _make_key c d <-> sorted2 a b = sorted2 c d).
Proof.
  split.
  - unfold sorted2. case_match; f_equal; lia.
  - split; [apply _make_key_inj|].
    unfold _make_key. by intros ->.
Qed.



Lemma NoDup_fmap_eq {A B} (g : A -> B) (l : list A) x y :
  NoDup (map g l) -> x ∈ l -> y ∈ l -> g x = g y -> x = y.
Proof.
  induction l as [|z l IH]; simpl; intros Hnodup Hx Hy Heq.
  { by apply elem_of_nil in Hx. }
  apply NoDup_cons in Hnodup as [Hz Hnodup].
  apply elem_of_cons in Hx as [->|Hx], Hy as [->|Hy]; auto.
  - destruct Hz. rewrite Heq. apply list_elem_of_fmap. by exists y.
  - destruct Hz. rewrite <- Heq. apply list_elem_of_fmap. by exists x.
Qed.

Lemma first_rule_Some a b rows r :
  Database.first_rule a b rows = Some r ->
  r ∈ rows /\ Database.from_zone r = a /\ Database.to_zone r = b.
Proof.
  intros Hfind. apply find_some in Hfind as [Hin Hmatch].
  apply andb_prop in Hmatch as [Ha%Z.eqb_eq Hb%Z.eqb_eq].
  by rewrite list_elem_of_In.
Qed.

(** The store is symmetric where it holds one rule per unordered pair:
    the lookup of (a, b) and of (b, a) give the same fare. *)
Theorem store_lookup_symmetric (t : Database.Tables) (a b : Z) :
  unordered_pair_unique (Database.fare_rules t) ->
  Database.get_fare t a b = Database.get_fare t b a.
Proof.
  unfold unordered_pair_unique, Database.get_fare. intros Hunique.
  destruct (Database.first_rule a b _) as [r1|] eqn:Hab;
    destruct (Database.first_rule b a _) as [r2|] eqn:Hba; try done.
  apply first_rule_Some in Hab as (Hr1 & Ha1 & Hb1).
  apply first_rule_Some in Hba as (Hr2 & Ha2 & Hb2).
  assert (r1 = r2) as ->; [|done].
  apply (NoDup_fmap_eq _ _ _ _ Hunique Hr1 Hr2).
  rewrite Ha1, Hb1, Ha2, Hb2. apply sorted2_sym.
Qed.

Lemma store_lookup_symmetric_witness :
  Database.get_fare (tables Database.default_rules) 3 1
  = Database.get_fare (tables Database.default_rules) 1 3.
Proof.
  apply (store_lookup_symmetric (tables Database.default_rules) 3 1).
  apply (bool_decide_unpack _). reflexivity.
Defined.

Lemma elem_of_zone_add (x z : Z) (zones : list Z) :
  x ∈ Database.zone_add z zones <-> x = z \/ x ∈ zones.
Proof.
  induction zones as [|y zones IH]; simpl.
  - rewrite list_elem_of_singleton, elem_of_nil. tauto.
  - destruct (Z.ltb_spec z y); [|destruct (Z.eqb_spec z y)];
      rewrite ?elem_of_cons, ?IH; [tauto| |tauto].
    subst. tauto.
Qed.

(** Zone validation: a zone is valid exactly when it is the origin or
    the destination of a rule of the store; the check of [Settings]
    returns that answer and never raises. *)
Theorem is_valid_zone_iff_in_a_rule (w : World) (zone : Z) :
  (Database.is_valid_zone (db_view w) zone = true
   <-> exists r, r ∈ Database.fare_rules (db_view w)
                 /\ (Database.from_zone r = zone \/ Database.to_zone r = zone))
  /\ result_of (Settings.is_valid_zone zone) w
     = Returned (Database.is_valid_zone (db_view w) zone).
Proof.
  split; [|by unfold result_of; rewrite is_valid_zone_eq].
  unfold Database.is_valid_zone, Database.get_available_zones.
  rewrite existsb_exists.
  cut (forall rows zones,
         zone ∈ fold_left (fun zones r => Database.zone_add (Database.to_zone r)
                                            (Database.zone_add (Database.from_zone r) zones))
                          rows zones
         <-> zone ∈ zones
             \/ exists r, r ∈ rows
                          /\ (Database.from_zone r = zone \/ Database.to_zone r = zone)).
  { intros Hgen. split.
    - intros (x & Hin & ->%Z.eqb_eq). apply list_elem_of_In, Hgen in Hin as [Hin|?]; [|done].
      by apply elem_of_nil in Hin.
    - intros Hr. exists zone. split; [|apply Z.eqb_refl].
      apply list_elem_of_In, Hgen. by right. }
  induction rows as [|r rows IH]; intros zones; simpl.
  - split; [by left|]. intros [?|(r & Hin & _)]; [done|]. by apply elem_of_nil in Hin.
  - rewrite IH, !elem_of_zone_add. split.
    + intros [[->|[->|Hin]]|(r' & Hin & Hz)].
      * right. exists r. split; [left|by right].
      * right. exists r. split; [left|by left].
      * by left.
      * right. exists r'. split; [by right|done].
    + intros [Hin|(r' & [->|Hin]%elem_of_cons & Hz)].
      * left. tauto.
      * left. destruct Hz as [<-|<-]; tauto.
      * right. by exists r'.
Qed.

End Further.

(** ** The rule store: zones, defaults, new zones *)

Section StoreZones.

Implicit Types (t : Database.Tables) (rows : list Database.FareRuleDB).

Lemma elem_of_zones_of_rows (zone : Z) rows (zones : list Z) :
  zone ∈ fold_left (fun zones r => Database.zone_add (Database.to_zone r)
                                     (Database.zone_add (Database.from_zone r) zones))
                   rows zones
  <-> zone ∈ zones
      \/ exists r, r ∈ rows
                   /\ (Database.from_zone r = zone \/ Database.to_zone r = zone).
Proof.
  revert zones. induction rows as [|r rows IH]; intros zones; simpl.
  - split; [by left|]. intros [?|(r & Hin & _)]; [done|]. by apply elem_of_nil in Hin.
  - rewrite IH, !elem_of_zone_add. split.
    + intros [[->|[->|Hin]]|(r' & Hin & Hz)].
      * right. exists r. split; [left|by right].
      * right. exists r. split; [left|by left].
      * by left.
      * right. exists r'. split; [by right|done].
    + intros [Hin|(r' & [->|Hin]%elem_of_cons & Hz)].
      * left. tauto.
      * left. destruct Hz as [<-|<-]; tauto.
      * right. by exists r'.
Qed.

Lemma elem_of_get_available_zones t zone :
  zone ∈ Database.get_available_zones t
  <-> exists r, r ∈ Database.fare_rules t
                /\ (Database.from_zone r = zone \/ Database.to_zone r = zone).
Proof.
  unfold Database.get_available_zones. rewrite elem_of_zones_of_rows.
  split; [|by right]. intros [Hin|?]; [|done]. by apply elem_of_nil in Hin.
Qed.

Lemma is_valid_zone_elem t zone :
  Database.is_valid_zone t zone = true <-> zone ∈ Database.get_available_zones t.
Proof.
  unfold Database.is_valid_zone. rewrite existsb_exists. split.
  - intros (x & Hin & ->%Z.eqb_eq). by apply list_elem_of_In.
  - intros Hin. exists zone. split; [by apply list_elem_of_In|apply Z.eqb_refl].
Qed.

Lemma zone_add_sorted (z : Z) (zones : list Z) :
  StronglySorted Z.lt zones -> StronglySorted Z.lt (Database.zone_add z zones).
Proof.
  induction zones as [|x zones IH]; intros Hsorted; simpl.
  - repeat constructor.
  - apply StronglySorted_inv in Hsorted as [Hrest Hx].
    destruct (Z.ltb_spec z x); [|destruct (Z.eqb_spec z x)].
    + constructor; [by constructor|]. constructor; [done|].
      eapply Forall_impl; [exact Hx|]. simpl. lia.
    + by constructor.
    + constructor; [by apply IH|].
      apply Forall_forall. intros y [->|Hy]%elem_of_zone_add; [lia|].
      by apply (proj1 (Forall_forall _ _) Hx).
Qed.

Lemma get_available_zones_increasing t :
  StronglySorted Z.lt (Database.get_available_zones t).
Proof.
  unfold Database.get_available_zones.
  generalize (@nil Z) (SSorted_nil Z.lt).
  induction (Database.fare_rules t) as [|r rows IH]; intros zones Hzones; [done|].
  simpl. by apply IH, zone_add_sorted, zone_add_sorted.
Qed.

Lemma get_available_zones_nil t :
  Database.get_available_zones t = [] <-> Database.fare_rules t = [].
Proof.
  split.
  - intros Hnil. destruct (Database.fare_rules t) as [|r rows] eqn:Hrows; [done|].
    assert (Database.from_zone r ∈ Database.get_available_zones t) as Hin.
    { apply elem_of_get_available_zones. exists r. rewrite Hrows. split; [left|by left]. }
    rewrite Hnil in Hin. by apply elem_of_nil in Hin.
  - unfold Database.get_available_zones. by intros ->.
Qed.

(** The list of available zones is strictly increasing, hence without
    repeats, and it is empty exactly for a store without rules. *)
Theorem get_available_zones_sorted t :
  StronglySorted Z.lt (Database.get_available_zones t)
  /\ NoDup (Database.get_available_zones t)
  /\ (Database.get_available_zones t = [] <-> Database.fare_rules t = []).
Proof.
  split; [apply get_available_zones_increasing|]. split; [|apply get_available_zones_nil].
  induction (get_available_zones_increasing t) as [|z zones _ IH Hz]; constructor; [|done].
  intros Hin. apply (proj1 (Forall_forall _ _) Hz) in Hin. lia.
Qed.

Lemma min_of_spec (z : Z) (zones : list Z) :
  Database.min_of z zones ∈ z :: zones
  /\ forall x, x ∈ z :: zones -> Database.min_of z zones <= x.
Proof.
  unfold Database.min_of. revert z.
  induction zones as [|y zones IH]; intros z; simpl.
  - split; [left|]. intros x ->%list_elem_of_singleton. lia.
  - destruct (IH (Z.min z y)) as [Hin Hle]. split.
    + apply elem_of_cons in Hin as [->|Hin].
      * destruct (Z.min_spec z y) as [[_ ->]|[_ ->]]; [left|right; left].
      * by do 2 right.
    + intros x [->|[->|Hx]%elem_of_cons]%elem_of_cons.
      * pose proof (Hle (Z.min z y) ltac:(left)). lia.
      * pose proof (Hle (Z.min z y) ltac:(left)). lia.
      * apply Hle. by right.
Qed.

Lemma max_of_spec (z : Z) (zones : list Z) :
  Database.max_of z zones ∈ z :: zones
  /\ forall x, x ∈ z :: zones -> x <= Database.max_of z zones.
Proof.
  unfold Database.max_of. revert z.
  induction zones as [|y zones IH]; intros z; simpl.
  - split; [left|]. intros x ->%list_elem_of_singleton. lia.
  - destruct (IH (Z.max z y)) as [Hin Hle]. split.
    + apply elem_of_cons in Hin as [->|Hin].
      * destruct (Z.max_spec z y) as [[_ ->]|[_ ->]]; [right; left|left].
      * by do 2 right.
    + intros x [->|[->|Hx]%elem_of_cons]%elem_of_cons.
      * pose proof (Hle (Z.max z y) ltac:(left)). lia.
      * pose proof (Hle (Z.max z y) ltac:(left)). lia.
      * apply Hle. by right.
Qed.

(** [get_min_max_zones] answers (None, None) exactly on a store without
    rules; otherwise its two zones are zones of the store and every
    valid zone lies between them. *)
Theorem get_min_max_zones_bounds t :
  match Database.get_min_max_zones t with
  | (Some lo, Some hi) =>
      Database.is_valid_zone t lo = true
      /\ Database.is_valid_zone t hi = true
      /\ forall zone, Database.is_valid_zone t zone = true -> lo <= zone <= hi
  | (None, None) => Database.fare_rules t = []
  | _ => False
  end.
Proof.
  unfold Database.get_min_max_zones.
  destruct (Database.get_available_zones t) as [|z zones] eqn:Hzones.
  - by apply get_available_zones_nil.
  - destruct (min_of_spec z zones) as [Hlo Hle], (max_of_spec z zones) as [Hhi Hge].
    rewrite !is_valid_zone_elem, Hzones. split; [done|]. split; [done|].
    intros zone Hzone%is_valid_zone_elem. rewrite Hzones in Hzone. auto.
Qed.

End StoreZones.

(** ** The rule store: defaults and new zones *)

Section StoreWrites.

Implicit Types (t : Database.Tables) (rows : list Database.FareRuleDB).

Lemma first_config_app k (l1 l2 : list Database.SystemConfigDB) :
  Database.first_config k (l1 ++ l2)
  = match Database.first_config k l1 with
    | Some c => Some c
    | None => Database.first_config k l2
    end.
Proof.
  unfold Database.first_config. induction l1 as [|c l1 IH]; simpl; [done|].
  by destruct (bool_decide _).
Qed.

(** [init_default_fare_rules] only fills what is missing: a second run
    changes nothing, rules that exist are left as they are, every
    configuration value that was set stays set, and afterwards the store
    has rules and a value for [max_journeys_per_day] ("20" unless one
    was there). *)
Theorem init_default_fare_rules_fills_once t :
  Database.init_default_fare_rules (Database.init_default_fare_rules t)
  = Database.init_default_fare_rules t
  /\ Database.fare_rules (Database.init_default_fare_rules t) <> []
  /\ (Database.fare_rules t <> [] ->
      Database.fare_rules (Database.init_default_fare_rules t) = Database.fare_rules t)
  /\ (forall k v,
        Database.get_config_value t k = Some v ->
        Database.get_config_value (Database.init_default_fare_rules t) k = Some v)
  /\ (Database.get_config_value t "max_journeys_per_day" = None ->
      Database.get_config_value (Database.init_default_fare_rules t) "max_journeys_per_day"
      = Some "20")
  /\ (Database.zone_pair_uc (Database.fare_rules t) ->
      Database.zone_pair_uc (Database.fare_rules (Database.init_default_fare_rules t))).
Proof.
  unfold Database.init_default_fare_rules, Database.get_config_value. simpl.
  repeat split.
  - f_equal.
    + by destruct (Database.fare_rules t).
    + destruct (Database.first_config _ (Database.system_config t)) eqn:Hc.
      * by rewrite Hc.
      * by rewrite first_config_app, Hc.
  - by destruct (Database.fare_rules t).
  - by destruct (Database.fare_rules t).
  - intros k v Hk.
    destruct (Database.first_config "max_journeys_per_day" _); [done|].
    rewrite first_config_app. by destruct (Database.first_config k _).
  - intros Hnone.
    destruct (Database.first_config "max_journeys_per_day" _) eqn:Hc; [done|].
    by rewrite first_config_app, Hc.
  - intros Huc. destruct (Database.fare_rules t); [|done].
    apply (bool_decide_unpack _). reflexivity.
Qed.

Lemma first_rule_app a b rows1 rows2 :
  Database.first_rule a b (rows1 ++ rows2)
  = match Database.first_rule a b rows1 with
    | Some r => Some r
    | None => Database.first_rule a b rows2
    end.
Proof.
  unfold Database.first_rule. induction rows1 as [|r rows1 IH]; simpl; [done|].
  by destruct (_ && _).
Qed.

Lemma first_rule_absent a b rows :
  (forall r, r ∈ rows -> Database.zone_pair r <> (a, b)) ->
  Database.first_rule a b rows = None.
Proof.
  unfold Database.first_rule. induction rows as [|r rows IH]; intros Hrows; simpl; [done|].
  destruct (_ && _) eqn:Hmatch.
  - apply andb_prop in Hmatch as [Ha%Z.eqb_eq Hb%Z.eqb_eq].
    destruct (Hrows r); [left|]. unfold Database.zone_pair. congruence.
  - apply IH. intros r' Hr'. apply Hrows. by right.
Qed.

Lemma zone_rows_pairs zone (fares : list (Z * float)) :
  map Database.zone_pair (Database.zone_rows zone fares)
  = map (fun p => (zone, p.1)) fares.
Proof.
  unfold Database.zone_rows. rewrite map_map. apply map_ext. by intros [z f].
Qed.

Lemma first_rule_zone_rows zone (fares : list (Z * float)) z f :
  NoDup (map fst fares) -> (z, f) ∈ fares ->
  Database.fare <$> Database.first_rule zone z (Database.zone_rows zone fares) = Some f.
Proof.
  unfold Database.first_rule.
  induction fares as [|[z0 f0] fares IH]; simpl; intros Hnodup Hin.
  { by apply elem_of_nil in Hin. }
  apply NoDup_cons in Hnodup as [Hfresh Hnodup]. rewrite Z.eqb_refl. simpl.
  apply elem_of_cons in Hin as [[= -> ->]|Hin].
  - by rewrite Z.eqb_refl.
  - destruct (Z.eqb_spec z0 z) as [->|_]; [|by apply IH].
    destruct Hfresh. apply list_elem_of_fmap. by exists (z, f).
Qed.

Lemma zone_rows_from zone (fares : list (Z * float)) r :
  r ∈ Database.zone_rows zone fares ->
  Database.from_zone r = zone /\ Database.to_zone r ∈ map fst fares.
Proof.
  unfold Database.zone_rows. intros ([z f] & -> & Hin)%list_elem_of_fmap. simpl.
  split; [done|]. apply list_elem_of_fmap. by exists (z, f).
Qed.

Lemma unknown_zone_no_row t zone r :
  Database.is_valid_zone t zone = false -> r ∈ Database.fare_rules t ->
  Database.from_zone r <> zone /\ Database.to_zone r <> zone.
Proof.
  intros Hzone Hr.
  assert (zone ∉ Database.get_available_zones t) as Hnot.
  { intros Hin%is_valid_zone_elem. congruence. }
  split; intros Heq; apply Hnot, elem_of_get_available_zones; exists r; auto.
Qed.

(** [add_zone] for a zone the store does not know yet, on a table that
    respects its constraint: the commit succeeds and the constraint
    still holds; every fare of the dict is then found in both
    directions; the fares between other zones are as before; the valid
    zones are the old ones, the new zone and the keys of the dict; and
    adding the same zone again fails with an [IntegrityError]. *)
Theorem add_zone_new_zone t zone (fares : list (Z * float)) :
  Database.zone_pair_uc (Database.fare_rules t) ->
  NoDup (map fst fares) ->
  Database.is_valid_zone t zone = false ->
  exists t',
    Database.add_zone t zone fares = Database.Committed t'
    /\ Database.zone_pair_uc (Database.fare_rules t')
    /\ (forall z f, (z, f) ∈ fares ->
          Database.get_fare t' zone z = Some f /\ Database.get_fare t' z zone = Some f)
    /\ (forall x y, x <> zone -> y <> zone ->
          Database.get_fare t' x y = Database.get_fare t x y)
    /\ (forall z, Database.is_valid_zone t' z = true
                  <-> Database.is_valid_zone t z = true
                      \/ (fares <> [] /\ (z = zone \/ z ∈ map fst fares)))
    /\ (fares <> [] -> Database.add_zone t' zone fares = Database.IntegrityError).
Proof.
  intros Huc Hkeys Hzone. unfold Database.add_zone, Database.zone_pair_uc in *.
  assert (NoDup (map Database.zone_pair
                     (Database.fare_rules t ++ Database.zone_rows zone fares))) as Huc'.
  { rewrite map_app. apply NoDup_app. split; [done|]. split.
    - intros p (r & -> & Hr)%list_elem_of_fmap (r' & Heq & Hr')%list_elem_of_fmap.
      destruct (unknown_zone_no_row _ _ _ Hzone Hr) as [Hfrom _].
      destruct (zone_rows_from _ _ _ Hr') as [Hfrom' _].
      unfold Database.zone_pair in Heq. congruence.
    - rewrite zone_rows_pairs.
      apply (NoDup_fmap_2 (fun z : Z => (zone, z))) in Hkeys.
      by rewrite <- list_fmap_compose in Hkeys. }
  rewrite bool_decide_eq_true_2 by done.
  eexists. split; [reflexivity|]. simpl. split; [done|].
  assert (forall z, Database.first_rule zone z (Database.fare_rules t) = None) as Hfrom.
  { intros z. apply first_rule_absent. intros r Hr [= Heq _].
    by destruct (unknown_zone_no_row _ _ _ Hzone Hr). }
  assert (forall z, Database.first_rule z zone (Database.fare_rules t) = None) as Hto.
  { intros z. apply first_rule_absent. intros r Hr [= _ Heq].
    by destruct (unknown_zone_no_row _ _ _ Hzone Hr). }
  assert (forall z f, (z, f) ∈ fares ->
            Database.get_fare
              {| Database.fare_rules := Database.fare_rules t ++ Database.zone_rows zone fares;
                 Database.system_config := Database.system_config t |} zone z = Some f)
    as Hforward.
  { intros z f Hin. unfold Database.get_fare. simpl.
    rewrite first_rule_app, Hfrom.
    pose proof (first_rule_zone_rows zone fares z f Hkeys Hin) as Hfind.
    destruct (Database.first_rule zone z _); by simplify_eq/=. }
  split; [|split; [|split]].
  - intros z f Hin. split; [by apply Hforward|].
    destruct (decide (z = zone)) as [->|Hne]; [by apply Hforward|].
    unfold Database.get_fare. simpl.
    rewrite (first_rule_app z zone), Hto.
    rewrite (first_rule_absent z zone (Database.zone_rows zone fares)).
    2: { intros r Hr [= Heq _]. destruct (zone_rows_from _ _ _ Hr). congruence. }
    rewrite first_rule_app, Hfrom.
    pose proof (first_rule_zone_rows zone fares z f Hkeys Hin) as Hfind.
    destruct (Database.first_rule zone z _); by simplify_eq/=.
  - intros x y Hx Hy. unfold Database.get_fare. simpl.
    rewrite !first_rule_app.
    rewrite (first_rule_absent x y (Database.zone_rows zone fares)).
    2: { intros r Hr [= Heq _]. destruct (zone_rows_from _ _ _ Hr). congruence. }
    rewrite (first_rule_absent y x (Database.zone_rows zone fares)).
    2: { intros r Hr [= Heq _]. destruct (zone_rows_from _ _ _ Hr). congruence. }
    destruct (Database.first_rule x y (Database.fare_rules t)); [done|].
    by destruct (Database.first_rule y x (Database.fare_rules t)).
  - intros z. rewrite !is_valid_zone_elem, !elem_of_get_available_zones. simpl. split.
    + intros (r & [Hr|Hr]%elem_of_app & Hz); [left; by exists r|right].
      destruct (zone_rows_from _ _ _ Hr) as [Hfrom' Hto'].
      split; [by intros ->; apply elem_of_nil in Hto'|].
      destruct Hz as [<-|<-]; auto.
    + intros [(r & Hr & Hz)|[Hne Hz]].
      { exists r. split; [apply elem_of_app; by left|done]. }
      destruct Hz as [->|(p & -> & Hp)%list_elem_of_fmap].
      * destruct fares as [|[z0 f0] fares']; [done|].
        eexists. split; [apply elem_of_app; right; left|]. by left.
      * destruct p as [z f]. eexists. split.
        { apply elem_of_app. right. unfold Database.zone_rows.
          apply list_elem_of_fmap. by exists (z, f). }
        by right.
  - intros Hne. rewrite bool_decide_eq_false_2; [done|]. simpl.
    rewrite !map_app. intros [_ [Hdisj _]]%NoDup_app.
    destruct fares as [|[z0 f0] fares']; [done|].
    apply (Hdisj (zone, z0)).
    + apply elem_of_app. right. left.
    + left.
Qed.

End StoreWrites.

(** ** Settings and the API endpoints *)

Arguments Settings.get_fare_rules : simpl never.
Arguments Settings.get_available_zones : simpl never.
Arguments Settings.reload_fare_rules : simpl never.
Arguments Endpoints.db_update_fare_rule : simpl never.

Section SettingsAndApi.

Implicit Types (w : World) (t : Database.Tables).

Lemma db_ready_settings w :
  _fare_rules_cache (db_ready w) = _fare_rules_cache w
  /\ _zones_cache (db_ready w) = _zones_cache w.
Proof. unfold db_ready. by destruct (_db_manager w). Qed.

Lemma settings_get_fare_rules_eq w :
  Settings.get_fare_rules w
  = match _fare_rules_cache w with
    | Some rules => (Returned rules, w)
    | None =>
        (Returned (Database.get_all_fare_rules (db_view w)),
         with_settings (db_ready w) (Some (Database.get_all_fare_rules (db_view w)))
                       (_zones_cache w))
    end.
Proof.
  unfold Settings.get_fare_rules. unfold bind at 1. unfold get_state at 1.
  destruct (_fare_rules_cache w); [done|].
  unfold bind at 1, try_except.
  rewrite (bind_returned _ _ _ _ _ (get_db_manager_eq w)).
  unfold ret at 1. unfold bind, modify, ret.
  by destruct (db_ready_settings w) as [_ ->].
Qed.

Lemma settings_get_available_zones_eq w :
  Settings.get_available_zones w
  = match _zones_cache w with
    | Some zones => (Returned zones, w)
    | None =>
        (Returned (Database.get_available_zones (db_view w)),
         with_settings (db_ready w) (_fare_rules_cache w)
                       (Some (Database.get_available_zones (db_view w))))
    end.
Proof.
  unfold Settings.get_available_zones. unfold bind at 1. unfold get_state at 1.
  destruct (_zones_cache w); [done|].
  unfold bind at 1, try_except.
  rewrite (bind_returned _ _ _ _ _ (get_db_manager_eq w)).
  unfold ret at 1. unfold bind, modify, ret.
  by destruct (db_ready_settings w) as [-> _].
Qed.

Lemma reload_fare_rules_eq w :
  exists w',
    Settings.reload_fare_rules w = (Returned tt, w')
    /\ _fare_rules_cache w' = Some (Database.get_all_fare_rules (db_view w))
    /\ _zones_cache w' = Some (Database.get_available_zones (db_view w))
    /\ _fare_cache w' = _fare_cache w
    /\ redis w' = redis w
    /\ db_view w' = db_view w
    /\ clock w' = clock w.
Proof.
  unfold Settings.reload_fare_rules.
  unfold bind at 1. unfold modify at 1.
  set (w0 := with_settings w None None).
  unfold bind at 1. rewrite settings_get_fare_rules_eq. simpl.
  set (w1 := with_settings (db_ready w0) _ _).
  unfold bind at 1. rewrite settings_get_available_zones_eq. simpl.
  eexists. split; [reflexivity|].
  assert (db_view w0 = db_view w) as Hv0 by done.
  destruct (db_ready_fields w0) as (Hv & Hm & Hd & Hfc & Hr & Hck & _).
  assert (db_view w1 = db_view w) as Hv1.
  { unfold db_view, w1. simpl. rewrite Hm, Hd. done. }
  destruct (db_ready_fields w1) as (Hv' & Hm' & Hd' & Hfc' & Hr' & Hck' & _).
  simpl. rewrite Hv1, Hfc', Hr', Hck'. unfold w1. simpl.
  rewrite Hfc, Hr, Hck. repeat split; try done.
  fold w1. unfold db_view at 1. simpl. by rewrite Hm', Hd', Hv1.
Qed.

(** [reload_fare_rules] re-reads the two caches of [Settings] from the
    store, and that is all it does: the store, the fare cache object
    (memory cache, timestamps, memo table) and the shared cache are as
    they were before. *)
Theorem reload_fare_rules_rereads_settings_only w :
  exists w',
    Settings.reload_fare_rules w = (Returned tt, w')
    /\ _fare_rules_cache w' = Some (Database.get_all_fare_rules (db_view w))
    /\ _zones_cache w' = Some (Database.get_available_zones (db_view w))
    /\ _fare_cache w' = _fare_cache w
    /\ redis w' = redis w
    /\ db_view w' = db_view w.
Proof.
  destruct (reload_fare_rules_eq w) as (w' & ? & ? & ? & ? & ? & ? & _).
  by exists w'.
Qed.

(** [Settings.get_min_zone] and [get_max_zone], asked before the zone
    list of [Settings] is cached, answer the lowest and the highest zone
    of the store, and 1 and 3 for a store without rules. *)
Theorem settings_min_max_zone w :
  _zones_cache w = None ->
  exists lo hi,
    result_of Settings.get_min_zone w = Returned lo
    /\ result_of Settings.get_max_zone w = Returned hi
    /\ (Database.fare_rules (db_view w) = [] -> lo = 1 /\ hi = 3)
    /\ (Database.fare_rules (db_view w) <> [] ->
        Database.is_valid_zone (db_view w) lo = true
        /\ Database.is_valid_zone (db_view w) hi = true
        /\ forall zone, Database.is_valid_zone (db_view w) zone = true ->
                        lo <= zone <= hi).
Proof.
  intros Hnone.
  unfold result_of, Settings.get_min_zone, Settings.get_max_zone, bind.
  rewrite settings_get_available_zones_eq, Hnone. simpl.
  destruct (Database.get_available_zones (db_view w)) as [|z zones] eqn:Hzones.
  - exists 1, 3. split; [reflexivity|]. split; [reflexivity|]. split; [done|].
    intros Hrows. by apply get_available_zones_nil in Hzones.
  - eexists _, _. split; [reflexivity|]. split; [reflexivity|]. split.
    + intros Hrows%get_available_zones_nil. congruence.
    + intros _.
      destruct (min_of_spec z zones) as [Hlo Hle], (max_of_spec z zones) as [Hhi Hge].
      rewrite !is_valid_zone_elem, Hzones. split; [done|]. split; [done|].
      intros zone Hzone%is_valid_zone_elem. rewrite Hzones in Hzone. auto.
Qed.

End SettingsAndApi.

(** ** The API endpoints *)

Section EndpointAnswers.

Implicit Types (w : World) (t : Database.Tables).

Lemma get_fare_after_update t a b f :
  Database.get_fare (Database.update_fare_rule t a b f) a b = Some f.
Proof.
  unfold Database.get_fare, Database.update_fare_rule.
  destruct (Database.first_rule a b (Database.fare_rules t)) as [r|] eqn:Hfirst; simpl.
  - pose proof (first_rule_set_first_fare a b f (Database.fare_rules t)) as Hset.
    rewrite Hfirst in Hset. specialize (Hset (mk_is_Some _ _ eq_refl)).
    destruct (Database.first_rule a b (Database.set_first_fare _ _ _ _)) as [r0|];
      simpl in Hset; [exact Hset|discriminate Hset].
  - by erewrite first_rule_app_new.
Qed.

Lemma zones_of_pairs t :
  Database.get_available_zones t
  = fold_left (fun zones p => Database.zone_add p.2 (Database.zone_add p.1 zones))
              (map Database.zone_pair (Database.fare_rules t)) [].
Proof.
  unfold Database.get_available_zones. generalize (@nil Z).
  induction (Database.fare_rules t) as [|r rows IH]; intros zones; [done|].
  simpl. apply IH.
Qed.

Lemma zone_add_known (z : Z) (zones : list Z) :
  StronglySorted Z.lt zones -> z ∈ zones -> Database.zone_add z zones = zones.
Proof.
  induction zones as [|x zones IH]; intros Hsorted Hin; simpl.
  { by apply elem_of_nil in Hin. }
  apply StronglySorted_inv in Hsorted as [Hrest Hx].
  apply elem_of_cons in Hin as [->|Hin].
  - by rewrite Z.ltb_irrefl, Z.eqb_refl.
  - pose proof (proj1 (Forall_forall _ _) Hx z Hin).
    destruct (Z.ltb_spec z x); [lia|]. destruct (Z.eqb_spec z x); [lia|].
    by rewrite IH.
Qed.

(** A fare set between two zones of the store adds no zone. *)
Lemma update_keeps_zones t a b f :
  Database.is_valid_zone t a = true -> Database.is_valid_zone t b = true ->
  Database.get_available_zones (Database.update_fare_rule t a b f)
  = Database.get_available_zones t.
Proof.
  intros Ha%is_valid_zone_elem Hb%is_valid_zone_elem.
  rewrite (zones_of_pairs (Database.update_fare_rule _ _ _ _)).
  unfold Database.update_fare_rule.
  destruct (Database.first_rule a b _); simpl.
  - by rewrite set_first_fare_pairs, <- zones_of_pairs.
  - rewrite map_app, fold_left_app, <- zones_of_pairs. simpl.
    pose proof (get_available_zones_increasing t) as Hsorted.
    by rewrite (zone_add_known a), (zone_add_known b).
Qed.

Lemma db_update_fare_rule_eq w a b f :
  Endpoints.db_update_fare_rule a b f w
  = (Returned tt,
     with_database (db_ready w) (Database.update_fare_rule (db_view w) a b f) true).
Proof.
  unfold Endpoints.db_update_fare_rule.
  by rewrite (bind_returned _ _ _ _ _ (get_db_manager_eq w)).
Qed.

(** [PUT /api/fare-rules]: a zone below 1 or a fare that is not above 0
    is refused with 422 and nothing happens; an unknown zone is refused
    with 400, the rules stay as they are and the zones of the store are
    read into the zone cache of [Settings] if it was empty; otherwise
    the rule is written and the settings are reloaded, so that the
    store gives the new fare for (from_zone, to_zone), its zones are
    the same and the caches of [Settings] hold the new content, and
    then the call fails with status 500, on reading the row it has
    written. In no case is the fare cache object or the shared cache
    touched. *)
Theorem put_fare_rule_answers w a b f :
  (a < 1 \/ b < 1 \/ PrimFloat.ltb 0%float f = false ->
   Endpoints.update_fare_rule a b f w = (Raised (HTTPException 422), w))
  /\ (1 <= a -> 1 <= b -> PrimFloat.ltb 0%float f = true ->
      if Database.is_valid_zone (db_view w) a && Database.is_valid_zone (db_view w) b
      then
        exists w',
          Endpoints.update_fare_rule a b f w = (Raised (HTTPException 500), w')
          /\ db_view w' = Database.update_fare_rule (db_view w) a b f
          /\ Database.get_fare (db_view w') a b = Some f
          /\ Database.get_available_zones (db_view w')
             = Database.get_available_zones (db_view w)
          /\ _fare_rules_cache w' = Some (Database.get_all_fare_rules (db_view w'))
          /\ _zones_cache w' = Some (Database.get_available_zones (db_view w'))
          /\ _fare_cache w' = _fare_cache w
          /\ redis w' = redis w
      else
        exists w',
          Endpoints.update_fare_rule a b f w = (Raised (HTTPException 400), w')
          /\ db_view w' = db_view w
          /\ _fare_rules_cache w' = _fare_rules_cache w
          /\ _zones_cache w'
             = Some (default (Database.get_available_zones (db_view w)) (_zones_cache w))
          /\ _fare_cache w' = _fare_cache w
          /\ redis w' = redis w).
Proof.
  unfold Endpoints.update_fare_rule. split.
  - intros Hbad.
    assert ((a <? 1) || (b <? 1) || negb (PrimFloat.ltb 0%float f) = true) as ->; [|done].
    destruct Hbad as [?|[?| ->]]; rewrite ?orb_true_r; [| |done].
    + by rewrite (proj2 (Z.ltb_lt a 1)).
    + by rewrite (proj2 (Z.ltb_lt b 1)), orb_true_r.
  - intros Ha Hb Hf.
    rewrite (proj2 (Z.ltb_ge a 1)), (proj2 (Z.ltb_ge b 1)), Hf by lia. simpl.
    rewrite (bind_returned _ _ _ _ _ (is_valid_zone_eq w a)).
    destruct (db_ready_fields w) as (Hv & Hm & Hd & Hfc & Hr & Hck & _).
    destruct (db_ready_settings w) as [Hrules Hzones].
    assert (exists w',
              bind Settings.get_available_zones
                   (fun _ => @raise World unit (HTTPException 400)) (db_ready w)
              = (Raised (HTTPException 400), w')
              /\ db_view w' = db_view w
              /\ _fare_rules_cache w' = _fare_rules_cache w
              /\ _zones_cache w'
                 = Some (default (Database.get_available_zones (db_view w)) (_zones_cache w))
              /\ _fare_cache w' = _fare_cache w
              /\ redis w' = redis w) as Hrefused.
    { unfold bind. rewrite settings_get_available_zones_eq, Hzones, Hv, db_ready_twice.
      destruct (_zones_cache w) as [zones|] eqn:Hcached; eexists; (split; [reflexivity|]);
        simpl; rewrite ?Hzones, ?Hcached; by repeat split. }
    destruct (Database.is_valid_zone (db_view w) a) eqn:Hza; simpl.
    2: { unfold bind at 1, ret at 1. exact Hrefused. }
    rewrite (bind_returned _ _ _ _ _ (is_valid_zone_eq (db_ready w) b)).
    rewrite Hv, db_ready_twice.
    destruct (Database.is_valid_zone (db_view w) b) eqn:Hzb; simpl.
    2: { exact Hrefused. }
    rewrite (bind_returned _ _ _ _ _ (db_update_fare_rule_eq (db_ready w) a b f)).
    rewrite Hv, db_ready_twice.
    set (w1 := with_database _ _ _).
    destruct (reload_fare_rules_eq w1) as (w' & Hrun & Hrules' & Hzones' & Hfc' & Hr' & Hv' & _).
    assert (db_view w1 = Database.update_fare_rule (db_view w) a b f) as Hv1 by done.
    exists w'. split; [by rewrite (bind_returned _ _ _ _ _ Hrun)|]. rewrite Hv', Hv1.
    split; [done|]. split; [apply get_fare_after_update|].
    split; [by apply update_keeps_zones|].
    rewrite Hrules', Hzones', Hv1, Hfc', Hr'. unfold w1. simpl.
    by rewrite Hfc, Hr.
Qed.

Lemma validate_items_eq (payload : list (Z * Z)) :
  forall w,
    exists w',
      Models.validate_items payload w
      = (if forallb (fun p => valid_zone (db_view w) p.1 && valid_zone (db_view w) p.2)
                    payload
         then Returned (map (fun p => journey p.1 p.2) payload)
         else Raised ValueError, w')
      /\ (w' = w \/ w' = db_ready w).
Proof.
  induction payload as [|[a b] rest IH]; intros w; simpl.
  { exists w. split; [done|by left]. }
  destruct (validate_zone_eq w a) as (w1 & H1 & Hw1).
  destruct (validate_zone_eq w1 b) as (w2 & H2 & Hw2).
  pose proof (db_view_after_init _ _ Hw1) as Hv1.
  pose proof (db_view_after_init _ _ Hw2) as Hv2.
  rewrite (bind_returned _ _ _ _ _ H1), (bind_returned _ _ _ _ _ H2).
  destruct (IH w2) as (w3 & H3 & Hw3).
  rewrite Hv2, Hv1 in H3. rewrite Hv1.
  exists w3. split.
  - unfold bind. rewrite H3.
    destruct (forallb _ rest); simpl.
    + unfold ret, raise. by destruct (_ && _).
    + by rewrite andb_false_r.
  - destruct Hw1 as [->| ->], Hw2 as [->| ->], Hw3 as [->| ->];
      rewrite ?db_ready_twice; auto.
Qed.

(** The request model: a body is parsed into a request exactly when it
    is acceptable; parsing at most creates the database manager. *)
Lemma JourneyRequest__init___eq (payload : list (Z * Z)) w :
  exists w',
    Models.JourneyRequest__init__ payload w
    = (if acceptable (db_view w) payload
       then Returned {| Models.request_journeys := map (fun p => journey p.1 p.2) payload |}
       else Raised ValueError, w')
    /\ (w' = w \/ w' = db_ready w).
Proof.
  destruct (validate_items_eq payload w) as (w1 & Hitems & Hw1).
  exists w1. split; [|done].
  unfold acceptable, Models.JourneyRequest__init__, bind. rewrite Hitems.
  destruct (forallb _ payload); [|by rewrite andb_false_r].
  rewrite andb_true_r, length_map.
  destruct (Z.leb_spec 1 (Z.of_nat (length payload))) as [Hlo|Hlo]; simpl.
  2: { by rewrite (proj2 (Z.ltb_lt _ 1)). }
  rewrite (proj2 (Z.ltb_ge _ 1)) by done. simpl.
  destruct (Z.leb_spec (Z.of_nat (length payload)) 20) as [Hhi|Hhi].
  - by rewrite (proj2 (Z.ltb_ge 20 _)).
  - by rewrite (proj2 (Z.ltb_lt 20 _)).
Qed.

(** A body the request model refuses is answered with 422 whatever the
    calculator behind the endpoint is: the calculator is not called. *)
Lemma post_calculate_fares_refused `{FareCalculator} (payload : list (Z * Z)) w :
  acceptable (db_view w) payload = false ->
  exists w',
    Endpoints.post_calculate_fares payload w = (Raised (HTTPException 422), w')
    /\ (w' = w \/ w' = db_ready w).
Proof.
  intros Hbad. destruct (JourneyRequest__init___eq payload w) as (w1 & Hinit & Hw1).
  rewrite Hbad in Hinit. exists w1. split; [|done].
  unfold Endpoints.post_calculate_fares, bind, try_except. by rewrite Hinit.
Qed.

(** A body the request model accepts reaches the calculator, whose
    answer is the answer of the endpoint. *)
Lemma post_calculate_fares_accepted `{FareCalculator} (payload : list (Z * Z)) w :
  acceptable (db_view w) payload = true ->
  exists w1,
    (w1 = w \/ w1 = db_ready w)
    /\ forall r w',
         calculate_all_fares (map (fun p => journey p.1 p.2) payload) w1 = (Returned r, w') ->
         Endpoints.post_calculate_fares payload w = (Returned r, w').
Proof.
  intros Hok. destruct (JourneyRequest__init___eq payload w) as (w1 & Hinit & Hw1).
  rewrite Hok in Hinit. exists w1. split; [done|]. intros r w' Hrun.
  unfold acceptable in Hok.
  apply andb_prop in Hok as [[_ Hhi%Z.leb_le]%andb_prop _].
  unfold Endpoints.post_calculate_fares. unfold bind at 1, try_except at 1.
  rewrite Hinit. unfold Endpoints.calculate_fares, try_except. simpl.
  rewrite length_map. unfold Settings.MAX_JOURNEYS_PER_DAY.
  rewrite (proj2 (Z.ltb_ge 20 _)) by done.
  unfold bind at 1, ret at 1. by rewrite Hrun.
Qed.

(** The endpoint function behind [POST /api/calculate-fares], with the
    request model in front of it, ends in one of two ways. On a body of
    1 to 20 journeys between zones of the store it returns a response
    with the journeys of the body, in order; every other body (empty,
    too long, or with an unknown zone or a zone below 1) is refused by
    the request model with status 422, before any fare is looked up.
    The handlers of the endpoint for the statuses 400 and 500 never
    run. The statement ends where the function returns: how the
    framework renders the returned response is not part of it. *)
Theorem post_calculate_fares_answers w (payload : list (Z * Z)) :
  if acceptable (db_view w) payload
  then
    exists r w',
      Endpoints.post_calculate_fares (H := ZoneBasedFareCalculator) payload w
      = (Returned r, w')
      /\ map Models.journey (Models.journeys r) = map (fun p => journey p.1 p.2) payload
      /\ Models.journey_count r = Z.of_nat (length payload)
  else
    exists w',
      Endpoints.post_calculate_fares (H := ZoneBasedFareCalculator) payload w
      = (Raised (HTTPException 422), w')
      /\ db_view w' = db_view w
      /\ _fare_cache w' = _fare_cache w
      /\ redis w' = redis w.
Proof.
  destruct (acceptable (db_view w) payload) eqn:Hok.
  - destruct (post_calculate_fares_accepted (H := ZoneBasedFareCalculator) payload w Hok)
      as (w1 & Hw1 & Hpost).
    pose proof (db_view_after_init _ _ Hw1) as Hv1.
    unfold acceptable in Hok. apply andb_prop in Hok as [_ Hvalid].
    assert (Forall (fun j => valid_journey (db_view w1) j = true)
                   (map (fun p => journey p.1 p.2) payload)) as Hjs.
    { rewrite Hv1. apply Forall_map, Forall_forall. intros [a b] Hin.
      apply (proj1 (forallb_forall _ _) Hvalid). by apply list_elem_of_In. }
    destruct (calculate_all_fares_returns _ w1 Hjs) as (r & w2 & Hrun & _).
    pose proof (calculate_all_fares_returned _ _ _ _ Hrun) as (Hj & _ & Hcount & _).
    exists r, w2. split; [by apply Hpost|].
    split; [done|]. by rewrite Hcount, length_map.
  - destruct (post_calculate_fares_refused (H := ZoneBasedFareCalculator) payload w Hok)
      as (w1 & Hrun & Hw1).
    exists w1. split; [done|]. split; [by apply db_view_after_init|].
    destruct Hw1 as [->| ->]; [done|].
    by destruct (db_ready_fields w) as (_ & _ & _ & -> & -> & _).
Qed.

End EndpointAnswers.

(** ** Caches that agree with the rule store *)

Arguments Settings.get_fare : simpl never.

Section Coherence.

Implicit Types (w : World) (t : Database.Tables).
Implicit Types (c : Cache.FareRulesCache) (srv : Redis.Server).

(** *** The memo table *)

Lemma lru_find_remove_ne {K V} `{EqDecision K} (k k' : K) (l : Lru.t K V) :
  k' <> k -> Lru.find k' (Lru.remove k l) = Lru.find k' l.
Proof.
  intros Hne. induction l as [|[k0 v0] l IH]; simpl; [done|].
  destruct (decide (k = k0)) as [->|Hk].
  - by destruct (decide (k' = k0)).
  - simpl. destruct (decide (k' = k0)); [done|apply IH].
Qed.

Lemma lru_find_touch {K V} `{EqDecision K} (k k' : K) (v r : V) (l : Lru.t K V) :
  Lru.find k' (Lru.touch k v l) = Some r ->
  (k' = k /\ r = v) \/ Lru.find k' l = Some r.
Proof.
  unfold Lru.touch. simpl. destruct (decide (k' = k)) as [->|Hne].
  - intros [= <-]. by left.
  - rewrite lru_find_remove_ne by done. by right.
Qed.

Lemma lru_find_take {K V} `{EqDecision K} (k : K) (r : V) (n : nat) (l : Lru.t K V) :
  Lru.find k (take n l) = Some r -> Lru.find k l = Some r.
Proof.
  revert n. induction l as [|[k0 v0] l IH]; intros [|n]; simpl; try done.
  destruct (decide (k = k0)); [done|apply IH].
Qed.

Lemma lru_find_add {K V} `{EqDecision K} (n : nat) (k k' : K) (v r : V) (l : Lru.t K V) :
  Lru.find k' (Lru.add n k v l) = Some r ->
  (k' = k /\ r = v) \/ Lru.find k' l = Some r.
Proof.
  unfold Lru.add. intros Hfind%lru_find_take. simpl in Hfind.
  destruct (decide (k' = k)) as [->|Hne]; [|by right].
  left. by simplify_eq.
Qed.

(** *** The rule store *)

Lemma get_fare_swap t a b :
  unordered_pair_unique (Database.fare_rules t) ->
  Database.get_fare t a b = Database.get_fare t b a.
Proof.
  unfold unordered_pair_unique, Database.get_fare. intros Hunique.
  destruct (Database.first_rule a b _) as [r1|] eqn:Hab;
    destruct (Database.first_rule b a _) as [r2|] eqn:Hba; try done.
  apply first_rule_Some in Hab as (Hr1 & Ha1 & Hb1).
  apply first_rule_Some in Hba as (Hr2 & Ha2 & Hb2).
  assert (r1 = r2) as ->; [|done].
  apply (NoDup_fmap_eq _ _ _ _ Hunique Hr1 Hr2).
  rewrite Ha1, Hb1, Ha2, Hb2. apply sorted2_sym.
Qed.

Lemma get_fare_same_key t a b x y :
  unordered_pair_unique (Database.fare_rules t) ->
  _make_key x y = _make_key a b ->
  Database.get_fare t x y = Database.get_fare t a b.
Proof.
  intros Hunique Hkey. apply _make_key_inj in Hkey.
  destruct (sorted2_eq_cases _ _ _ _ Hkey) as [[-> ->]|[-> ->]]; [done|].
  by apply get_fare_swap.
Qed.

Lemma get_fare_is_store_fare t a b v :
  fares_truthy t -> Database.get_fare t a b = Some v -> store_fare t a b = v.
Proof.
  intros Htruthy Hfare. unfold store_fare. rewrite Hfare.
  destruct (get_fare_Some _ _ _ _ Hfare) as (r & Hr & <- & _).
  by rewrite (proj1 (Forall_forall _ _) Htruthy r Hr).
Qed.

(** Every entry of the dict of [get_all_fare_rules] is what [get_fare]
    answers for its key. *)
Lemma get_all_fare_rules_sound t f z v :
  unordered_pair_unique (Database.fare_rules t) ->
  ((f, z), v) ∈ Database.get_all_fare_rules t ->
  Database.get_fare t f z = Some v.
Proof.
  intros Hunique Hin. pose proof (unordered_unique_ordered _ Hunique) as Huc.
  rewrite (get_all_fare_rules_unique _ Huc) in Hin.
  apply list_elem_of_fmap in Hin as (r & Heq & Hr).
  unfold Database.zone_pair in Heq. injection Heq as Hf Hz Hv. subst f z v.
  unfold Database.get_fare.
  destruct (Database.first_rule _ _ _) as [r0|] eqn:Hfirst.
  - apply first_rule_Some in Hfirst as (Hr0 & Ha & Hb). simpl. do 2 f_equal.
    apply (NoDup_fmap_eq Database.zone_pair _ _ _ Huc Hr0 Hr).
    unfold Database.zone_pair. by rewrite Ha, Hb.
  - by destruct (first_rule_None _ _ _ r Hfirst Hr).
Qed.

(** *** The methods of the cache object *)

Lemma store_memory_fares_of t now a b f c :
  unordered_pair_unique (Database.fare_rules t) ->
  Database.get_fare t a b = Some f ->
  cache_fares_of t c ->
  cache_fares_of t (Cache.store_memory now (_make_key a b) f c).
Proof.
  intros Hunique Hfare [Hmem Hmemo]. split; [|done]. simpl. intros x y v.
  destruct (decide (_make_key x y = _make_key a b)) as [Hkey|Hkey].
  - rewrite Hkey, lookup_insert_eq. intros [= <-].
    by rewrite (get_fare_same_key _ _ _ _ _ Hunique Hkey).
  - rewrite lookup_insert_ne by done. apply Hmem.
Qed.

Lemma insert_fares_of t a b f expires srv :
  unordered_pair_unique (Database.fare_rules t) ->
  Database.get_fare t a b = Some f ->
  server_fares_of t srv ->
  server_fares_of t (Redis.with_kv srv (<[_make_key a b := (f, expires)]> (Redis.kv srv))).
Proof.
  intros Hunique Hfare Hsrv x y v e. simpl.
  destruct (decide (_make_key x y = _make_key a b)) as [Hkey|Hkey].
  - rewrite Hkey, lookup_insert_eq. intros [= <- _].
    by rewrite (get_fare_same_key _ _ _ _ _ Hunique Hkey).
  - rewrite lookup_insert_ne by done. apply Hsrv.
Qed.

Lemma memory_hit_Some now key c fare :
  Cache.memory_hit now key c = Some fare -> Cache._memory_cache c !! key = Some fare.
Proof.
  unfold Cache.memory_hit. destruct (Cache._memory_cache c !! key); [|done].
  by destruct (Cache._is_memory_cache_valid _ _ _).
Qed.

(** The body of the lookup only ever answers with a fare of the store,
    and what it writes back is one. *)
Lemma get_fare_cached_body_sound t now a b c srv :
  unordered_pair_unique (Database.fare_rules t) ->
  cache_fares_of t c ->
  (Cache.redis_client c = true -> server_fares_of t srv) ->
  exists r c',
    Cache.get_fare_cached_body now a b (c, srv) = (Returned r, (c', srv))
    /\ cache_fares_of t c'
    /\ Cache.redis_client c' = Cache.redis_client c
    /\ Cache.memo c' = Cache.memo c
    /\ forall v, r = Some v -> Database.get_fare t a b = Some v.
Proof.
  intros Hunique Hc Hsrv.
  unfold Cache.get_fare_cached_body, Redis.get. unfold_monad. cbn.
  destruct (Cache.memory_hit now (_make_key a b) c) as [fare|] eqn:Hhit.
  { exists (Some fare), c. repeat (split; [done|]).
    intros v [= <-]. by apply (proj1 Hc), memory_hit_Some with now. }
  destruct (Cache.redis_client c) eqn:Hclient; simpl.
  2: { exists None, c. by repeat (split; [done|]). }
  destruct (Redis.reachable srv); simpl.
  2: { exists None, c. by repeat (split; [done|]). }
  destruct (Redis.kv srv !! _make_key a b) as [[v e]|] eqn:Hkv.
  2: { exists None, c. by repeat (split; [done|]). }
  destruct (now <=? e); simpl.
  2: { exists None, c. by repeat (split; [done|]). }
  pose proof (Hsrv eq_refl a b v e Hkv) as Hfare.
  exists (Some v), (Cache.store_memory now (_make_key a b) v c).
  split; [done|]. split; [by apply store_memory_fares_of|].
  split; [done|]. split; [done|]. by intros ? [= <-].
Qed.

(** The same for the memoised lookup. *)
Lemma get_fare_cached_sound t now a b c srv :
  unordered_pair_unique (Database.fare_rules t) ->
  cache_fares_of t c ->
  (Cache.redis_client c = true -> server_fares_of t srv) ->
  exists r c',
    Cache.get_fare_cached now a b (c, srv) = (Returned r, (c', srv))
    /\ cache_fares_of t c'
    /\ Cache.redis_client c' = Cache.redis_client c
    /\ forall v, r = Some v -> Database.get_fare t a b = Some v.
Proof.
  intros Hunique Hc Hsrv.
  unfold Cache.get_fare_cached. unfold bind at 1. unfold get_state at 1. simpl.
  destruct (Lru.find (a, b) (Cache.memo c)) as [r|] eqn:Hfind.
  - unfold_monad. eexists _, _. split; [reflexivity|].
    split; [|split; [done|]].
    + split; [apply Hc|]. intros x y v Hx.
      apply (lru_find_touch (a, b) (x, y) r (Some v) (Cache.memo c)) in Hx
        as [[[= -> ->] <-]|Hold]; by apply (proj2 Hc).
    + intros v ->. by apply (proj2 Hc).
  - destruct (get_fare_cached_body_sound t now a b c srv Hunique Hc Hsrv)
      as (r & c' & Hbody & Hc' & Hclient & Hmemo & Hr).
    rewrite (bind_returned _ _ _ _ _ Hbody). unfold_monad.
    eexists _, _. split; [reflexivity|].
    split; [|split; [done|done]].
    split; [apply Hc'|]. intros x y v Hx.
    apply (lru_find_add Cache.maxsize (a, b) (x, y) r (Some v) (Cache.memo c')) in Hx
      as [[[= -> ->] <-]|Hold].
    + by apply Hr.
    + by apply (proj2 Hc').
Qed.

(** Storing a fare of the store keeps the caches in agreement with it. *)
Lemma set_fare_cache_sound t now a b f c srv :
  unordered_pair_unique (Database.fare_rules t) ->
  Database.get_fare t a b = Some f ->
  cache_fares_of t c ->
  (Cache.redis_client c = true -> server_fares_of t srv) ->
  exists c' srv',
    Cache.set_fare_cache now a b f (c, srv) = (Returned tt, (c', srv'))
    /\ cache_fares_of t c'
    /\ Cache.redis_client c' = Cache.redis_client c
    /\ (Cache.redis_client c = true -> server_fares_of t srv').
Proof.
  intros Hunique Hfare Hc Hsrv.
  unfold Cache.set_fare_cache, Redis.setex. unfold_monad. cbn.
  pose proof (store_memory_fares_of t now a b f c Hunique Hfare Hc) as Hc'.
  destruct (Cache.redis_client c) eqn:Hclient; simpl.
  2: { eexists _, _. split; [reflexivity|]. by split. }
  destruct (Redis.reachable srv); simpl.
  - eexists _, _. split; [reflexivity|]. split; [done|]. split; [done|].
    intros _. apply insert_fares_of; auto.
  - eexists _, _. split; [reflexivity|]. split; [done|]. by split.
Qed.

(** The warm-up: loading fares of the store. *)
Lemma loaded_fares_of t now (rules : list ((Z * Z) * float)) c :
  unordered_pair_unique (Database.fare_rules t) ->
  Forall (fun r => Database.get_fare t r.1.1 r.1.2 = Some r.2) rules ->
  cache_fares_of t c ->
  cache_fares_of t (loaded now rules c).
Proof.
  intros Hunique Hrules. revert c. unfold loaded.
  induction Hrules as [|[[f z] v] rules Hr _ IH]; intros c Hc; simpl; [done|].
  apply IH. by apply store_memory_fares_of.
Qed.

Lemma pipeline_fares_of t now ttl (rules : list ((Z * Z) * float))
    (m : gmap string (float * Z)) :
  unordered_pair_unique (Database.fare_rules t) ->
  Forall (fun r => Database.get_fare t r.1.1 r.1.2 = Some r.2) rules ->
  (forall a b v e, m !! _make_key a b = Some (v, e) -> Database.get_fare t a b = Some v) ->
  forall a b v e,
    fold_left (fun m '(key, ttl, v) => <[key := (v, now + ttl)]> m)
      (map (fun '((from_zone, to_zone), fare) =>
              (_make_key from_zone to_zone, ttl, fare)) rules) m
    !! _make_key a b = Some (v, e) ->
    Database.get_fare t a b = Some v.
Proof.
  intros Hunique Hrules. revert m.
  induction Hrules as [|[[f z] v] rules Hr _ IH]; intros m Hm; simpl; [done|].
  apply IH. intros x y v' e'.
  destruct (decide (_make_key x y = _make_key f z)) as [Hkey|Hkey].
  - rewrite Hkey, lookup_insert_eq. intros [= <- _].
    by rewrite (get_fare_same_key _ _ _ _ _ Hunique Hkey).
  - rewrite lookup_insert_ne by done. apply Hm.
Qed.

Lemma bulk_load_fares_sound t now (rules : list ((Z * Z) * float)) c srv :
  unordered_pair_unique (Database.fare_rules t) ->
  Forall (fun r => Database.get_fare t r.1.1 r.1.2 = Some r.2) rules ->
  cache_fares_of t c ->
  server_fares_of t srv ->
  exists srv',
    Cache.bulk_load_fares now rules (c, srv) = (Returned tt, (loaded now rules c, srv'))
    /\ server_fares_of t srv'.
Proof.
  intros Hunique Hrules Hc Hsrv.
  unfold Cache.bulk_load_fares. unfold bind at 1. unfold get_state at 1.
  rewrite (bind_returned _ _ _ _ _ (for_each_store_memory now rules c srv)).
  fold (loaded now rules c). simpl.
  destruct (Cache.redis_client c); [|by eexists].
  unfold Redis.execute. unfold_monad. simpl.
  destruct (Redis.reachable srv); simpl; [|by eexists].
  eexists. split; [reflexivity|].
  intros x y v e. simpl. by apply pipeline_fares_of.
Qed.

End Coherence.

(** ** Resolving fares in a process whose rules do not change *)

Section Transparency.

Implicit Types (w : World) (c : Cache.FareRulesCache) (srv : Redis.Server).

Lemma coherent_cases w c :
  _fare_cache w = Some c -> coherent w ->
  cache_fares_of (db_view w) c
  /\ (Cache.redis_client c = true -> server_fares_of (db_view w) (redis w)).
Proof. unfold coherent. by intros ->. Qed.

Lemma coherent_with_cache w srv c :
  cache_fares_of (db_view w) c ->
  (Cache.redis_client c = true -> server_fares_of (db_view w) srv) ->
  coherent (with_fare_cache (with_redis w srv) (Some c)).
Proof. intros Hc Hsrv. unfold coherent. simpl. split; [exact Hc|exact Hsrv]. Qed.

Lemma coherent_db_ready w : coherent w -> coherent (db_ready w).
Proof.
  destruct (db_ready_fields w) as (Hv & _ & _ & Hfc & Hr & _).
  unfold coherent. by rewrite Hfc, Hv, Hr.
Qed.

(** A process that has just started next to a server without keys. *)
Lemma coherent_boot now installed srv t :
  Redis.kv srv = ∅ -> coherent (boot now installed srv t).
Proof.
  intros Hempty. unfold coherent. simpl. intros a b v e.
  by rewrite Hempty, lookup_empty.
Qed.

(** The first access builds a cache that agrees with the store. *)
Lemma get_fare_cache_coherent w :
  unordered_pair_unique (Database.fare_rules (db_view w)) ->
  coherent w ->
  exists c w1,
    get_fare_cache w = (Returned tt, w1)
    /\ _fare_cache w1 = Some c
    /\ db_view w1 = db_view w
    /\ coherent w1.
Proof.
  intros Hunique Hcoh.
  unfold get_fare_cache. unfold bind at 1. unfold get_state at 1.
  destruct (_fare_cache w) as [c0|] eqn:Hc.
  { exists c0, w. unfold ret. by rewrite Hc. }
  unfold coherent in Hcoh. rewrite Hc in Hcoh.
  unfold bind at 1, put_state at 1, try_except.
  set (c0 := Cache.__init__ _ _ _ _).
  set (w1 := with_fare_cache w (Some c0)).
  unfold bind at 1. rewrite get_db_manager_eq.
  destruct (db_ready_fields w1) as (Hv & Hm & Hd & Hfc & Hr & Hck & _).
  assert (db_view w1 = db_view w) as Hv1 by done.
  assert (cache_fares_of (db_view w) c0) as Hc0.
  { split; simpl; intros a b v; [by rewrite lookup_empty|done]. }
  assert (Forall (fun r => Database.get_fare (db_view w) r.1.1 r.1.2 = Some r.2)
                 (Database.get_all_fare_rules (db_view w1))) as Hrules.
  { rewrite Hv1. apply Forall_forall. intros [[f z] v] Hin.
    by apply get_all_fare_rules_sound. }
  destruct (bulk_load_fares_sound (db_view w) (clock w) _ c0 (redis w)
              Hunique Hrules Hc0 Hcoh) as (srv' & Hbulk & Hsrv').
  rewrite (on_fare_cache_eq _ _ c0 (Returned tt)
             (loaded (clock w) (Database.get_all_fare_rules (db_view w1)) c0) srv').
  2: { by rewrite Hfc. }
  2: { by rewrite Hck, Hr. }
  eexists _, _. split; [reflexivity|]. simpl. split; [reflexivity|].
  assert (db_view (db_ready w1) = db_view w) as Hv2 by (by rewrite Hv).
  split. { by rewrite db_view_with_cache. }
  apply coherent_with_cache; rewrite Hv2; [|done].
  by apply loaded_fares_of.
Qed.

(** In a world whose caches agree with its store, the facade answers
    with the fare of the store, and the caches still agree with the
    store afterwards. *)
Lemma get_fare_with_cache_coherent w a b :
  unordered_pair_unique (Database.fare_rules (db_view w)) ->
  fares_truthy (db_view w) ->
  coherent w ->
  exists w',
    get_fare_with_cache a b w = (Returned (store_fare (db_view w) a b), w')
    /\ db_view w' = db_view w
    /\ coherent w'.
Proof.
  intros Hunique Htruthy Hcoh.
  destruct (get_fare_cache_coherent w Hunique Hcoh) as (c & w1 & Hgfc & Hc & Hv & Hcoh1).
  destruct (coherent_cases _ _ Hc Hcoh1) as [Hcache Hsrv]. rewrite Hv in Hcache, Hsrv.
  destruct (get_fare_cached_sound (db_view w) (clock w1) a b c (redis w1)
              Hunique Hcache Hsrv) as (r & c' & Hget & Hc' & Hclient & Hr).
  unfold get_fare_with_cache.
  rewrite (bind_returned _ _ _ _ _ Hgfc).
  rewrite (bind_returned _ _ _ _ _ (on_fare_cache_eq _ _ _ _ _ _ Hc Hget)).
  set (w2 := with_fare_cache _ _).
  assert (db_view w2 = db_view w) as Hv2 by (by rewrite <- Hv).
  assert (coherent w2) as Hcoh2.
  { apply coherent_with_cache; rewrite Hv; [done|]. by rewrite Hclient. }
  destruct r as [fare|].
  { exists w2. unfold ret.
    by rewrite (get_fare_is_store_fare _ _ _ fare Htruthy (Hr _ eq_refl)). }
  rewrite (bind_returned _ _ _ _ _ (get_db_manager_eq w2)).
  rewrite Hv2.
  destruct (db_ready_fields w2) as (Hrv & _ & _ & Hfc & Hrd & Hck2 & _).
  pose proof (coherent_db_ready _ Hcoh2) as Hcoh3.
  destruct (Database.get_fare (db_view w) a b) as [fare|] eqn:Hfare.
  2: { exists (db_ready w2). unfold store_fare, ret. rewrite Hfare.
       split; [done|]. split; [by rewrite Hrv|done]. }
  assert (_fare_cache (db_ready w2) = Some c') as Hc2 by (by rewrite Hfc).
  destruct (coherent_cases _ _ Hc2 Hcoh3) as [_ Hsrv3]. rewrite Hrv, Hv2 in Hsrv3.
  destruct (set_fare_cache_sound (db_view w) (clock (db_ready w2)) a b fare c'
              (redis (db_ready w2)) Hunique Hfare Hc' Hsrv3)
    as (c2 & srv2 & Hset & Hcache2 & Hclient2 & Hsrv2).
  rewrite (bind_returned _ _ _ _ _ (on_fare_cache_eq _ _ _ _ _ _ Hc2 Hset)).
  eexists. split.
  { unfold ret, store_fare. by rewrite Hfare. }
  split. { by rewrite db_view_with_cache, Hrv. }
  apply coherent_with_cache; rewrite Hrv, Hv2; [done|]. by rewrite Hclient2.
Qed.

Lemma handle_read_only w ev :
  read_only ev = true ->
  unordered_pair_unique (Database.fare_rules (db_view w)) ->
  fares_truthy (db_view w) ->
  coherent w ->
  db_view (handle ev w) = db_view w /\ coherent (handle ev w).
Proof.
  destruct ev as [a b|a b f|d|up]; simpl; intros Hro Hunique Htruthy Hcoh; [|done| |].
  - unfold Settings.get_fare.
    destruct (get_fare_with_cache_coherent w a b Hunique Htruthy Hcoh)
      as (w' & Hrun & Hv & Hc).
    by rewrite Hrun.
  - split; [done|exact Hcoh].
  - split; [done|exact Hcoh].
Qed.

Lemma run_read_only evs :
  forall w,
    forallb read_only evs = true ->
    unordered_pair_unique (Database.fare_rules (db_view w)) ->
    fares_truthy (db_view w) ->
    coherent w ->
    db_view (run evs w) = db_view w /\ coherent (run evs w).
Proof.
  unfold run.
  induction evs as [|ev evs IH]; intros w Hro Hunique Htruthy Hcoh; simpl; [done|].
  simpl in Hro. apply andb_prop in Hro as [Hev Hevs].
  destruct (handle_read_only w ev Hev Hunique Htruthy Hcoh) as [Hv Hc].
  destruct (IH (handle ev w) Hevs) as [Hv' Hc']; rewrite ?Hv; auto.
  split; [by rewrite Hv', Hv|done].
Qed.

(** After [invalidate_cache()] the caches hold nothing: the memory cache
    and the memo table are empty, and a connected client that reaches
    its server has removed every fare key. *)
Lemma invalidate_all_coherent w c from_zone to_zone :
  _fare_cache w = Some c ->
  Cache.truthy_zone from_zone && Cache.truthy_zone to_zone = false ->
  Cache.redis_client c = false \/ Redis.reachable (redis w) = true ->
  exists w',
    on_fare_cache (fun _ => Cache.invalidate_cache from_zone to_zone) w = (Returned tt, w')
    /\ db_view w' = db_view w
    /\ coherent w'.
Proof.
  intros Hc Hfalsy Hserver.
  assert (Cache.invalidate_cache from_zone to_zone (c, redis w)
          = Cache.invalidate_all (c, redis w)) as Hall.
  { unfold Cache.invalidate_cache. by rewrite Hfalsy. }
  rewrite invalidate_all_eq in Hall.
  rewrite (on_fare_cache_eq _ _ _ _ _ _ Hc Hall).
  eexists. split; [reflexivity|]. split; [done|].
  apply coherent_with_cache.
  - split; simpl; intros a b v; [by rewrite lookup_empty|done].
  - simpl. intros Hclient. rewrite Hclient.
    destruct Hserver as [Hnone|Hup]; [congruence|]. rewrite Hup. simpl.
    intros a b v e. simpl. intros Hkv.
    apply map_lookup_filter_Some in Hkv as [_ Hprefix].
    simpl in Hprefix. by rewrite _make_key_prefix in Hprefix.
Qed.

(** The fare cache is transparent as long as the rules stay as they
    are: in a process whose caches agree with its rule store (a process
    that has just started next to a server without keys is one), after
    any sequence of fare lookups, pauses and losses or returns of the
    shared cache server, [Settings.get_fare] returns the fare of the
    rule store for every pair of zones, 0.0 for a pair without a rule.
    The table holds one rule per unordered pair, every fare is
    non-zero, and no other process writes to the server. *)
Theorem get_fare_is_store_fare_without_updates w evs a b :
  unordered_pair_unique (Database.fare_rules (db_view w)) ->
  fares_truthy (db_view w) ->
  coherent w ->
  forallb read_only evs = true ->
  result_of (Settings.get_fare a b) (run evs w) = Returned (store_fare (db_view w) a b)
  /\ db_view (run evs w) = db_view w
  /\ coherent (snd (Settings.get_fare a b (run evs w))).
Proof.
  intros Hunique Htruthy Hcoh Hro.
  destruct (run_read_only evs w Hro Hunique Htruthy Hcoh) as [Hv Hc].
  rewrite <- Hv in Hunique, Htruthy.
  destruct (get_fare_with_cache_coherent (run evs w) a b Hunique Htruthy Hc)
    as (w' & Hrun & Hv' & Hc').
  unfold result_of, Settings.get_fare. rewrite Hrun, Hv. by simpl.
Qed.

(** [invalidate_cache()] is what brings a process back to the rules of
    the store: whatever its cache object held before (stale fares
    included), after the call with a missing or zero zone, made without
    a client or with the server in reach, every later lookup of a
    sequence without rule updates returns the fare of the rule store. *)
Theorem invalidate_cache_restores_store_fares w c from_zone to_zone evs a b :
  _fare_cache w = Some c ->
  Cache.truthy_zone from_zone && Cache.truthy_zone to_zone = false ->
  Cache.redis_client c = false \/ Redis.reachable (redis w) = true ->
  unordered_pair_unique (Database.fare_rules (db_view w)) ->
  fares_truthy (db_view w) ->
  forallb read_only evs = true ->
  exists w',
    on_fare_cache (fun _ => Cache.invalidate_cache from_zone to_zone) w = (Returned tt, w')
    /\ db_view w' = db_view w
    /\ result_of (Settings.get_fare a b) (run evs w')
       = Returned (store_fare (db_view w) a b).
Proof.
  intros Hc Hfalsy Hserver Hunique Htruthy Hro.
  destruct (invalidate_all_coherent w c from_zone to_zone Hc Hfalsy Hserver)
    as (w' & Hrun & Hv & Hcoh).
  exists w'. split; [done|]. split; [done|].
  rewrite <- Hv in Hunique, Htruthy.
  destruct (run_read_only evs w' Hro Hunique Htruthy Hcoh) as [Hv1 Hc1].
  rewrite <- Hv1 in Hunique, Htruthy.
  destruct (get_fare_with_cache_coherent (run evs w') a b Hunique Htruthy Hc1)
    as (w2 & Hrun2 & _).
  unfold result_of, Settings.get_fare. by rewrite Hrun2, Hv1, Hv.
Qed.

End Transparency.

(** ** The fares of a batch *)

Section BatchValues.

Implicit Types (w : World) (journeys : list Models.Journey).

Lemma coherent_after_init w w' :
  w' = w \/ w' = db_ready w -> coherent w -> coherent w'.
Proof. intros [->| ->]; [done|apply coherent_db_ready]. Qed.

(** The loop of the zone-based calculator in a world whose caches agree
    with its store: the fare of every item is the fare of the store. *)
Lemma fare_loop_store_fares journeys :
  forall idx acc total w,
    unordered_pair_unique (Database.fare_rules (db_view w)) ->
    fares_truthy (db_view w) ->
    coherent w ->
    Forall (fun j => valid_journey (db_view w) j = true) journeys ->
    exists items total' w',
      fare_loop (H := ZoneBasedFareCalculator) idx journeys acc total w
      = (Returned (acc ++ items, total'), w')
      /\ map Models.fare items
         = map (fun j => store_fare (db_view w) (Models.from_zone j) (Models.to_zone j))
               journeys
      /\ db_view w' = db_view w
      /\ coherent w'.
Proof.
  induction journeys as [|j rest IH]; intros idx acc total w Hunique Htruthy Hcoh Hvalid.
  { exists [], total, w. by rewrite app_nil_r. }
  inversion Hvalid as [|? ? Hj Hrest]; subst.
  simpl. unfold Settings.get_fare.
  destruct (get_fare_with_cache_coherent w (Models.from_zone j) (Models.to_zone j)
              Hunique Htruthy Hcoh) as (w1 & Hfare & Hv1 & Hcoh1).
  rewrite (bind_returned _ _ _ _ _ Hfare).
  set (f := store_fare _ _ _).
  destruct (JourneyWithFare__init___eq w1 (Models.from_zone j) (Models.to_zone j) f idx)
    as (w2 & Hinit & Hw2).
  unfold bind at 1. rewrite Hinit.
  unfold valid_journey in Hj. rewrite Hv1, Hj.
  assert (db_view w2 = db_view w) as Hv2.
  { by rewrite (db_view_after_init _ _ Hw2). }
  pose proof (coherent_after_init _ _ Hw2 Hcoh1) as Hcoh2.
  set (it := {| Models.journey := _; Models.fare := f; Models.journey_id := Some idx |}).
  destruct (IH (idx + 1) (acc ++ [it]) (total + f)%float w2)
    as (items & total' & w' & Hloop & Hfares & Hv' & Hcoh'); rewrite ?Hv2; auto.
  exists (it :: items), total', w'. split.
  { rewrite Hloop. by rewrite <- app_assoc. }
  split. { simpl. by rewrite Hfares, Hv2. }
  split; [by rewrite Hv', Hv2|done].
Qed.

(** [calculate_all_fares] of the zone-based calculator in a world whose
    caches agree with its store. *)
Lemma calculate_all_fares_store_fares journeys w :
  unordered_pair_unique (Database.fare_rules (db_view w)) ->
  fares_truthy (db_view w) ->
  coherent w ->
  Forall (fun j => valid_journey (db_view w) j = true) journeys ->
  exists r w',
    calculate_all_fares (H := ZoneBasedFareCalculator) journeys w = (Returned r, w')
    /\ map Models.journey (Models.journeys r) = journeys
    /\ map Models.fare (Models.journeys r)
       = map (fun j => store_fare (db_view w) (Models.from_zone j) (Models.to_zone j))
             journeys
    /\ map Models.journey_id (Models.journeys r)
       = map Some (seqZ 1 (Z.of_nat (length journeys)))
    /\ Models.total_daily_fare r
       = Float.round2 (Float.sum (map Models.fare (Models.journeys r)))
    /\ Models.journey_count r = Z.of_nat (length journeys)
    /\ db_view w' = db_view w
    /\ coherent w'.
Proof.
  intros Hunique Htruthy Hcoh Hjs.
  destruct (fare_loop_store_fares journeys 1 [] 0%float w Hunique Htruthy Hcoh Hjs)
    as (items & total & w2 & Hloop & Hfares & Hv2 & Hcoh2).
  assert (calculate_all_fares (H := ZoneBasedFareCalculator) journeys w
          = (Returned {| Models.journeys := items;
                         Models.total_daily_fare := Float.round2 total;
                         Models.journey_count := Z.of_nat (length journeys) |}, w2)) as Hrun.
  { unfold calculate_all_fares. by rewrite (bind_returned _ _ _ _ _ Hloop). }
  destruct (calculate_all_fares_returned _ _ _ _ Hrun) as (Hj & Hid & Hcount & Htotal).
  eexists _, w2. split; [exact Hrun|]. by repeat split.
Qed.

(** The pairs of a body as journeys, and the fares of the store for
    them. *)
Lemma payload_journeys (t : Database.Tables) (payload : list (Z * Z)) :
  forallb (fun p => valid_zone t p.1 && valid_zone t p.2) payload = true ->
  Forall (fun j => valid_journey t j = true) (map (fun p => journey p.1 p.2) payload)
  /\ map (fun j => store_fare t (Models.from_zone j) (Models.to_zone j))
         (map (fun p => journey p.1 p.2) payload)
     = map (fun p => store_fare t p.1 p.2) payload.
Proof.
  intros Hvalid. split; [|by rewrite map_map].
  apply Forall_map, Forall_forall. intros [a b] Hin.
  apply (proj1 (forallb_forall _ _) Hvalid). by apply list_elem_of_In.
Qed.


End BatchValues.

(** ** The size limit of a batch *)

Section BatchLimit.

Implicit Types (w : World).

(** C9. A batch of exactly [MAX_JOURNEYS_PER_DAY] journeys between zones
    of the store is accepted and worked off: the answer has one item
    per journey, in the order of the batch and numbered 1 to 20, its
    count is 20 and its total is the sum of the fares of the items,
    rounded once; in a process whose caches agree with its rule store,
    a fresh process for one, the fare of every item is the fare of the
    store for its pair of zones. A longer batch, one over the maximum
    included, is refused with status 422 by the request model, whatever
    the calculator behind the endpoint is: the calculator is not
    called, no fare is looked up, and the refusal leaves the world as
    it was, or as it was with the database manager created, which the
    validation of the zones of the items may have done. *)
Theorem batch_limit_boundary (payload : list (Z * Z)) w :
  (Z.of_nat (length payload) = Settings.MAX_JOURNEYS_PER_DAY ->
   Forall (fun p => valid_zone (db_view w) p.1 && valid_zone (db_view w) p.2 = true)
          payload ->
   exists r w',
     Endpoints.post_calculate_fares (H := ZoneBasedFareCalculator) payload w
     = (Returned r, w')
     /\ map Models.journey (Models.journeys r) = map (fun p => journey p.1 p.2) payload
     /\ map Models.journey_id (Models.journeys r)
        = map Some (seqZ 1 Settings.MAX_JOURNEYS_PER_DAY)
     /\ Models.journey_count r = Settings.MAX_JOURNEYS_PER_DAY
     /\ Models.total_daily_fare r
        = Float.round2 (Float.sum (map Models.fare (Models.journeys r)))
     /\ (unordered_pair_unique (Database.fare_rules (db_view w)) ->
         fares_truthy (db_view w) ->
         coherent w ->
         map Models.fare (Models.journeys r)
         = map (fun p => store_fare (db_view w) p.1 p.2) payload))
  /\ (Settings.MAX_JOURNEYS_PER_DAY < Z.of_nat (length payload) ->
      forall C : FareCalculator,
        exists w',
          Endpoints.post_calculate_fares (H := C) payload w
          = (Raised (HTTPException 422), w')
          /\ (w' = w \/ w' = db_ready w)).
Proof.
  unfold Settings.MAX_JOURNEYS_PER_DAY. split.
  - intros Hlen Hvalid.
    assert (forallb (fun p => valid_zone (db_view w) p.1 && valid_zone (db_view w) p.2)
                    payload = true) as Hall.
    { apply forallb_forall. intros p Hin.
      apply (proj1 (Forall_forall _ _) Hvalid). by apply list_elem_of_In. }
    assert (acceptable (db_view w) payload = true) as Hok.
    { unfold acceptable. by rewrite Hlen, Hall. }
    destruct (post_calculate_fares_accepted (H := ZoneBasedFareCalculator) payload w Hok)
      as (w1 & Hw1 & Hpost).
    pose proof (db_view_after_init _ _ Hw1) as Hv1.
    destruct (payload_journeys (db_view w) payload Hall) as [Hjs Hstore].
    rewrite <- Hv1 in Hjs.
    destruct (calculate_all_fares_returns _ w1 Hjs) as (r & w2 & Hrun & _).
    destruct (calculate_all_fares_returned _ _ _ _ Hrun) as (Hj & Hid & Hcount & Htotal).
    rewrite length_map, Hlen in Hid, Hcount.
    exists r, w2. split; [by apply Hpost|]. do 4 (split; [done|]).
    intros Hunique Htruthy Hcoh.
    pose proof (coherent_after_init _ _ Hw1 Hcoh) as Hcoh1.
    rewrite <- Hv1 in Hunique, Htruthy.
    destruct (calculate_all_fares_store_fares _ w1 Hunique Htruthy Hcoh1 Hjs)
      as (r' & w2' & Hrun' & _ & Hfares & _).
    rewrite Hrun in Hrun'. injection Hrun' as <- _.
    by rewrite Hfares, Hv1, Hstore.
  - intros Hlen C. apply post_calculate_fares_refused.
    unfold acceptable. rewrite (proj2 (Z.leb_gt _ 20)) by done.
    by rewrite andb_false_r.
Qed.

End BatchLimit.

(** ** Storing, sharing and invalidating a fare *)

Section RoundTrips.

Implicit Types (w : World) (c : Cache.FareRulesCache) (srv : Redis.Server).

Lemma _make_key_same_pair (a b x y : Z) :
  sorted2 x y = sorted2 a b -> _make_key x y = _make_key a b.
Proof. unfold _make_key. by intros ->. Qed.





(** After [invalidate_cache], made without a client or with the server
    in reach, no cache level holds anything for the invalidated pair, or
    for any pair when a zone was missing or zero. *)
Lemma invalidate_cache_forgets w c from_zone to_zone x y :
  Cache.redis_client c = false \/ Redis.reachable (redis w) = true ->
  (forall a b, from_zone = Some a -> to_zone = Some b -> a <> 0 -> b <> 0 ->
               sorted2 x y = sorted2 a b) ->
  exists c' srv',
    Cache.invalidate_cache from_zone to_zone (c, redis w) = (Returned tt, (c', srv'))
    /\ Cache.memo c' = []
    /\ Cache._memory_cache c' !! _make_key x y = None
    /\ (Redis.kv srv' !! _make_key x y = None \/ Cache.redis_client c' = false).
Proof.
  intros Hserver Hpair.
  assert ((exists a b, from_zone = Some a /\ to_zone = Some b /\ a <> 0 /\ b <> 0
                       /\ Cache.invalidate_cache from_zone to_zone
                          = Cache.invalidate_entry (_make_key a b))
          \/ Cache.invalidate_cache from_zone to_zone = Cache.invalidate_all)
    as [(a & b & Hfrom & Hto & Ha & Hb & ->)| ->].
  { unfold Cache.invalidate_cache.
    destruct from_zone as [a|], to_zone as [b|]; simpl; rewrite ?andb_false_r; auto.
    destruct (Z.eqb_spec a 0), (Z.eqb_spec b 0); simpl; auto.
    left. by exists a, b. }
  - rewrite <- (_make_key_same_pair a b x y (Hpair a b Hfrom Hto Ha Hb)).
    rewrite invalidate_entry_eq. eexists _, _. split; [reflexivity|]. simpl.
    split; [done|]. split; [apply lookup_delete_eq|].
    destruct Hserver as [->| ->]; [by right|].
    destruct (Cache.redis_client c); [|by right].
    left. simpl. apply lookup_delete_eq.
  - rewrite invalidate_all_eq. eexists _, _. split; [reflexivity|]. simpl.
    split; [done|]. split; [apply lookup_empty|].
    destruct Hserver as [->| ->]; [by right|].
    destruct (Cache.redis_client c); [|by right].
    left. simpl. apply map_lookup_filter_None. right. intros v _. simpl.
    by rewrite _make_key_prefix.
Qed.

(** A process whose cache object holds nothing for a pair reads the
    fare of the pair from the rule store. *)
Lemma get_fare_reads_store w c x y :
  _fare_cache w = Some c ->
  Cache.memo c = [] ->
  Cache._memory_cache c !! _make_key x y = None ->
  Redis.kv (redis w) !! _make_key x y = None \/ Cache.redis_client c = false ->
  result_of (Settings.get_fare x y) w = Returned (store_fare (db_view w) x y).
Proof.
  intros Hc Hmemo Hmem Hkv.
  destruct (get_fare_cache_spec w) as (c1 & w1 & Hgfc & Hc1 & Hv & _ & _ & Hsame).
  rewrite Hc in Hsame. subst w1.
  destruct (get_fare_cached_miss (clock w) x y c (redis w)) as (st' & Hget).
  - intros fare. by rewrite Hmemo.
  - by apply memory_hit_None.
  - destruct Hkv as [Hkv|Hnone]; [by left|by right; right].
  - destruct (get_fare_with_cache_on_miss w x y c w st' Hgfc Hc Hv Hget) as (w2 & Hrun).
    unfold result_of, Settings.get_fare. by rewrite Hrun.
Qed.

(** The lookup right after an invalidation goes to the rule store:
    after [invalidate_cache(from_zone, to_zone)], made without a client
    or with the server in reach, [Settings.get_fare] returns the fare
    of the store for the invalidated pair (in either order), and for
    every pair when a zone was missing or zero; whatever the cache
    levels held before. *)
Theorem invalidated_pair_is_read_from_store w c from_zone to_zone x y :
  _fare_cache w = Some c ->
  Cache.redis_client c = false \/ Redis.reachable (redis w) = true ->
  (forall a b, from_zone = Some a -> to_zone = Some b -> a <> 0 -> b <> 0 ->
               sorted2 x y = sorted2 a b) ->
  exists w',
    on_fare_cache (fun _ => Cache.invalidate_cache from_zone to_zone) w = (Returned tt, w')
    /\ db_view w' = db_view w
    /\ result_of (Settings.get_fare x y) w' = Returned (store_fare (db_view w) x y).
Proof.
  intros Hc Hserver Hpair.
  destruct (invalidate_cache_forgets w c from_zone to_zone x y Hserver Hpair)
    as (c' & srv' & Hinv & Hmemo & Hmem & Hkv).
  rewrite (on_fare_cache_eq _ _ _ _ _ _ Hc Hinv).
  set (w' := with_fare_cache _ _).
  exists w'. split; [done|]. split; [done|].
  by apply (get_fare_reads_store w' c').
Qed.

(** A fare above 0 is a true value: [fare or 0.0] is [fare]. *)
Lemma positive_is_truthy (f : float) :
  PrimFloat.ltb 0%float f = true -> Float.truthy f = true.
Proof.
  unfold Float.truthy. rewrite FloatAxioms.ltb_spec, FloatAxioms.eqb_spec.
  change (Prim2SF 0%float) with (S754_zero false).
  destruct (Prim2SF f) as [s|s| |s m e]; try done; by destruct s.
Qed.

(** What [PUT /api/fare-rules] leaves behind when it has written the
    rule: it answers 500 then, and the store holds the new rule. *)
Lemma put_fare_rule_written w a b f :
  1 <= a -> 1 <= b -> PrimFloat.ltb 0%float f = true ->
  Database.is_valid_zone (db_view w) a = true ->
  Database.is_valid_zone (db_view w) b = true ->
  exists w',
    Endpoints.update_fare_rule a b f w = (Raised (HTTPException 500), w')
    /\ db_view w' = Database.update_fare_rule (db_view w) a b f
    /\ _fare_cache w' = _fare_cache w
    /\ redis w' = redis w.
Proof.
  intros Ha Hb Hf Hza Hzb. unfold Endpoints.update_fare_rule.
  rewrite (proj2 (Z.ltb_ge a 1)), (proj2 (Z.ltb_ge b 1)), Hf by lia. simpl.
  rewrite (bind_returned _ _ _ _ _ (is_valid_zone_eq w a)).
  destruct (db_ready_fields w) as (Hv & Hm & Hd & Hfc & Hr & Hck & _).
  rewrite Hza. simpl.
  rewrite (bind_returned _ _ _ _ _ (is_valid_zone_eq (db_ready w) b)).
  rewrite Hv, db_ready_twice, Hzb. simpl.
  rewrite (bind_returned _ _ _ _ _ (db_update_fare_rule_eq (db_ready w) a b f)).
  rewrite Hv, db_ready_twice.
  set (w1 := with_database _ _ _).
  destruct (reload_fare_rules_eq w1) as (w' & Hrun & _ & _ & Hfc' & Hr' & Hv' & _).
  exists w'. split; [by rewrite (bind_returned _ _ _ _ _ Hrun)|].
  split; [by rewrite Hv'|].
  rewrite Hfc', Hr'. unfold w1. simpl. by rewrite Hfc, Hr.
Qed.

(** The call that [PUT /api/fare-rules] leaves out. The endpoint
    writes the new fare of (a, b) and then answers 500; when
    [invalidate_cache(a, b)] is called on the cache singleton after it,
    without a client or with the server in reach, the next
    [Settings.get_fare(a, b)] returns the new fare, whatever the cache
    levels held before the update. *)
Theorem update_then_invalidate_serves_new_fare w c a b f :
  _fare_cache w = Some c ->
  Cache.redis_client c = false \/ Redis.reachable (redis w) = true ->
  1 <= a -> 1 <= b -> PrimFloat.ltb 0%float f = true ->
  Database.is_valid_zone (db_view w) a = true ->
  Database.is_valid_zone (db_view w) b = true ->
  exists w1 w2,
    Endpoints.update_fare_rule a b f w = (Raised (HTTPException 500), w1)
    /\ Database.get_fare (db_view w1) a b = Some f
    /\ on_fare_cache (fun _ => Cache.invalidate_cache (Some a) (Some b)) w1
       = (Returned tt, w2)
    /\ result_of (Settings.get_fare a b) w2 = Returned f.
Proof.
  intros Hc Hserver Ha Hb Hf Hza Hzb.
  destruct (put_fare_rule_written w a b f Ha Hb Hf Hza Hzb)
    as (w1 & Hput & Hv1 & Hfc1 & Hr1).
  rewrite Hc in Hfc1. rewrite <- Hr1 in Hserver.
  destruct (invalidate_cache_forgets w1 c (Some a) (Some b) a b Hserver)
    as (c' & srv' & Hinv & Hmemo & Hmem & Hkv).
  { by intros ? ? [= <-] [= <-] _ _. }
  exists w1. eexists. split; [exact Hput|].
  split; [rewrite Hv1; apply get_fare_after_update|].
  split; [exact (on_fare_cache_eq _ _ _ _ _ _ Hfc1 Hinv)|].
  set (w2 := with_fare_cache _ _).
  rewrite (get_fare_reads_store w2 c' a b); [|done..].
  assert (db_view w2 = db_view w1) as -> by done.
  unfold store_fare. rewrite Hv1, get_fare_after_update.
  by rewrite (positive_is_truthy f Hf).
Qed.

(** *** The two readers of the rule table *)

Lemma get_all_fare_rules_get_fare (t : Database.Tables) f z v :
  Database.zone_pair_uc (Database.fare_rules t) ->
  ((f, z), v) ∈ Database.get_all_fare_rules t ->
  Database.get_fare t f z = Some v.
Proof.
  intros Huc Hin.
  rewrite (get_all_fare_rules_unique _ Huc) in Hin.
  apply list_elem_of_fmap in Hin as (r & Heq & Hr).
  unfold Database.zone_pair in Heq. injection Heq as Hf Hz Hv. subst f z v.
  unfold Database.get_fare.
  destruct (Database.first_rule _ _ _) as [r0|] eqn:Hfirst.
  - apply first_rule_Some in Hfirst as (Hr0 & Ha & Hb). simpl. do 2 f_equal.
    apply (NoDup_fmap_eq Database.zone_pair _ _ _ Huc Hr0 Hr).
    unfold Database.zone_pair. by rewrite Ha, Hb.
  - by destruct (first_rule_None _ _ _ r Hfirst Hr).
Qed.

(** The two readers of the rule table agree: on a table that respects
    its uniqueness constraint, the dict of [get_all_fare_rules] has
    exactly one entry per rule, keyed by the ordered zone pair of the
    rule, and [get_fare] answers every key of the dict with the fare
    the dict holds for it. *)
Theorem get_all_fare_rules_agrees_with_get_fare (t : Database.Tables) :
  Database.zone_pair_uc (Database.fare_rules t) ->
  NoDup (map fst (Database.get_all_fare_rules t))
  /\ length (Database.get_all_fare_rules t) = length (Database.fare_rules t)
  /\ (forall f z v,
        ((f, z), v) ∈ Database.get_all_fare_rules t
        <-> exists r, r ∈ Database.fare_rules t
                      /\ Database.zone_pair r = (f, z) /\ Database.fare r = v)
  /\ (forall f z v,
        ((f, z), v) ∈ Database.get_all_fare_rules t ->
        Database.get_fare t f z = Some v).
Proof.
  intros Huc. split; [|split; [|split]].
  - rewrite (get_all_fare_rules_unique _ Huc), map_map. exact Huc.
  - by rewrite (get_all_fare_rules_unique _ Huc), length_map.
  - intros f z v. rewrite (get_all_fare_rules_unique _ Huc), list_elem_of_fmap.
    split.
    + intros (r & [= -> ->] & Hr). by exists r.
    + intros (r & Hr & Hpair & Hfare). exists r. by rewrite Hpair, Hfare.
  - intros f z v. by apply get_all_fare_rules_get_fare.
Qed.

End RoundTrips.

(** ** The further theorems at work *)

Section MoreInstances.

(** Zone 4 is added to the default rules; its fare to zone 2 is found
    in both directions, and it cannot be added twice. *)
Lemma add_zone_new_zone_witness :
  exists t',
    Database.add_zone (tables Database.default_rules) 4 zone_four_fares
    = Database.Committed t'
    /\ Database.get_fare t' 4 2 = Some 60%float
    /\ Database.get_fare t' 2 4 = Some 60%float
    /\ Database.get_fare t' 1 2 = Some 55%float
    /\ Database.is_valid_zone t' 4 = true
    /\ Database.add_zone t' 4 zone_four_fares = Database.IntegrityError.
Proof.
  destruct (add_zone_new_zone (tables Database.default_rules) 4 zone_four_fares)
    as (t' & Hadd & _ & Hfares & Hother & Hzones & Hagain).
  - apply (bool_decide_unpack _). reflexivity.
  - apply (bool_decide_unpack _). reflexivity.
  - reflexivity.
  - exists t'. split; [exact Hadd|].
    destruct (Hfares 2 60%float) as [Hforth Hback].
    { apply list_elem_of_In. simpl. auto. }
    split; [exact Hforth|]. split; [exact Hback|].
    split. { rewrite Hother; [reflexivity|discriminate|discriminate]. }
    split. { apply Hzones. right. split; [discriminate|]. by left. }
    apply Hagain. discriminate.
Defined.

(** In a store with the zones 2, 4 and 5 the lowest zone and the
    highest zone enclose zone 4. *)
Lemma settings_min_max_zone_witness :
  exists lo hi,
    result_of Settings.get_min_zone far_zones_world = Returned lo
    /\ result_of Settings.get_max_zone far_zones_world = Returned hi
    /\ Database.is_valid_zone (db_view far_zones_world) lo = true
    /\ lo <= 4 <= hi.
Proof.
  destruct (settings_min_max_zone far_zones_world eq_refl)
    as (lo & hi & Hlo & Hhi & _ & Hrules).
  destruct Hrules as (Hvalid & _ & Hbounds); [discriminate|].
  exists lo, hi. split; [exact Hlo|]. split; [exact Hhi|]. split; [exact Hvalid|].
  apply Hbounds. reflexivity.
Defined.

(** [PUT /api/fare-rules] on the default rules: zone 0 is refused with
    422, zone 9 with 400, and setting the fare of (1, 2) to 60 is
    answered with 500 after the rule was written. *)
Lemma put_fare_rule_answers_witness :
  Endpoints.update_fare_rule 0 2 60%float default_world
  = (Raised (HTTPException 422), default_world)
  /\ (exists w', Endpoints.update_fare_rule 1 9 60%float default_world
                 = (Raised (HTTPException 400), w')
                 /\ _zones_cache w' = Some [1; 2; 3])
  /\ (exists w', Endpoints.update_fare_rule 1 2 60%float default_world
                 = (Raised (HTTPException 500), w')
                 /\ Database.get_fare (db_view w') 1 2 = Some 60%float).
Proof.
  split; [|split].
  - apply (proj1 (put_fare_rule_answers default_world 0 2 60%float)). left. reflexivity.
  - destruct (proj2 (put_fare_rule_answers default_world 1 9 60%float))
      as (w' & Hrun & _ & _ & Hzones & _); [discriminate|discriminate|reflexivity|].
    exists w'. split; [exact Hrun|]. rewrite Hzones. reflexivity.
  - destruct (proj2 (put_fare_rule_answers default_world 1 2 60%float))
      as (w' & Hrun & _ & Hfare & _); [discriminate|discriminate|reflexivity|].
    by exists w'.
Defined.

(** A process next to a server that comes and goes resolves (2, 1) to
    the fare of the rule (1, 2), before and after an hour of pause. *)
Lemma get_fare_is_store_fare_without_updates_witness :
  result_of (Settings.get_fare 2 1)
            (run [Resolve 2 1; Network false; Sleep 4000; Resolve 1 2; Network true]
                 networked_world)
  = Returned 55%float.
Proof.
  destruct (get_fare_is_store_fare_without_updates networked_world
              [Resolve 2 1; Network false; Sleep 4000; Resolve 1 2; Network true] 2 1)
    as [Hfare _].
  - apply (bool_decide_unpack _). reflexivity.
  - repeat constructor.
  - apply coherent_boot. reflexivity.
  - reflexivity.
  - rewrite Hfare. vm_compute. reflexivity.
Defined.

(** The process that still answers 55 for (1, 2) after the rule was set
    to 60 answers 60, in both directions, once its cache was
    invalidated. *)
Lemma invalidate_cache_restores_store_fares_witness :
  exists w',
    on_fare_cache (fun _ => Cache.invalidate_cache None None) updated_world
    = (Returned tt, w')
    /\ result_of (Settings.get_fare 2 1) (run [Resolve 1 2; Sleep 10] w')
       = Returned 60%float.
Proof.
  destruct (_fare_cache updated_world) as [c|] eqn:Hc;
    [|vm_compute in Hc; discriminate Hc].
  destruct (invalidate_cache_restores_store_fares updated_world c None None
              [Resolve 1 2; Sleep 10] 2 1 Hc) as (w' & Hrun & _ & Hfare).
  - reflexivity.
  - left. vm_compute in Hc. injection Hc as <-. reflexivity.
  - apply (bool_decide_unpack _). vm_compute. exact I.
  - vm_compute. repeat constructor.
  - reflexivity.
  - exists w'. split; [exact Hrun|]. rewrite Hfare. vm_compute. reflexivity.
Defined.




(** The same stale process answers 60 for (1, 2) right after
    [invalidate_cache(2, 1)]. *)
Lemma invalidated_pair_is_read_from_store_witness :
  exists w',
    on_fare_cache (fun _ => Cache.invalidate_cache (Some 2) (Some 1)) updated_world
    = (Returned tt, w')
    /\ result_of (Settings.get_fare 1 2) w' = Returned 60%float.
Proof.
  destruct (_fare_cache updated_world) as [c|] eqn:Hc;
    [|vm_compute in Hc; discriminate Hc].
  destruct (invalidated_pair_is_read_from_store updated_world c (Some 2) (Some 1) 1 2 Hc)
    as (w' & Hrun & _ & Hfare).
  - left. vm_compute in Hc. injection Hc as <-. reflexivity.
  - intros a b [= <-] [= <-] _ _. reflexivity.
  - exists w'. split; [exact Hrun|]. rewrite Hfare. vm_compute. reflexivity.
Defined.

(** The idle process, whose memo table still holds 55 for (1, 2),
    answers 60 once the rule was set to 60 and the pair invalidated. *)
Lemma update_then_invalidate_serves_new_fare_witness :
  exists w1 w2,
    Endpoints.update_fare_rule 1 2 60%float idle_world = (Raised (HTTPException 500), w1)
    /\ Database.get_fare (db_view w1) 1 2 = Some 60%float
    /\ on_fare_cache (fun _ => Cache.invalidate_cache (Some 1) (Some 2)) w1
       = (Returned tt, w2)
    /\ result_of (Settings.get_fare 1 2) w2 = Returned 60%float.
Proof.
  destruct (_fare_cache idle_world) as [c|] eqn:Hc;
    [|vm_compute in Hc; discriminate Hc].
  apply (update_then_invalidate_serves_new_fare idle_world c 1 2 60%float Hc).
  - left. vm_compute in Hc. injection Hc as <-. reflexivity.
  - discriminate.
  - discriminate.
  - reflexivity.
  - vm_compute. reflexivity.
  - vm_compute. reflexivity.
Defined.

(** The dict of the default rules has six entries, and [get_fare]
    answers 45 for its key (2, 3). *)
Lemma get_all_fare_rules_agrees_with_get_fare_witness :
  length (Database.get_all_fare_rules (tables Database.default_rules)) = 6%nat
  /\ Database.get_fare (tables Database.default_rules) 2 3 = Some 45%float.
Proof.
  destruct (get_all_fare_rules_agrees_with_get_fare (tables Database.default_rules))
    as (_ & Hlength & Hentries & Hfare).
  - apply (bool_decide_unpack _). reflexivity.
  - split; [exact Hlength|]. apply Hfare, Hentries.
    exists (rule 2 3 45%float). split; [|by split].
    apply list_elem_of_In. simpl. auto 10.
Defined.

(** Twenty journeys in zone 1 are answered in a fresh process, each
    with the fare 40 of the store and with the total 800; twenty-one
    are refused, and no fare cache was created for them. *)
Lemma batch_limit_boundary_witness :
  (exists r w',
     Endpoints.post_calculate_fares (H := ZoneBasedFareCalculator)
       (repeat (1, 1) 20) default_world = (Returned r, w')
     /\ map Models.journey (Models.journeys r) = repeat (journey 1 1) 20
     /\ map Models.fare (Models.journeys r) = repeat 40%float 20
     /\ Models.total_daily_fare r = 800%float
     /\ Models.journey_count r = 20)
  /\ (exists w',
        Endpoints.post_calculate_fares (H := ZoneBasedFareCalculator)
          (repeat (1, 1) 21) default_world = (Raised (HTTPException 422), w')
        /\ db_view w' = db_view default_world
        /\ _fare_cache w' = None).
Proof.
  split.
  - destruct (proj1 (batch_limit_boundary (repeat (1, 1) 20) default_world))
      as (r & w' & Hrun & Hj & _ & Hcount & Htotal & Hfares).
    + reflexivity.
    + repeat constructor.
    + assert (map Models.fare (Models.journeys r) = repeat 40%float 20) as Hforty.
      { rewrite Hfares; [reflexivity| | |].
        - apply (bool_decide_unpack _). reflexivity.
        - repeat constructor.
        - apply coherent_boot. reflexivity. }
      exists r, w'. split; [exact Hrun|]. split; [exact Hj|]. split; [exact Hforty|].
      split; [|exact Hcount].
      rewrite Htotal, Hforty. vm_compute. reflexivity.
  - destruct (proj2 (batch_limit_boundary (repeat (1, 1) 21) default_world))
      with (C := ZoneBasedFareCalculator) as (w' & Hrun & Hw').
    + reflexivity.
    + exists w'. split; [exact Hrun|].
      destruct Hw' as [->| ->]; split; reflexivity.
Defined.

End MoreInstances.
